(** * Smart Waste Management portal: data-and-rules layer

    A shallow embedding of the request handlers of
    [web_app_wastemanagement.py] that read or write the relational store
    (users, waste_collections, complaints, rewards) and the logged-in user
    kept in the Streamlit session, followed by the properties of the
    points rules, the registration and login paths, the collection status
    workflow and the segregation-rate figures.

    Conventions of the embedding:
    - a table is the list of its rows in insertion order;
    - [INTEGER] columns and Python integers are [Z] (the balances the
      handlers compute stay far inside SQLite's 64-bit range: every credit
      is at most 10 points);
    - [REAL] columns are carried as rationals and are never computed on;
    - [TEXT] columns are strings, except the columns holding one of a
      fixed set of words, which are enumerations;
    - the connection keeps the committed tables and the tables as the
      connection sees them, so that [conn.commit()] is an explicit step;
    - the presentation calls ([st.success], [st.error], ...) are returned as
      a list of messages;
    - a handler is the branch under a submit button; the code that draws
      the page around it (charts, maps, cards) writes nothing and is left
      out, together with the exceptions it may raise. *)

From Stdlib Require Import ZArith List String Ascii Bool Lia QArith.
From Stdlib Require Import Strings.Byte.
From Stdlib Require Import DecimalString.
From Stdlib Require DecimalN DecimalPos.
Import ListNotations.

Local Open Scope Z_scope.
Local Open Scope string_scope.

Set Implicit Arguments.

(** ** Schema *)

(** [waste_collections.status]: the three words the code writes. *)
Inductive collection_status := Scheduled | Collected | Processed.

(** [complaints.status]. *)
Inductive complaint_status := Pending | InProgress | Resolved.

(** A cell of the [segregated] column.  The form handler stores a Python
    [int]; the seeding code stores a NumPy integer, which sqlite3 writes as
    the bytes of the number, and the reader at the register page decodes
    both. *)
Inductive sql_cell :=
| CellInt (z : Z)
| CellBlob (b : list byte).

Record user_row := {
  u_id : Z;
  u_username : string;
  u_email : string;
  u_password_hash : string;
  u_full_name : string;
  u_phone : string;
  u_address : string;
  u_user_type : string;
  u_ward_number : string;
  u_unique_waste_id : string;
  u_registration_date : string;
  u_training_completed : Z;
  u_points : Z
}.

Record collection_row := {
  wc_id : Z;
  wc_user_id : Z;
  wc_collection_date : string;
  wc_waste_type : string;
  wc_weight_kg : Q;
  wc_segregated : sql_cell;
  wc_collected_by : option string;
  wc_vehicle_number : option string;
  wc_status : collection_status;
  wc_latitude : Q;
  wc_longitude : Q
}.

Record complaint_row := {
  cp_id : Z;
  cp_user_id : Z;
  cp_complaint_type : string;
  cp_description : string;
  cp_location : string;
  cp_latitude : Q;
  cp_longitude : Q;
  cp_status : complaint_status;
  cp_created_date : string;
  cp_resolved_date : option string
}.

Record reward_row := {
  rw_id : Z;
  rw_user_id : Z;
  rw_reward_type : string;
  rw_points_earned : Z;
  rw_description : string;
  rw_earned_date : string
}.

Record database := {
  users : list user_row;
  waste_collections : list collection_row;
  complaints : list complaint_row;
  rewards : list reward_row
}.

(** The sqlite3 connection shared by all handlers: [durable] is what has
    been committed, [current] is what statements on the connection read and
    write. *)
Record connection := {
  durable : database;
  current : database
}.

(** Column defaults of [CREATE TABLE]. *)
Definition default_user_type : string := "citizen".
Definition default_training_completed : Z := 0.
Definition default_points : Z := 0.
Definition default_collection_status : collection_status := Scheduled.
Definition default_complaint_status : complaint_status := Pending.

(** The dictionary [authenticate_user] returns and [st.session_state.user]
    holds. *)
Record session_user := {
  s_id : Z;
  s_username : string;
  s_email : string;
  s_full_name : string;
  s_phone : string;
  s_address : string;
  s_user_type : string;
  s_ward_number : string;
  s_unique_waste_id : string;
  s_points : Z
}.

Inductive message :=
| Success (text : string)
| Error (text : string)
| Warning (text : string).

(** ** Statements *)

(** [INTEGER PRIMARY KEY AUTOINCREMENT]: one more than the largest key;
    no handler deletes a row. *)
Definition next_id {A} (key : A -> Z) (rows : list A) : Z :=
  1 + fold_right (fun r m => Z.max (key r) m) 0 rows.

(** [SELECT * FROM users WHERE username = ?] followed by [fetchone()]. *)
Definition select_user_by_username (db : database) (username : string)
  : option user_row :=
  find (fun r => String.eqb (u_username r) username) (users db).

(** The row of a user id. *)
Definition select_user_by_id (db : database) (uid : Z) : option user_row :=
  find (fun r => Z.eqb (u_id r) uid) (users db).

(** The three [UNIQUE] columns of [users]. *)
Definition violates_unique (db : database) (r : user_row) : bool :=
  existsb (fun o => String.eqb (u_username o) (u_username r)
                    || String.eqb (u_email o) (u_email r)
                    || String.eqb (u_unique_waste_id o) (u_unique_waste_id r))
          (users db).

(** [INSERT INTO users ...]: [None] stands for [sqlite3.IntegrityError]. *)
Definition insert_user (db : database) (r : user_row) : option database :=
  if violates_unique db r then None
  else Some {| users := users db ++ [r];
               waste_collections := waste_collections db;
               complaints := complaints db;
               rewards := rewards db |}.

Definition insert_collection (db : database) (r : collection_row) : database :=
  {| users := users db;
     waste_collections := waste_collections db ++ [r];
     complaints := complaints db;
     rewards := rewards db |}.

Definition insert_complaint (db : database) (r : complaint_row) : database :=
  {| users := users db;
     waste_collections := waste_collections db;
     complaints := complaints db ++ [r];
     rewards := rewards db |}.

Definition add_points (n : Z) (r : user_row) : user_row :=
  {| u_id := u_id r; u_username := u_username r; u_email := u_email r;
     u_password_hash := u_password_hash r; u_full_name := u_full_name r;
     u_phone := u_phone r; u_address := u_address r;
     u_user_type := u_user_type r; u_ward_number := u_ward_number r;
     u_unique_waste_id := u_unique_waste_id r;
     u_registration_date := u_registration_date r;
     u_training_completed := u_training_completed r;
     u_points := u_points r + n |}.

(** [UPDATE users SET points = points + ? WHERE id = ?]. *)
Definition update_points (db : database) (n uid : Z) : database :=
  {| users := map (fun r => if Z.eqb (u_id r) uid then add_points n r else r)
                  (users db);
     waste_collections := waste_collections db;
     complaints := complaints db;
     rewards := rewards db |}.

Definition set_collection (st : collection_status) (by_ vehicle : string)
  (r : collection_row) : collection_row :=
  {| wc_id := wc_id r; wc_user_id := wc_user_id r;
     wc_collection_date := wc_collection_date r;
     wc_waste_type := wc_waste_type r; wc_weight_kg := wc_weight_kg r;
     wc_segregated := wc_segregated r;
     wc_collected_by := Some by_; wc_vehicle_number := Some vehicle;
     wc_status := st;
     wc_latitude := wc_latitude r; wc_longitude := wc_longitude r |}.

(** [UPDATE waste_collections SET status = ?, collected_by = ?,
    vehicle_number = ? WHERE id = ?]. *)
Definition update_collection (db : database) (st : collection_status)
  (by_ vehicle : string) (cid : Z) : database :=
  {| users := users db;
     waste_collections :=
       map (fun r => if Z.eqb (wc_id r) cid
                     then set_collection st by_ vehicle r else r)
           (waste_collections db);
     complaints := complaints db;
     rewards := rewards db |}.

Definition execute (f : database -> database) (c : connection) : connection :=
  {| durable := durable c; current := f (current c) |}.

(** [conn.commit()]. *)
Definition commit (c : connection) : connection :=
  {| durable := current c; current := current c |}.

(** ** Identity and credentials *)

Definition hex_digit (n : N) : ascii :=
  nth (N.to_nat n) (list_ascii_of_string "0123456789abcdef") "0"%char.

(** [bytes.hex()]: two lowercase digits per byte, high nibble first. *)
Definition byte_hex (b : byte) : string :=
  let n := Byte.to_N b in
  String (hex_digit (n / 16)) (String (hex_digit (n mod 16)) EmptyString).

Fixpoint bytes_hex (bs : list byte) : string :=
  match bs with
  | [] => EmptyString
  | b :: rest => byte_hex b ++ bytes_hex rest
  end.

(** [secrets.token_bytes(nbytes)]: the next [nbytes] bytes of the operating
    system's random source, which is an input of the model. *)
Definition token_bytes (nbytes : nat) (urandom : nat -> byte) : list byte :=
  map urandom (seq 0 nbytes).

(** [secrets.token_hex(nbytes)]. *)
Definition token_hex (nbytes : nat) (urandom : nat -> byte) : string :=
  bytes_hex (token_bytes nbytes urandom).

(** [str.upper()] on ASCII text. *)
Definition upper_char (c : ascii) : ascii :=
  let n := N_of_ascii c in
  if ((97 <=? n) && (n <=? 122))%N then ascii_of_N (n - 32) else c.

Fixpoint upper (s : string) : string :=
  match s with
  | EmptyString => EmptyString
  | String c rest => String (upper_char c) (upper rest)
  end.

(** How an f-string prints a non-negative integer. *)
Definition decimal (n : N) : string := NilZero.string_of_uint (N.to_uint n).

(** [f"WG{datetime.now().year}{secrets.token_hex(4).upper()}"]. *)
Definition make_unique_waste_id (year : N) (urandom : nat -> byte) : string :=
  "WG" ++ decimal year ++ upper (token_hex 4 urandom).

Definition is_upper_hex (c : ascii) : bool :=
  let n := N_of_ascii c in
  ((48 <=? n) && (n <=? 57) || (65 <=? n) && (n <=? 70))%N.

Fixpoint string_forallb (p : ascii -> bool) (s : string) : bool :=
  match s with
  | EmptyString => true
  | String c rest => p c && string_forallb p rest
  end.

(** The fields of the registration form. *)
Record register_form := {
  rf_username : string;
  rf_email : string;
  rf_password : string;
  rf_full_name : string;
  rf_phone : string;
  rf_address : string;
  rf_ward_number : string
}.

(** The dictionary built from a [users] row, by column position. *)
Definition user_dict (r : user_row) : session_user :=
  {| s_id := u_id r; s_username := u_username r; s_email := u_email r;
     s_full_name := u_full_name r; s_phone := u_phone r;
     s_address := u_address r; s_user_type := u_user_type r;
     s_ward_number := u_ward_number r;
     s_unique_waste_id := u_unique_waste_id r;
     s_points := u_points r |}.

Section Credentials.

(** [hashlib.sha256(text.encode()).hexdigest()]. *)
Variable sha256_hexdigest : string -> string.

Definition verify_password (password password_hash : string) : bool :=
  String.eqb (sha256_hexdigest password) password_hash.

Definition authenticate_user (c : connection) (username password : string)
  : option session_user :=
  match select_user_by_username (current c) username with
  | Some user =>
      if verify_password password (u_password_hash user)
      then Some (user_dict user)
      else None
  | None => None
  end.

(** The row [show_register] sends to [INSERT INTO users]; the columns the
    statement leaves out take their defaults. *)
Definition new_user_row (db : database) (f : register_form) (year : N)
  (urandom : nat -> byte) (now : string) : user_row :=
  {| u_id := next_id u_id (users db);
     u_username := rf_username f;
     u_email := rf_email f;
     u_password_hash := sha256_hexdigest (rf_password f);
     u_full_name := rf_full_name f;
     u_phone := rf_phone f;
     u_address := rf_address f;
     u_user_type := default_user_type;
     u_ward_number := rf_ward_number f;
     u_unique_waste_id := make_unique_waste_id year urandom;
     u_registration_date := now;
     u_training_completed := default_training_completed;
     u_points := default_points |}.

(** The submit branch of [show_register]. *)
Definition show_register (c : connection) (f : register_form) (year : N)
  (urandom : nat -> byte) (now : string) : connection * message :=
  match insert_user (current c)
          (new_user_row (current c) f year urandom now) with
  | Some db' =>
      (commit {| durable := durable c; current := db' |},
       Success "Registration successful! You can now log in.")
  | None => (c, Error "Username or email already exists.")
  end.

End Credentials.

(** ** Points rules *)

(** How an f-string prints an integer. *)
Definition format_int (z : Z) : string := NilZero.string_of_int (Z.to_int z).

Definition add_session_points (n : Z) (u : session_user) : session_user :=
  {| s_id := s_id u; s_username := s_username u; s_email := s_email u;
     s_full_name := s_full_name u; s_phone := s_phone u;
     s_address := s_address u; s_user_type := s_user_type u;
     s_ward_number := s_ward_number u;
     s_unique_waste_id := s_unique_waste_id u;
     s_points := s_points u + n |}.

(** The fields of the scheduling form that reach the database. *)
Record collection_form := {
  cf_waste_type : string;
  cf_weight_kg : Q;
  cf_collection_date : string;
  cf_segregated : bool;
  cf_latitude : Q;
  cf_longitude : Q
}.

Definition new_collection_row (db : database) (u : session_user)
  (f : collection_form) : collection_row :=
  {| wc_id := next_id wc_id (waste_collections db);
     wc_user_id := s_id u;
     wc_collection_date := cf_collection_date f;
     wc_waste_type := cf_waste_type f;
     wc_weight_kg := cf_weight_kg f;
     wc_segregated := CellInt (Z.b2z (cf_segregated f));
     wc_collected_by := None;
     wc_vehicle_number := None;
     wc_status := default_collection_status;
     wc_latitude := cf_latitude f;
     wc_longitude := cf_longitude f |}.

(** [points_earned = 10 if segregated else 5]. *)
Definition points_earned (segregated : bool) : Z :=
  if segregated then 10 else 5.

(** The two statements of the scheduling handler, before the commit. *)
Definition schedule_statements (u : session_user) (f : collection_form)
  (c : connection) : connection :=
  let c1 := execute (fun db => insert_collection db (new_collection_row db u f)) c in
  execute (fun db => update_points db (points_earned (cf_segregated f)) (s_id u)) c1.

(** The submit branch of [show_schedule_collection]. *)
Definition show_schedule_collection (c : connection) (u : session_user)
  (f : collection_form) : connection * session_user * list message :=
  let c2 := schedule_statements u f c in
  let u' := add_session_points (points_earned (cf_segregated f)) u in
  (commit c2, u',
   [Success ("Collection scheduled successfully! You earned "
             ++ format_int (points_earned (cf_segregated f)) ++ " points!")]).

(** The fields of the complaint form that reach the database. *)
Record complaint_form := {
  pf_complaint_type : string;
  pf_description : string;
  pf_location : string;
  pf_latitude : Q;
  pf_longitude : Q
}.

Definition new_complaint_row (db : database) (u : session_user)
  (f : complaint_form) (now : string) : complaint_row :=
  {| cp_id := next_id cp_id (complaints db);
     cp_user_id := s_id u;
     cp_complaint_type := pf_complaint_type f;
     cp_description := pf_description f;
     cp_location := pf_location f;
     cp_latitude := pf_latitude f;
     cp_longitude := pf_longitude f;
     cp_status := default_complaint_status;
     cp_created_date := now;
     cp_resolved_date := None |}.

Definition complaint_statements (u : session_user) (f : complaint_form)
  (now : string) (c : connection) : connection :=
  let c1 := execute (fun db => insert_complaint db (new_complaint_row db u f now)) c in
  execute (fun db => update_points db 5 (s_id u)) c1.

(** The submit branch of [show_complaints]. *)
Definition show_complaints (c : connection) (u : session_user)
  (f : complaint_form) (now : string)
  : connection * session_user * list message :=
  let c2 := complaint_statements u f now c in
  (commit c2, add_session_points 5 u,
   [Success "Complaint submitted successfully! You earned 5 points for reporting."]).

Record training_module := {
  m_title : string;
  m_points : Z
}.

Definition modules : list training_module :=
  [ {| m_title := "Waste Classification & Identification"; m_points := 50 |};
    {| m_title := "Source Segregation Best Practices"; m_points := 75 |};
    {| m_title := "Home Composting Workshop"; m_points := 100 |};
    {| m_title := "Plastic Waste Management"; m_points := 80 |} ].

(** The start button of module [i] in [show_training]: only the session
    dictionary is written. *)
Definition show_training (u : session_user) (i : nat)
  : session_user * list message :=
  match nth_error modules i with
  | Some module =>
      (add_session_points (m_points module) u,
       [Success ("Module completed! You earned "
                 ++ format_int (m_points module) ++ " points!")])
  | None => (u, [])
  end.

Record product := {
  p_name : string;
  p_price : Z;
  p_points : Z;
  p_stock : Z;
  p_category : string
}.

Definition products : list product :=
  [ {| p_name := "3-Bin Segregation Set"; p_price := 1500; p_points := 300;
       p_stock := 10; p_category := "Equipment" |};
    {| p_name := "Compost Kit"; p_price := 2000; p_points := 400;
       p_stock := 5; p_category := "Composting" |};
    {| p_name := "Eco Bags (Set of 5)"; p_price := 500; p_points := 100;
       p_stock := 20; p_category := "Accessories" |};
    {| p_name := "Organic Fertilizer"; p_price := 800; p_points := 160;
       p_stock := 15; p_category := "Garden" |};
    {| p_name := "Solar Waste Bin"; p_price := 5000; p_points := 1000;
       p_stock := 3; p_category := "Technology" |};
    {| p_name := "Safety Gloves"; p_price := 300; p_points := 60;
       p_stock := 25; p_category := "Safety" |} ].

(** The card of one product in [show_shop]: [quantity] is the value of the
    number input and [clicked] tells whether the user pressed Buy.  A
    disabled button never reports a click. *)
Definition show_shop (u : session_user) (p : product) (quantity : Z)
  (clicked : bool) : session_user * list message :=
  let can_afford := s_points u >=? p_points p in
  let '(u', shown) :=
    if clicked && can_afford then
      let total_points := p_points p * quantity in
      if s_points u >=? total_points
      then (add_session_points (- total_points) u,
            [Success ("Purchased " ++ format_int quantity ++ "x "
                      ++ p_name p ++ "!")])
      else (u, [Error "Insufficient points!"])
    else (u, []) in
  (u', if can_afford then shown
       else (shown ++ [Warning "Insufficient points"])%list).

(** ** Collection status workflow *)

Definition status_eqb (a b : collection_status) : bool :=
  match a, b with
  | Scheduled, Scheduled | Collected, Collected | Processed, Processed => true
  | _, _ => false
  end.

(** The position of a status on the path scheduled, collected, processed. *)
Definition status_rank (s : collection_status) : nat :=
  match s with
  | Scheduled => 0
  | Collected => 1
  | Processed => 2
  end.

Definition select_collection (db : database) (cid : Z) : option collection_row :=
  find (fun r => Z.eqb (wc_id r) cid) (waste_collections db).

(** [FROM waste_collections wc JOIN users u ON wc.user_id = u.id]. *)
Definition join_users (db : database) (rows : list collection_row)
  : list (collection_row * user_row) :=
  flat_map (fun wc =>
              map (pair wc)
                  (filter (fun u => Z.eqb (u_id u) (wc_user_id wc)) (users db)))
           rows.

(** How far a row may move in one or more requests: its status stays, or
    the row was still scheduled. *)
Definition moved_forward (before after : collection_row) : Prop :=
  wc_status after = wc_status before \/ wc_status before = Scheduled.

Section Worker.

(** SQLite's [date(...)] of a stored text, [None] for [NULL]. *)
Variable sqlite_date : string -> option string.

(** The query of [show_worker_collections]; [today] is [date('now')].
    Its [ORDER BY] only orders the page. *)
Definition today_collections (db : database) (today : string)
  : list (collection_row * user_row) :=
  join_users db
    (filter (fun wc => match sqlite_date (wc_collection_date wc) with
                       | Some d => String.eqb d today
                       | None => false
                       end)
            (waste_collections db)).

(** The Update button of collection [cid] on the worker's page.  The
    select box and the button exist only in the expander of a listed
    collection whose status is scheduled. *)
Definition show_worker_collections (c : connection) (worker : session_user)
  (today : string) (cid : Z) (new_status : collection_status)
  (vehicle_number : string) : connection * list message :=
  if existsb (fun row => Z.eqb (wc_id (fst row)) cid
                         && status_eqb (wc_status (fst row)) Scheduled)
             (today_collections (current c) today)
  then (commit (execute (fun db => update_collection db new_status
                                     (s_full_name worker) vehicle_number cid)
                        c),
        [Success "Collection updated!"])
  else (c, []).

(** One press of an Update button. *)
Record update_attempt := {
  a_worker : session_user;
  a_today : string;
  a_collection : Z;
  a_new_status : collection_status;
  a_vehicle_number : string
}.

Definition attempt (c : connection) (a : update_attempt) : connection :=
  fst (show_worker_collections c (a_worker a) (a_today a) (a_collection a)
         (a_new_status a) (a_vehicle_number a)).

End Worker.

(** ** Segregation rate *)

(** [get_waste_data()], read through the connection; the five-minute cache
    in front of it is left out. *)
Definition get_waste_data (c : connection) : list (collection_row * user_row) :=
  join_users (current c) (waste_collections (current c)).

(** The [segregated] column of a frame. *)
Definition segregated_column (waste_data : list (collection_row * user_row))
  : list sql_cell :=
  map (fun row => wc_segregated (fst row)) waste_data.

(** A float: a number, carried exactly, or NaN. *)
Inductive float :=
| Num (q : Q)
| NaN.

(** A Python value of the kinds a column sum can produce. *)
Inductive pyval :=
| PyInt (z : Z)
| PyBytes (b : list byte).

Inductive outcome (A : Type) :=
| Returns (a : A)
| TypeError.
Arguments Returns {A} a.
Arguments TypeError {A}.

Definition cell_value (x : sql_cell) : pyval :=
  match x with
  | CellInt z => PyInt z
  | CellBlob b => PyBytes b
  end.

(** Python's [+] on these values. *)
Definition py_add (a b : pyval) : outcome pyval :=
  match a, b with
  | PyInt x, PyInt y => Returns (PyInt (x + y))
  | PyBytes x, PyBytes y => Returns (PyBytes (x ++ y))
  | _, _ => TypeError
  end.

(** [Series.sum()]: zero on no rows, otherwise the rows added up from the
    first one on. *)
Definition series_sum (col : list sql_cell) : outcome pyval :=
  match col with
  | [] => Returns (PyInt 0)
  | x :: rest =>
      fold_left (fun acc y => match acc with
                              | Returns a => py_add a (cell_value y)
                              | TypeError => TypeError
                              end)
                rest (Returns (cell_value x))
  end.

(** [int.from_bytes(b, 'little')]. *)
Fixpoint int_from_bytes_little (b : list byte) : Z :=
  match b with
  | [] => 0
  | x :: rest => Z.of_N (Byte.to_N x) + 256 * int_from_bytes_little rest
  end.

(** [lambda x: int.from_bytes(x, 'little') if isinstance(x, bytes) else int(x)]. *)
Definition cell_to_int (x : sql_cell) : Z :=
  match x with
  | CellBlob b => int_from_bytes_little b
  | CellInt z => z
  end.

Definition sum_Z (l : list Z) : Z := fold_right Z.add 0 l.

(** [Series.mean()]: NaN on no rows. *)
Definition series_mean (l : list Z) : float :=
  match l with
  | [] => NaN
  | _ => Num (inject_Z (sum_Z l) / inject_Z (Z.of_nat (List.length l)))
  end.

Definition float_mul (x : float) (k : Q) : float :=
  match x with
  | Num q => Num (q * k)
  | NaN => NaN
  end.

(** [segregation_rate] of the register page, line 619:
    [waste_data['segregated'].apply(...).mean() * 100].  The line comes
    after the charts of lines 577-616, and the bar chart of line 591 raises
    on a frame without rows: there the line is not reached and no rate is
    computed, which [None] stands for.  Whether the charts draw on a given
    frame with rows is not followed. *)
Definition register_segregation_rate
  (waste_data : list (collection_row * user_row)) : option float :=
  match waste_data with
  | [] => None
  | _ :: _ =>
      Some (float_mul
              (series_mean (map cell_to_int (segregated_column waste_data)))
              100)
  end.

(** [segregation_rate] of [create_efficiency_dashboard]:
    [(segregated_collections / total_collections) * 100
     if total_collections > 0 else 0]. *)
Definition efficiency_segregation_rate
  (waste_data : list (collection_row * user_row)) : outcome float :=
  let total_collections := Z.of_nat (List.length waste_data) in
  match series_sum (segregated_column waste_data) with
  | TypeError => TypeError
  | Returns segregated_collections =>
      if total_collections >? 0 then
        match segregated_collections with
        | PyInt s => Returns (Num (inject_Z s / inject_Z total_collections * 100))
        | PyBytes _ => TypeError
        end
      else Returns (Num 0)
  end.

(** What the rates are meant to report: the number of rows of a column
    whose flag is set, and the columns that hold nothing but flags. *)
Definition segregated_count (col : list sql_cell) : Z :=
  Z.of_nat (List.length (filter (fun x => Z.eqb (cell_to_int x) 1) col)).

Definition is_flag (x : sql_cell) : bool :=
  Z.eqb (cell_to_int x) 0 || Z.eqb (cell_to_int x) 1.

Definition stored_as_int (x : sql_cell) : bool :=
  match x with
  | CellInt _ => true
  | CellBlob _ => false
  end.

(** The exact value of [count / total * 100]. *)
Definition percentage (count total : Z) : Q :=
  inject_Z count / inject_Z total * 100.

(** ** Rewards ledger and the citizen's operations *)

(** The sum of the point deltas the [rewards] table records for a user. *)
Definition ledger_sum (db : database) (uid : Z) : Z :=
  sum_Z (map rw_points_earned
             (filter (fun r => Z.eqb (rw_user_id r) uid) (rewards db))).

(** The [points] column of a user's row. *)
Definition stored_points (db : database) (uid : Z) : option Z :=
  option_map u_points (select_user_by_id db uid).

(** Every stored balance equals the ledger sum of its user. *)
Definition balance_matches_ledger (db : database) : bool :=
  forallb (fun r => Z.eqb (u_points r) (ledger_sum db (u_id r))) (users db).

(** The point-earning and point-spending operations of a logged-in user. *)
Inductive operation :=
| ScheduleCollection (f : collection_form)
| FileComplaint (f : complaint_form) (now : string)
| CompleteTraining (i : nat)
| ShopPurchase (p : product) (quantity : Z).

Definition perform (st : connection * session_user) (op : operation)
  : connection * session_user :=
  let '(c, u) := st in
  match op with
  | ScheduleCollection f =>
      let '(c', u', _) := show_schedule_collection c u f in (c', u')
  | FileComplaint f now =>
      let '(c', u', _) := show_complaints c u f now in (c', u')
  | CompleteTraining i => (c, fst (show_training u i))
  | ShopPurchase p quantity => (c, fst (show_shop u p quantity true))
  end.

Definition perform_all (st : connection * session_user) (ops : list operation)
  : connection * session_user :=
  fold_left perform ops st.

(** What an operation adds to the [points] column of the user's row. *)
Definition stored_credit (op : operation) : Z :=
  match op with
  | ScheduleCollection f => if cf_segregated f then 10 else 5
  | FileComplaint _ _ => 5
  | CompleteTraining _ => 0
  | ShopPurchase _ _ => 0
  end.

Definition stored_credits (ops : list operation) : Z :=
  sum_Z (map stored_credit ops).

(** ** The portal as a whole *)

Section Portal.

Variable sha256_hexdigest : string -> string.
Variable sqlite_date : string -> option string.

(** A request that can write to the store: a registration, an operation of
    a logged-in citizen, or a worker pressing Update.  The session of the
    requester comes with the request. *)
Inductive event :=
| Registration (f : register_form) (year : N) (urandom : nat -> byte)
    (now : string)
| CitizenOperation (u : session_user) (op : operation)
| StatusUpdate (a : update_attempt).

Definition handle (c : connection) (e : event) : connection :=
  match e with
  | Registration f year urandom now =>
      fst (show_register sha256_hexdigest c f year urandom now)
  | CitizenOperation u op => fst (perform (c, u) op)
  | StatusUpdate a => attempt sqlite_date c a
  end.

Definition handle_all (c : connection) (evs : list event) : connection :=
  fold_left handle evs c.

End Portal.

(** ** Sample data for the examples *)

Module Sample.

Definition alice : user_row :=
  {| u_id := 1; u_username := "alice"; u_email := "alice@example.com";
     u_password_hash := "h(wonderland)"; u_full_name := "Alice";
     u_phone := "9876500001"; u_address := "Address 1";
     u_user_type := "citizen"; u_ward_number := "Ward 2";
     u_unique_waste_id := "WG20240001";
     u_registration_date := "2024-05-01 10:00:00";
     u_training_completed := 0; u_points := 0 |}.

Definition db0 : database :=
  {| users := [alice]; waste_collections := []; complaints := [];
     rewards := [] |}.

Definition conn0 : connection := {| durable := db0; current := db0 |}.

Definition wet_collection : collection_form :=
  {| cf_waste_type := "wet"; cf_weight_kg := 7 # 2;
     cf_collection_date := "2024-05-02"; cf_segregated := true;
     cf_latitude := 286139 # 10000; cf_longitude := 772090 # 10000 |}.

Definition missed : complaint_form :=
  {| pf_complaint_type := "Missed Collection";
     pf_description := "Not collected this week";
     pf_location := "Address 1";
     pf_latitude := 286139 # 10000; pf_longitude := 772090 # 10000 |}.

(** A stand-in for the digest, for the examples only. *)
Definition toy_digest (s : string) : string := "h(" ++ s ++ ")".

Definition zeros (_ : nat) : byte := x00.

Definition bob_form : register_form :=
  {| rf_username := "bob"; rf_email := "bob@example.com";
     rf_password := "builder"; rf_full_name := "Bob"; rf_phone := "9876500002";
     rf_address := "Address 2"; rf_ward_number := "Ward 3" |}.

Definition alice_again : register_form :=
  {| rf_username := "alice"; rf_email := "other@example.com";
     rf_password := "pw"; rf_full_name := "Alice B"; rf_phone := "1";
     rf_address := "Elsewhere"; rf_ward_number := "Ward 9" |}.

(** A collection row as the seeding code leaves it: the flag is the
    eight bytes of a NumPy integer. *)
Definition seeded_collection : collection_row :=
  {| wc_id := 1; wc_user_id := 1;
     wc_collection_date := "2024-05-01 10:00:00"; wc_waste_type := "dry";
     wc_weight_kg := 25 # 2;
     wc_segregated := CellBlob [x01; x00; x00; x00; x00; x00; x00; x00];
     wc_collected_by := None; wc_vehicle_number := None;
     wc_status := Processed;
     wc_latitude := 286139 # 10000; wc_longitude := 772090 # 10000 |}.

Definition seeded_conn : connection :=
  let db := {| users := [alice]; waste_collections := [seeded_collection];
               complaints := []; rewards := [] |} in
  {| durable := db; current := db |}.

(** The store after Bob's registration. *)
Definition conn_bob : connection :=
  fst (show_register toy_digest conn0 bob_form 2025 zeros "2025-01-01 00:00:00").

(** A draw of the random source that starts with the bytes DE AD BE EF. *)
Definition dice (i : nat) : byte := nth i [xde; xad; xbe; xef] x00.

Definition carol_form : register_form :=
  {| rf_username := "carol"; rf_email := "carol@example.com";
     rf_password := "sesame"; rf_full_name := "Carol"; rf_phone := "9876500003";
     rf_address := "Address 3"; rf_ward_number := "Ward 4" |}.

(** The store after Carol's registration. *)
Definition conn_carol : connection :=
  fst (show_register toy_digest conn0 carol_form 2025 dice
         "2025-03-01 00:00:00").

Definition gloves : product :=
  {| p_name := "Safety Gloves"; p_price := 300; p_points := 60;
     p_stock := 25; p_category := "Safety" |}.

(** Alice's session once she holds 150 points. *)
Definition alice_150 : session_user := add_session_points 150 (user_dict alice).

(** The date part of a stored timestamp, for the examples only. *)
Definition first_ten (s : string) : option string := Some (substring 0 10 s).

Definition pickup : collection_row :=
  {| wc_id := 7; wc_user_id := 1;
     wc_collection_date := "2024-05-02"; wc_waste_type := "wet";
     wc_weight_kg := 7 # 2; wc_segregated := CellInt 1;
     wc_collected_by := None; wc_vehicle_number := None;
     wc_status := Scheduled;
     wc_latitude := 286139 # 10000; wc_longitude := 772090 # 10000 |}.

Definition pickup_conn : connection :=
  let db := {| users := [alice]; waste_collections := [pickup];
               complaints := []; rewards := [] |} in
  {| durable := db; current := db |}.

Definition worker : session_user :=
  {| s_id := 12; s_username := "worker1"; s_email := "worker1@waste.com";
     s_full_name := "Worker One"; s_phone := "9000000001";
     s_address := "Depot"; s_user_type := "worker"; s_ward_number := "Ward 2";
     s_unique_waste_id := "WRK001"; s_points := 0 |}.

Definition press (st : collection_status) : update_attempt :=
  {| a_worker := worker; a_today := "2024-05-02"; a_collection := 7;
     a_new_status := st; a_vehicle_number := "DL01AB1234" |}.

(** The worker marks the pickup collected, then tries to put it back to
    scheduled, while Alice schedules another pickup in between. *)
Definition day : list event :=
  [ StatusUpdate (press Collected);
    CitizenOperation (user_dict alice) (ScheduleCollection wet_collection);
    StatusUpdate (press Scheduled) ].

End Sample.

(** * The rest of the portal *)

(** ** Facilities and vehicles *)

Record facility_row := {
  fa_id : Z;
  fa_name : string;
  fa_facility_type : string;
  fa_address : string;
  fa_latitude : Q;
  fa_longitude : Q;
  fa_capacity_tpd : Q;
  fa_contact_number : string;
  fa_operational_hours : string
}.

Record vehicle_row := {
  ve_id : Z;
  ve_vehicle_number : string;
  ve_vehicle_type : string;
  ve_capacity_tons : Q;
  ve_current_latitude : Q;
  ve_current_longitude : Q;
  ve_driver_name : string;
  ve_driver_phone : string;
  ve_status : string;
  ve_last_updated : string
}.

(** The two tables of the store that the citizen's handlers never touch.
    Every statement on them is committed by the handler that issues it, so
    one copy of them is kept. *)
Record infrastructure := {
  facilities : list facility_row;
  vehicles : list vehicle_row
}.

(** The exceptions the model follows.  They are the ones raised in place
    of a change of state: by a statement that SQLite refuses, by the sidebar
    subscripting a session dictionary that is [None], by [list.index] on a
    vehicle status that the select box does not list, and by the loop of
    the flow lines.  The code that draws a page (charts, maps, cards,
    buttons outside the forms) is not embedded: it writes nothing to the
    store or to the session, and no drawing sits between a write and its
    commit, so an exception raised there ends the run with the branch of
    the pressed button either not reached or committed.  [Done] therefore
    tells what state a run leaves when that branch is reached, not that
    the page was drawn to its end. *)
Inductive exception :=
| IntegrityError
| NoneNotSubscriptable
| ValueError
| ZeroDivisionError
| IndexError.

Inductive run (A : Type) :=
| Done (a : A)
| Fails (e : exception).
Arguments Done {A} a.
Arguments Fails {A} e.

(** The fields of the facility form. *)
Record facility_form := {
  ff_name : string;
  ff_facility_type : string;
  ff_address : string;
  ff_capacity : Q;
  ff_contact : string;
  ff_hours : string;
  ff_latitude : Q;
  ff_longitude : Q
}.

Definition new_facility_row (infra : infrastructure) (f : facility_form)
  : facility_row :=
  {| fa_id := next_id fa_id (facilities infra);
     fa_name := ff_name f;
     fa_facility_type := ff_facility_type f;
     fa_address := ff_address f;
     fa_latitude := ff_latitude f;
     fa_longitude := ff_longitude f;
     fa_capacity_tpd := ff_capacity f;
     fa_contact_number := ff_contact f;
     fa_operational_hours := ff_hours f |}.

Definition insert_facility (infra : infrastructure) (r : facility_row)
  : infrastructure :=
  {| facilities := facilities infra ++ [r]; vehicles := vehicles infra |}.

(** The submit branch of the form in [show_facilities]. *)
Definition show_facilities (c : connection) (infra : infrastructure)
  (f : facility_form) : connection * infrastructure * list message :=
  (commit c, insert_facility infra (new_facility_row infra f),
   [Success "Facility added successfully!"]).

(** [INSERT INTO vehicles ...]: [vehicle_number] is [UNIQUE]. *)
Definition insert_vehicle (infra : infrastructure) (r : vehicle_row)
  : option infrastructure :=
  if existsb (fun o => String.eqb (ve_vehicle_number o) (ve_vehicle_number r))
             (vehicles infra)
  then None
  else Some {| facilities := facilities infra;
               vehicles := vehicles infra ++ [r] |}.

Definition vehicle_status_options : list string :=
  ["idle"; "collecting"; "in_transit"; "maintenance"].

Definition set_vehicle (lat lon : Q) (status now : string) (r : vehicle_row)
  : vehicle_row :=
  {| ve_id := ve_id r; ve_vehicle_number := ve_vehicle_number r;
     ve_vehicle_type := ve_vehicle_type r;
     ve_capacity_tons := ve_capacity_tons r;
     ve_current_latitude := lat; ve_current_longitude := lon;
     ve_driver_name := ve_driver_name r; ve_driver_phone := ve_driver_phone r;
     ve_status := status; ve_last_updated := now |}.

(** [UPDATE vehicles SET current_latitude = ?, current_longitude = ?,
    status = ?, last_updated = datetime('now') WHERE vehicle_number = ?]. *)
Definition update_vehicle (infra : infrastructure) (lat lon : Q)
  (status now number : string) : infrastructure :=
  {| facilities := facilities infra;
     vehicles :=
       map (fun r => if String.eqb (ve_vehicle_number r) number
                     then set_vehicle lat lon status now r else r)
           (vehicles infra) |}.

Definition in_options (x : string) (options : list string) : bool :=
  existsb (String.eqb x) options.

(** The Update Location form of [show_vehicle_tracking].  The vehicle is
    picked in a select box over the vehicle numbers; nothing is drawn for
    an empty pick.  Drawing the status select box looks the current status
    up in the list of options with [list.index], which raises for a status
    that is not listed. *)
Definition show_vehicle_tracking (c : connection) (infra : infrastructure)
  (selected_vehicle : string) (new_lat new_lon : Q) (new_status now : string)
  : run (connection * infrastructure * list message) :=
  match find (fun r => String.eqb (ve_vehicle_number r) selected_vehicle)
             (vehicles infra) with
  | None => Done (c, infra, [])
  | Some vehicle_info =>
      if String.eqb selected_vehicle "" then Done (c, infra, [])
      else if in_options (ve_status vehicle_info) vehicle_status_options then
        if in_options new_status vehicle_status_options then
          Done (commit c,
                update_vehicle infra new_lat new_lon new_status now
                  selected_vehicle,
                [Success "Location updated!"])
        else Done (c, infra, [])
      else Fails ValueError
  end.

(** ** Seeding of an empty store *)

(** [f'{i:0Nd}'] for a non-negative [i]. *)
Definition zero_pad (width : nat) (i : N) : string :=
  let s := decimal i in
  string_of_list_ascii (repeat "0"%char (width - String.length s)) ++ s.

(** What the seeding draws from NumPy's generator for one collection. *)
Record collection_draw := {
  d_user_id : Z;
  d_waste_type : string;
  d_weight_kg : Q;
  d_segregated : bool;
  d_status : collection_status;
  d_latitude : Q;
  d_longitude : Q
}.

(** The generator: the points of citizen [i] and the draws of collection
    [i]. *)
Record seed_draws := {
  draw_points : nat -> Z;
  draw_collection : nat -> collection_draw
}.

(** The bytes of the 64-bit NumPy integer that [np.random.choice([0, 1])]
    returns, as sqlite3 stores them. *)
Definition numpy_int64_bytes (flag : bool) : list byte :=
  (if flag then x01 else x00) :: repeat x00 7.

Section Seeding.

Variable sha256_hexdigest : string -> string.
Variable draws : seed_draws.

(** The current timestamp, for the columns that default to it. *)
Variable now : string.

Definition seed_admin (db : database) : user_row :=
  {| u_id := next_id u_id (users db);
     u_username := "admin"; u_email := "admin@waste.com";
     u_password_hash := sha256_hexdigest "admin123";
     u_full_name := "System Administrator"; u_phone := "9999999999";
     u_address := "Admin Office"; u_user_type := "admin";
     u_ward_number := "ADMIN"; u_unique_waste_id := "ADMIN001";
     u_registration_date := now;
     u_training_completed := default_training_completed;
     u_points := 1000 |}.

Definition seed_citizen (db : database) (i : nat) : user_row :=
  let n := N.of_nat i in
  {| u_id := next_id u_id (users db);
     u_username := "user" ++ decimal n;
     u_email := "user" ++ decimal n ++ "@example.com";
     u_password_hash := sha256_hexdigest ("user" ++ decimal n ++ "123");
     u_full_name := "User " ++ decimal n;
     u_phone := "98765" ++ zero_pad 5 n;
     u_address := "Address " ++ decimal n;
     u_user_type := "citizen";
     u_ward_number := "Ward " ++ decimal (n mod 5 + 1);
     u_unique_waste_id := "WG2024" ++ zero_pad 4 n;
     u_registration_date := now;
     u_training_completed := default_training_completed;
     u_points := draw_points draws i |}.

Definition seed_collection (db : database) (i : nat) : collection_row :=
  let d := draw_collection draws i in
  {| wc_id := next_id wc_id (waste_collections db);
     wc_user_id := d_user_id d;
     wc_collection_date := now;
     wc_waste_type := d_waste_type d;
     wc_weight_kg := d_weight_kg d;
     wc_segregated := CellBlob (numpy_int64_bytes (d_segregated d));
     wc_collected_by := None;
     wc_vehicle_number := None;
     wc_status := d_status d;
     wc_latitude := d_latitude d;
     wc_longitude := d_longitude d |}.

(** The inserts of a [for] loop over users; the first failing one ends the
    loop with the exception. *)
Fixpoint insert_users (db : database) (rows : list (database -> user_row))
  : option database :=
  match rows with
  | [] => Some db
  | row :: rest =>
      match insert_user db (row db) with
      | Some db' => insert_users db' rest
      | None => None
      end
  end.

Definition seed_users (db : database) : option database :=
  insert_users db
    (seed_admin :: map (fun i db => seed_citizen db i) (seq 1 10)).

Definition seed_collections (db : database) : database :=
  fold_left (fun db i => insert_collection db (seed_collection db i))
            (seq 1 50) db.

Definition facilities_data : list facility_form :=
  [ {| ff_name := "Green Recycling Center";
       ff_facility_type := "recycling_center";
       ff_address := "Sector 21, Delhi"; ff_capacity := 50;
       ff_contact := "011-12345678"; ff_hours := "9 AM - 6 PM";
       ff_latitude := 286139 # 10000; ff_longitude := 772090 # 10000 |};
    {| ff_name := "Compost Processing Plant";
       ff_facility_type := "composting";
       ff_address := "Sector 15, Delhi"; ff_capacity := 30;
       ff_contact := "011-87654321"; ff_hours := "24/7";
       ff_latitude := 286239 # 10000; ff_longitude := 772190 # 10000 |};
    {| ff_name := "E-Waste Collection Point";
       ff_facility_type := "e_waste";
       ff_address := "Sector 18, Delhi"; ff_capacity := 10;
       ff_contact := "011-11223344"; ff_hours := "10 AM - 5 PM";
       ff_latitude := 286039 # 10000; ff_longitude := 771990 # 10000 |} ].

Definition seed_facilities (infra : infrastructure) : infrastructure :=
  fold_left (fun infra f => insert_facility infra (new_facility_row infra f))
            facilities_data infra.

(** A row of [vehicles_data], completed with the key and the timestamp. *)
Definition seed_vehicle (number type_ : string) (capacity lat lon : Q)
  (driver phone status : string) (infra : infrastructure) : vehicle_row :=
  {| ve_id := next_id ve_id (vehicles infra);
     ve_vehicle_number := number; ve_vehicle_type := type_;
     ve_capacity_tons := capacity;
     ve_current_latitude := lat; ve_current_longitude := lon;
     ve_driver_name := driver; ve_driver_phone := phone;
     ve_status := status; ve_last_updated := now |}.

Definition vehicles_data : list (infrastructure -> vehicle_row) :=
  [ seed_vehicle "DL01AB1234" "garbage_truck" 5 (286139 # 10000)
      (772090 # 10000) "Driver A" "9876543210" "collecting";
    seed_vehicle "DL01CD5678" "garbage_truck" 7 (286239 # 10000)
      (772190 # 10000) "Driver B" "9876543211" "idle";
    seed_vehicle "DL01EF9012" "recycling_truck" 3 (286339 # 10000)
      (772290 # 10000) "Driver C" "9876543212" "collecting" ].

Fixpoint insert_vehicles (infra : infrastructure)
  (rows : list (infrastructure -> vehicle_row)) : option infrastructure :=
  match rows with
  | [] => Some infra
  | row :: rest =>
      match insert_vehicle infra (row infra) with
      | Some infra' => insert_vehicles infra' rest
      | None => None
      end
  end.

(** The body of [init_database] after the tables exist: sample rows are
    inserted when the users table is empty, and the connection is
    committed. *)
Definition init_database (c : connection) (infra : infrastructure)
  : run (connection * infrastructure) :=
  match users (current c) with
  | [] =>
      match seed_users (current c) with
      | None => Fails IntegrityError
      | Some db1 =>
          match insert_vehicles (seed_facilities infra) vehicles_data with
          | None => Fails IntegrityError
          | Some infra' =>
              Done (commit {| durable := durable c;
                              current := seed_collections db1 |},
                    infra')
          end
      end
  | _ :: _ => Done (commit c, infra)
  end.

End Seeding.

(** ** Session, menu and dispatch *)

(** [st.session_state]. *)
Record session_state := {
  logged_in : bool;
  user : option session_user
}.

(** The state [main] sets up on the first run of a browser session. *)
Definition initial_session : session_state :=
  {| logged_in := false; user := None |}.

(** The store and one browser session. *)
Record portal := {
  p_conn : connection;
  p_infra : infrastructure;
  p_session : session_state
}.

(** The entries of the navigation menu, by the role of the session. *)
Definition menu_options (user_type : string) : list string :=
  if String.eqb user_type "admin" then
    ["Dashboard"; "Analytics"; "User Management"; "Facilities"; "Vehicles";
     "Reports"; "3D Visualizations"]
  else if String.eqb user_type "worker" then
    ["Dashboard"; "Collections"; "Vehicle Tracking"; "Reports"]
  else
    ["Dashboard"; "Schedule Collection"; "Track Waste"; "Complaints"; "Shop";
     "Training"; "3D Views"].

(** The page functions [main] can call for a logged-in session. *)
Inductive page :=
| ShowDashboard
| ShowAnalytics
| ShowUserManagement
| ShowFacilities
| ShowVehicles
| ShowReports
| Show3DVisualizations
| ShowScheduleCollection
| ShowTrackWaste
| ShowComplaints
| ShowShop
| ShowTraining
| Show3DViews
| ShowWorkerCollections
| ShowVehicleTracking.

(** The chain of comparisons on [selected] at the end of [main]. *)
Definition dispatch (selected : string) : option page :=
  if String.eqb selected "Dashboard" then Some ShowDashboard
  else if String.eqb selected "Analytics" then Some ShowAnalytics
  else if String.eqb selected "User Management" then Some ShowUserManagement
  else if String.eqb selected "Facilities" then Some ShowFacilities
  else if String.eqb selected "Vehicles" then Some ShowVehicles
  else if String.eqb selected "Reports" then Some ShowReports
  else if String.eqb selected "3D Visualizations" then Some Show3DVisualizations
  else if String.eqb selected "Schedule Collection" then Some ShowScheduleCollection
  else if String.eqb selected "Track Waste" then Some ShowTrackWaste
  else if String.eqb selected "Complaints" then Some ShowComplaints
  else if String.eqb selected "Shop" then Some ShowShop
  else if String.eqb selected "Training" then Some ShowTraining
  else if String.eqb selected "3D Views" then Some Show3DViews
  else if String.eqb selected "Collections" then Some ShowWorkerCollections
  else if String.eqb selected "Vehicle Tracking" then Some ShowVehicleTracking
  else None.

(** A form submission or button press on a page.  The values come as the
    widgets deliver them; the bounds of the widgets are not imposed, so
    what is proved holds for every value. *)
Inductive widget :=
| SubmitCollection (f : collection_form)
| SubmitComplaint (f : complaint_form) (now : string)
| StartModule (i : nat)
| Buy (i : nat) (quantity : Z)
| UpdateCollection (today : string) (cid : Z) (new_status : collection_status)
    (vehicle_number : string)
| AddFacility (f : facility_form)
| UpdateLocation (selected_vehicle : string) (new_lat new_lon : Q)
    (new_status now : string).

(** One run of the script with one event. *)
Inductive request :=
| Login (username password : string)
| Register (f : register_form) (year : N) (urandom : nat -> byte)
    (now : string)
| Logout
| OnPage (selected : string) (w : widget).

Definition with_session (s : portal) (ss : session_state) : portal :=
  {| p_conn := p_conn s; p_infra := p_infra s; p_session := ss |}.

Definition logged_in_as (u : session_user) : session_state :=
  {| logged_in := true; user := Some u |}.

(** Whether the selection of a request is an entry of the menu that the
    sidebar draws for a role.  A menu returns one of the entries it was
    given, so a request made through the page as drawn is offered; nothing
    in [main] or in the pages checks it. *)
Definition offered (user_type : string) (r : request) : bool :=
  match r with
  | OnPage selected _ => in_options selected (menu_options user_type)
  | Login _ _ | Register _ _ _ _ | Logout => true
  end.

Section Main.

Variable sha256_hexdigest : string -> string.
Variable sqlite_date : string -> option string.

(** The submit branch of [show_login]. *)
Definition show_login (c : connection) (ss : session_state)
  (username password : string) : session_state * list message :=
  match authenticate_user sha256_hexdigest c username password with
  | Some u => (logged_in_as u, [Success "Login successful!"])
  | None => (ss, [Error "Invalid credentials!"])
  end.

(** What the page function called for [pg] does to the state on the event
    [w]: the branch under the pressed submit button.  An event of a widget
    that the page does not draw cannot occur and changes nothing.  The
    drawing code around the branch is left out, see [exception]. *)
Definition page_event (pg : page) (s : portal) (u : session_user) (w : widget)
  : run (portal * list message) :=
  match pg, w with
  | ShowScheduleCollection, SubmitCollection f =>
      let '(c', u', shown) := show_schedule_collection (p_conn s) u f in
      Done ({| p_conn := c'; p_infra := p_infra s;
               p_session := logged_in_as u' |}, shown)
  | ShowComplaints, SubmitComplaint f now =>
      let '(c', u', shown) := show_complaints (p_conn s) u f now in
      Done ({| p_conn := c'; p_infra := p_infra s;
               p_session := logged_in_as u' |}, shown)
  | ShowTraining, StartModule i =>
      let '(u', shown) := show_training u i in
      Done (with_session s (logged_in_as u'), shown)
  | ShowShop, Buy i quantity =>
      match nth_error products i with
      | Some p =>
          let '(u', shown) := show_shop u p quantity true in
          Done (with_session s (logged_in_as u'), shown)
      | None => Done (s, [])
      end
  | ShowWorkerCollections, UpdateCollection today cid new_status vehicle_number =>
      let '(c', shown) :=
        show_worker_collections sqlite_date (p_conn s) u today cid new_status
          vehicle_number in
      Done ({| p_conn := c'; p_infra := p_infra s;
               p_session := p_session s |}, shown)
  | ShowFacilities, AddFacility f =>
      let '(c', infra', shown) := show_facilities (p_conn s) (p_infra s) f in
      Done ({| p_conn := c'; p_infra := infra'; p_session := p_session s |},
            shown)
  | ShowVehicleTracking, UpdateLocation selected_vehicle new_lat new_lon
                           new_status now =>
      match show_vehicle_tracking (p_conn s) (p_infra s) selected_vehicle
              new_lat new_lon new_status now with
      | Done (c', infra', shown) =>
          Done ({| p_conn := c'; p_infra := infra';
                   p_session := p_session s |}, shown)
      | Fails e => Fails e
      end
  | _, _ => Done (s, [])
  end.

(** [main]: the sidebar, then the page.  Logged out, only the login and
    the registration forms exist.  Logged in, the sidebar reads the session
    dictionary and draws the Logout button, and [selected], the value the
    navigation menu returned, is compared with the page names.  The menu is
    drawn from [menu_options] of the role; the comparisons do not look at
    the role again, and [selected] is taken as it comes. *)
Definition main (s : portal) (r : request) : run (portal * list message) :=
  if logged_in (p_session s) then
    match user (p_session s) with
    | None => Fails NoneNotSubscriptable
    | Some u =>
        match r with
        | Logout => Done (with_session s initial_session, [])
        | OnPage selected w =>
            match dispatch selected with
            | Some pg => page_event pg s u w
            | None => Done (s, [])
            end
        | Login _ _ | Register _ _ _ _ => Done (s, [])
        end
    end
  else
    match r with
    | Login username password =>
        let '(ss, shown) :=
          show_login (p_conn s) (p_session s) username password in
        Done (with_session s ss, shown)
    | Register f year urandom now =>
        let '(c', shown) :=
          show_register sha256_hexdigest (p_conn s) f year urandom now in
        Done ({| p_conn := c'; p_infra := p_infra s;
                 p_session := p_session s |}, [shown])
    | Logout | OnPage _ _ => Done (s, [])
    end.

(** The server: the shared store and the session state of every browser
    session that has connected.  Streamlit runs the script once per event
    of a session; the runs are taken one after the other. *)
Record site := {
  site_conn : connection;
  site_infra : infrastructure;
  site_sessions : list session_state
}.

Inductive arrival :=
| Connect
| Request (i : nat) (r : request).

Definition set_nth {A} (i : nat) (x : A) (l : list A) : list A :=
  (firstn i l ++ x :: skipn (S i) l)%list.

(** One arrival: a new browser session starts with the initial session
    state; a request of session [i] is a run of [main] on the store and
    that session's state. *)
Definition arrive (s : site) (a : arrival) : run (site * list message) :=
  match a with
  | Connect =>
      Done ({| site_conn := site_conn s; site_infra := site_infra s;
               site_sessions := (site_sessions s ++ [initial_session])%list |},
            [])
  | Request i r =>
      match nth_error (site_sessions s) i with
      | None => Done (s, [])
      | Some ss =>
          match main {| p_conn := site_conn s; p_infra := site_infra s;
                        p_session := ss |} r with
          | Done (p, shown) =>
              Done ({| site_conn := p_conn p; site_infra := p_infra p;
                       site_sessions :=
                         set_nth i (p_session p) (site_sessions s) |},
                    shown)
          | Fails e => Fails e
          end
      end
  end.

(** Whether the request of an arrival is offered to the session it comes
    from. *)
Definition arrival_offered (s : site) (a : arrival) : bool :=
  match a with
  | Connect => true
  | Request i r =>
      match nth_error (site_sessions s) i with
      | Some {| user := Some u |} => offered (s_user_type u) r
      | _ => true
      end
  end.

(** Whether every request of a sequence is offered when it arrives. *)
Fixpoint all_offered (s : site) (arrivals : list arrival) : bool :=
  match arrivals with
  | [] => true
  | a :: rest =>
      arrival_offered s a
      && match arrive s a with
         | Done (s', _) => all_offered s' rest
         | Fails _ => true
         end
  end.

(** A sequence of arrivals; the first exception ends it. *)
Fixpoint serve (s : site) (arrivals : list arrival) : run site :=
  match arrivals with
  | [] => Done s
  | a :: rest =>
      match arrive s a with
      | Done (s', _) => serve s' rest
      | Fails e => Fails e
      end
  end.

End Main.

(** ** What a request may change *)

(** A users row is kept when nothing but its points changed, upwards. *)
Definition user_kept (r r' : user_row) : Prop :=
  exists n, 0 <= n /\ r' = add_points n r.

(** A collection row is kept when it is unchanged or, having been
    scheduled, was stamped by a worker. *)
Definition collection_kept (r r' : collection_row) : Prop :=
  r' = r
  \/ (wc_status r = Scheduled
      /\ exists st by_ vehicle, r' = set_collection st by_ vehicle r).

(** A vehicle row is kept when it is unchanged or its position, status and
    timestamp were set, the status to a listed one. *)
Definition vehicle_kept (r r' : vehicle_row) : Prop :=
  r' = r
  \/ exists lat lon status now,
       In status vehicle_status_options
       /\ r' = set_vehicle lat lon status now r.

(** [l'] holds the rows of [l], each kept, in their places, followed by
    new rows. *)
Definition extends {A} (kept : A -> A -> Prop) (fresh : A -> Prop)
  (l l' : list A) : Prop :=
  exists old new,
    l' = (old ++ new)%list /\ Forall2 kept l old /\ Forall fresh new.

Record grows (db db' : database) : Prop := {
  grows_users :
    extends user_kept (fun r => u_user_type r = "citizen")
      (users db) (users db');
  grows_collections :
    extends collection_kept (fun _ => True)
      (waste_collections db) (waste_collections db');
  grows_complaints :
    extends eq (fun r => cp_status r = Pending)
      (complaints db) (complaints db');
  grows_rewards : rewards db' = rewards db
}.

Record infra_grows (infra infra' : infrastructure) : Prop := {
  grows_facilities :
    extends eq (fun _ => True) (facilities infra) (facilities infra');
  grows_vehicles : Forall2 vehicle_kept (vehicles infra) (vehicles infra')
}.

(** ** What the store and the sessions keep *)

(** The primary keys and the [UNIQUE] columns hold distinct values. *)
Record keys_distinct (db : database) : Prop := {
  distinct_user_ids : NoDup (map u_id (users db));
  distinct_usernames : NoDup (map u_username (users db));
  distinct_emails : NoDup (map u_email (users db));
  distinct_waste_ids : NoDup (map u_unique_waste_id (users db));
  distinct_collection_ids : NoDup (map wc_id (waste_collections db));
  distinct_complaint_ids : NoDup (map cp_id (complaints db))
}.

(** Every collection and every complaint belongs to a user of the table. *)
Record references_valid (db : database) : Prop := {
  collections_owned :
    Forall (fun r => In (wc_user_id r) (map u_id (users db)))
           (waste_collections db);
  complaints_owned :
    Forall (fun r => In (cp_user_id r) (map u_id (users db)))
           (complaints db)
}.

(** The dictionary of a session agrees with a row of the users table on
    everything but the points. *)
Definition dict_of_row (u : session_user) (row : user_row) : Prop :=
  add_session_points (u_points row - s_points u) u = user_dict row.

(** A session is either logged out with no dictionary, or logged in with
    the dictionary of a user of the table. *)
Definition session_sound (db : database) (ss : session_state) : Prop :=
  if logged_in ss
  then exists u row, user ss = Some u /\ In row (users db) /\ dict_of_row u row
  else user ss = None.

(** The store is in order: nothing is left uncommitted, the keys are
    distinct, the references are valid and every vehicle has a listed
    status. *)
Record store_sound (c : connection) (infra : infrastructure) : Prop := {
  sound_committed : durable c = current c;
  sound_keys : keys_distinct (current c);
  sound_references : references_valid (current c);
  sound_vehicles :
    Forall (fun v => In (ve_status v) vehicle_status_options) (vehicles infra)
}.

Definition sound (s : site) : Prop :=
  store_sound (site_conn s) (site_infra s)
  /\ Forall (session_sound (current (site_conn s))) (site_sessions s).

(** ** Figures shown on the pages *)

(** SQL's [SUM] over a column of reals: [NULL] on no rows. *)
Definition sql_sum (col : list Q) : option Q :=
  match col with
  | [] => None
  | _ => Some (fold_left Qplus col 0%Q)
  end.

Definition count_pending (rows : list complaint_row) : Z :=
  Z.of_nat (List.length
              (filter (fun r => match cp_status r with
                                | Pending => true
                                | _ => false
                                end) rows)).

Record dashboard_stats := {
  total_users : Z;
  total_waste_collected : Q;
  active_complaints : Z;
  facilities_count : Z
}.

Section Dashboard.

(** Python's [round(x, 2)]. *)
Variable round2 : Q -> Q.

(** [get_dashboard_stats()], read through the connection; the five-minute
    cache in front of it is left out. *)
Definition get_dashboard_stats (c : connection) (infra : infrastructure)
  : dashboard_stats :=
  let total_waste :=
    match sql_sum (map wc_weight_kg (waste_collections (current c))) with
    | Some total => total
    | None => 0%Q
    end in
  {| total_users := Z.of_nat (List.length (users (current c)));
     total_waste_collected := round2 total_waste;
     active_complaints := count_pending (complaints (current c));
     facilities_count := Z.of_nat (List.length (facilities infra)) |}.

End Dashboard.

(** The four numbers at the top of [show_user_management]. *)
Definition show_user_management (c : connection) : Z * Z * Z * float :=
  let users_df := users (current c) in
  let of_type t := filter (fun r => String.eqb (u_user_type r) t) users_df in
  (Z.of_nat (List.length users_df),
   Z.of_nat (List.length (of_type "citizen")),
   Z.of_nat (List.length (of_type "worker")),
   series_mean (map u_points users_df)).

Definition processed_count (waste_data : list (collection_row * user_row)) : Z :=
  Z.of_nat (List.length
              (filter (fun row => status_eqb (wc_status (fst row)) Processed)
                      waste_data)).

(** The two rates of [create_efficiency_dashboard]: the segregation rate
    comes first, and an exception in it ends the function. *)
Definition create_efficiency_dashboard
  (waste_data : list (collection_row * user_row)) : outcome (float * float) :=
  let total_collections := Z.of_nat (List.length waste_data) in
  match efficiency_segregation_rate waste_data with
  | TypeError => TypeError
  | Returns segregation_rate =>
      let processing_rate :=
        if total_collections >? 0
        then Num (percentage (processed_count waste_data) total_collections)
        else Num 0 in
      Returns (segregation_rate, processing_rate)
  end.

(** The flow lines of the Waste Flow tab of [show_advanced_3d]:
    [for i in range(min(10, len(waste_data)))], each line from collection
    [i] to facility [i % len(facilities_data)]. *)
Fixpoint flow_lines_from {A B} (indices : list nat) (waste_data : list A)
  (facilities_data : list B) : run (list (A * B)) :=
  match indices with
  | [] => Done []
  | i :: rest =>
      match List.length facilities_data with
      | O => Fails ZeroDivisionError
      | S _ =>
          match nth_error facilities_data
                  (i mod List.length facilities_data),
                nth_error waste_data i with
          | Some nearest_facility, Some source =>
              match flow_lines_from rest waste_data facilities_data with
              | Done lines => Done ((source, nearest_facility) :: lines)
              | Fails e => Fails e
              end
          | _, _ => Fails IndexError
          end
      end
  end.

(** The loop as the tab reaches it.  The markers of the facilities are
    drawn before the loop and raise on a frame without rows (line 1599),
    and a seeded store has collections and facilities; so both frames come
    with a first row. *)
Definition flow_lines {A B} (source : A) (more_sources : list A)
  (facility : B) (more_facilities : list B) : run (list (A * B)) :=
  let waste_data := source :: more_sources in
  let facilities_data := facility :: more_facilities in
  flow_lines_from (seq 0 (Nat.min 10 (List.length waste_data))) waste_data
    facilities_data.

Record report_metrics := {
  rm_total_collections : Z;
  rm_total_weight : Q;
  rm_segregation_rate : float;
  rm_active_users : Z
}.

Section Reports.

Variable sqlite_date : string -> option string.

(** The query of [show_reports]:
    [WHERE date(wc.collection_date) BETWEEN ? AND ?], the two dates bound
    as ISO texts and compared as texts. *)
Definition report_data (db : database) (start_date end_date : string)
  : list (collection_row * user_row) :=
  join_users db
    (filter (fun wc => match sqlite_date (wc_collection_date wc) with
                       | Some d => String.leb start_date d
                                   && String.leb d end_date
                       | None => false
                       end)
            (waste_collections db)).

(** The summary metrics of [show_reports], or its warning when the range
    holds no collection. *)
Definition show_reports (c : connection) (start_date end_date : string)
  : outcome (option report_metrics * list message) :=
  let waste_data := report_data (current c) start_date end_date in
  match waste_data with
  | [] =>
      Returns (None, [Warning "No data available for the selected date range."])
  | _ :: _ =>
      let total := Z.of_nat (List.length waste_data) in
      match series_sum (segregated_column waste_data) with
      | Returns (PyInt s) =>
          Returns
            (Some {| rm_total_collections := total;
                     rm_total_weight :=
                       fold_left Qplus
                         (map (fun row => wc_weight_kg (fst row)) waste_data)
                         0%Q;
                     rm_segregation_rate := Num (percentage s total);
                     rm_active_users :=
                       Z.of_nat
                         (List.length
                            (nodup Z.eq_dec
                               (map (fun row => wc_user_id (fst row))
                                    waste_data))) |},
             [])
      | _ => TypeError
      end
  end.

End Reports.

(** ** Reading a tracking code back *)

Definition hex_value (c : ascii) : N :=
  let n := N_of_ascii c in
  if (n <=? 57)%N then n - 48 else n - 55.

(** The number that a text of decimal digits writes. *)
Definition decimal_value (s : string) : option N :=
  option_map N.of_uint (NilZero.uint_of_string s).

(** The bytes behind a text of upper-case hexadecimal digits. *)
Fixpoint bytes_of_upper_hex (s : string) : list byte :=
  match s with
  | String hi (String lo rest) =>
      match Byte.of_N (16 * hex_value hi + hex_value lo) with
      | Some b => b :: bytes_of_upper_hex rest
      | None => []
      end
  | _ => []
  end.

(** ** Sample data for the rest of the portal *)

Definition empty_database : database :=
  {| users := []; waste_collections := []; complaints := []; rewards := [] |}.

Definition empty_connection : connection :=
  {| durable := empty_database; current := empty_database |}.

Definition empty_infrastructure : infrastructure :=
  {| facilities := []; vehicles := [] |}.

(** No user of the table is a worker, none is an admin. *)
Definition no_user_of_type (t : string) (db : database) : Prop :=
  Forall (fun r => u_user_type r <> t) (users db).

(** Whether a column holds a value that came back as bytes. *)
Definition has_blob (col : list sql_cell) : bool :=
  existsb (fun x => negb (stored_as_int x)) col.

(** Whether the elements of a list are pairwise different. *)
Fixpoint distinctb {A} (eqb : A -> A -> bool) (l : list A) : bool :=
  match l with
  | [] => true
  | x :: rest => negb (existsb (eqb x) rest) && distinctb eqb rest
  end.

Module Demo.

(** One registered citizen, no collection yet, no browser session. *)
Definition site0 : site :=
  {| site_conn := Sample.conn0;
     site_infra := empty_infrastructure;
     site_sessions := [] |}.

(** A browser connects, Alice logs in, schedules a segregated pickup,
    files a complaint, completes the first training module and logs
    out. *)
Definition visit : list arrival :=
  [ Connect;
    Request 0 (Login "alice" "wonderland");
    Request 0 (OnPage "Schedule Collection"
                 (SubmitCollection Sample.wet_collection));
    Request 0 (OnPage "Complaints"
                 (SubmitComplaint Sample.missed "2024-05-02 09:00:00"));
    Request 0 (OnPage "Training" (StartModule 0));
    Request 0 Logout ].

(** Alice, logged in, on the store of [site0]. *)
Definition alice_portal : portal :=
  {| p_conn := Sample.conn0;
     p_infra := empty_infrastructure;
     p_session := logged_in_as (user_dict Sample.alice) |}.

(** Draws for the seeding: owners go round users 2 to 10, every other
    flag is set. *)
Definition draws : seed_draws :=
  {| draw_points := fun i => 50 + Z.of_nat i;
     draw_collection := fun i =>
       {| d_user_id := 2 + Z.of_nat (i mod 9);
          d_waste_type := "organic";
          d_weight_kg := 5 # 2;
          d_segregated := Nat.even i;
          d_status := Scheduled;
          d_latitude := 286139 # 10000;
          d_longitude := 772090 # 10000 |} |}.

End Demo.

(** * Properties *)

(** ** Statements and the tables they touch *)

(** An update that leaves the searched column alone finds the updated
    version of the row that was found before. *)
Lemma find_map_same_key {A} (p : A -> bool) (g : A -> A) (rows : list A) :
  (forall r, p (g r) = p r) ->
  find p (map g rows) = option_map g (find p rows).
Proof.
  intros Hkey. induction rows as [|r rows IH]; cbn [map find]; [reflexivity|].
  rewrite Hkey. destruct (p r); [reflexivity | exact IH].
Qed.

Lemma update_points_row_key (n uid : Z) (r : user_row) :
  let r' := if Z.eqb (u_id r) uid then add_points n r else r in
  u_id r' = u_id r /\ u_username r' = u_username r
  /\ u_password_hash r' = u_password_hash r.
Proof. cbv zeta. destruct (Z.eqb (u_id r) uid); repeat split. Qed.

Lemma select_user_update_points (db : database) (n uid x : Z) :
  select_user_by_id (update_points db n uid) x =
  option_map (fun r => if Z.eqb (u_id r) uid then add_points n r else r)
             (select_user_by_id db x).
Proof.
  unfold select_user_by_id, update_points. cbn [users].
  apply find_map_same_key. intros r.
  now rewrite (proj1 (update_points_row_key n uid r)).
Qed.

Lemma select_username_update_points (db : database) (n uid : Z)
  (username : string) :
  select_user_by_username (update_points db n uid) username =
  option_map (fun r => if Z.eqb (u_id r) uid then add_points n r else r)
             (select_user_by_username db username).
Proof.
  unfold select_user_by_username, update_points. cbn [users].
  apply find_map_same_key. intros r.
  now rewrite (proj1 (proj2 (update_points_row_key n uid r))).
Qed.

Lemma stored_points_update_points (db : database) (n uid x : Z) :
  stored_points (update_points db n uid) x =
  option_map (fun b => if Z.eqb x uid then b + n else b) (stored_points db x).
Proof.
  unfold stored_points. rewrite select_user_update_points.
  unfold select_user_by_id.
  destruct (find (fun r => Z.eqb (u_id r) x) (users db)) as [r|] eqn:Hf;
    simpl; [|reflexivity].
  apply find_some in Hf. destruct Hf as [_ Hx].
  apply Z.eqb_eq in Hx. rewrite Hx.
  destruct (Z.eqb x uid); reflexivity.
Qed.

Lemma next_id_fresh {A} (key : A -> Z) (rows : list A) (r : A) :
  In r rows -> key r < next_id key rows.
Proof.
  unfold next_id. induction rows as [|x rows IH]; cbn [In fold_right].
  - intros [].
  - intros [->|Hin]; [lia|]. specialize (IH Hin). lia.
Qed.

Lemma option_map_id_ext {A} (f : A -> A) (o : option A) :
  (forall a, f a = a) -> option_map f o = o.
Proof. intros H. destruct o; simpl; [now rewrite H | reflexivity]. Qed.

(** ** Scheduling a collection *)

(** C2: a scheduling submission appends one collection row for the
    scheduling user, with status scheduled, and raises that user's stored
    balance and the session's copy by 10 when the segregated box is ticked
    and by 5 otherwise; no other user's balance moves.  Neither statement
    is committed on its own: the committed tables are the old ones until
    the handler's single commit, and hold both changes after it. *)
Theorem schedule_collection_credits_points
  (c : connection) (u : session_user) (f : collection_form) :
  let delta := if cf_segregated f then 10 else 5 in
  let c' := fst (fst (show_schedule_collection c u f)) in
  let u' := snd (fst (show_schedule_collection c u f)) in
  (exists row,
      waste_collections (current c')
      = (waste_collections (current c) ++ [row])%list
      /\ wc_user_id row = s_id u
      /\ wc_status row = Scheduled
      /\ wc_segregated row = CellInt (Z.b2z (cf_segregated f)))
  /\ stored_points (current c') (s_id u) =
     option_map (fun before => before + delta) (stored_points (current c) (s_id u))
  /\ (forall other, other <> s_id u ->
        stored_points (current c') other = stored_points (current c) other)
  /\ s_points u' = s_points u + delta
  /\ durable (schedule_statements u f c) = durable c
  /\ durable c' = current c'.
Proof.
  cbv zeta. cbn [show_schedule_collection fst snd].
  split; [|split; [|split; [|split; [|split]]]].
  - eexists. split; [reflexivity|]. now split.
  - cbn. rewrite stored_points_update_points, Z.eqb_refl. reflexivity.
  - intros other Hne. cbn. rewrite stored_points_update_points.
    apply Z.eqb_neq in Hne. rewrite Hne.
    apply option_map_id_ext. reflexivity.
  - reflexivity.
  - reflexivity.
  - reflexivity.
Qed.

(** ** Filing a complaint *)

(** C5: a complaint submission appends exactly one complaint row, owned by
    the filing user and with status pending, and raises that user's stored
    balance and the session's copy by 5; the change is committed. *)
Theorem complaint_creates_pending_row_and_credits_five
  (c : connection) (u : session_user) (f : complaint_form) (now : string) :
  let c' := fst (fst (show_complaints c u f now)) in
  let u' := snd (fst (show_complaints c u f now)) in
  (exists row,
      complaints (current c') = (complaints (current c) ++ [row])%list
      /\ cp_user_id row = s_id u
      /\ cp_status row = Pending)
  /\ List.length (complaints (current c')) = S (List.length (complaints (current c)))
  /\ stored_points (current c') (s_id u) =
     option_map (fun before => before + 5) (stored_points (current c) (s_id u))
  /\ (forall other, other <> s_id u ->
        stored_points (current c') other = stored_points (current c) other)
  /\ s_points u' = s_points u + 5
  /\ durable c' = current c'.
Proof.
  cbv zeta. cbn [show_complaints fst snd].
  split; [|split; [|split; [|split; [|split]]]].
  - eexists. split; [reflexivity|]. now split.
  - cbn. rewrite length_app. simpl. lia.
  - cbn. rewrite stored_points_update_points, Z.eqb_refl. reflexivity.
  - intros other Hne. cbn. rewrite stored_points_update_points.
    apply Z.eqb_neq in Hne. rewrite Hne.
    apply option_map_id_ext. reflexivity.
  - reflexivity.
  - reflexivity.
Qed.

(** ** The rewards ledger *)

Lemma show_shop_keeps_id (u : session_user) (p : product) (quantity : Z)
  (clicked : bool) : s_id (fst (show_shop u p quantity clicked)) = s_id u.
Proof.
  unfold show_shop.
  destruct (clicked && (s_points u >=? p_points p)); [|reflexivity].
  destruct (s_points u >=? p_points p * quantity); reflexivity.
Qed.

Lemma show_training_keeps_id (u : session_user) (i : nat) :
  s_id (fst (show_training u i)) = s_id u.
Proof. unfold show_training. destruct (nth_error modules i); reflexivity. Qed.

(** One operation: the session stays with the same user, the [rewards]
    table is not written, and the user's row gains [stored_credit]. *)
Lemma perform_effect (c : connection) (u : session_user) (op : operation) :
  s_id (snd (perform (c, u) op)) = s_id u
  /\ rewards (current (fst (perform (c, u) op))) = rewards (current c)
  /\ forall x,
       stored_points (current (fst (perform (c, u) op))) x =
       option_map (fun b => if Z.eqb x (s_id u) then b + stored_credit op else b)
                  (stored_points (current c) x).
Proof.
  destruct op as [f|f now|i|p quantity]; cbn [perform fst snd].
  - split; [reflexivity|]. split; [reflexivity|]. intros x. cbn.
    rewrite stored_points_update_points. reflexivity.
  - split; [reflexivity|]. split; [reflexivity|]. intros x. cbn.
    rewrite stored_points_update_points. reflexivity.
  - split; [apply show_training_keeps_id|]. split; [reflexivity|].
    intros x. symmetry. apply option_map_id_ext.
    intros b. cbn. destruct (Z.eqb x (s_id u)); lia.
  - split; [apply show_shop_keeps_id|]. split; [reflexivity|].
    intros x. symmetry. apply option_map_id_ext.
    intros b. cbn. destruct (Z.eqb x (s_id u)); lia.
Qed.

Lemma perform_all_cons (st : connection * session_user) (op : operation)
  (ops : list operation) :
  perform_all st (op :: ops) = perform_all (perform st op) ops.
Proof. reflexivity. Qed.

Lemma ledger_sum_rewards (db db' : database) (uid : Z) :
  rewards db' = rewards db -> ledger_sum db' uid = ledger_sum db uid.
Proof. unfold ledger_sum. intros ->. reflexivity. Qed.

(** C1, as the code has it: no operation writes a row of the rewards
    table, so every user's ledger sum stays what it was, while the stored
    balance of the logged-in user grows by the credits of the scheduling
    and complaint submissions (10 or 5, and 5); training modules and shop
    purchases leave every stored balance alone, and so does any operation
    for the other users.  A balance that agreed with the ledger before the
    operations agrees with it after them only if they credited nothing. *)
Theorem stored_balance_moves_without_ledger_rows
  (c : connection) (u : session_user) (ops : list operation) :
  let c' := fst (perform_all (c, u) ops) in
  rewards (current c') = rewards (current c)
  /\ (forall uid, ledger_sum (current c') uid = ledger_sum (current c) uid)
  /\ stored_points (current c') (s_id u) =
     option_map (fun before => before + stored_credits ops)
                (stored_points (current c) (s_id u))
  /\ (forall other, other <> s_id u ->
        stored_points (current c') other = stored_points (current c) other)
  /\ (forall before,
        stored_points (current c) (s_id u) = Some before ->
        before = ledger_sum (current c) (s_id u) ->
        (stored_points (current c') (s_id u)
         = Some (ledger_sum (current c') (s_id u))
         <-> stored_credits ops = 0)).
Proof.
  cbv zeta.
  assert (H : rewards (current (fst (perform_all (c, u) ops)))
              = rewards (current c)
              /\ (forall uid, ledger_sum (current (fst (perform_all (c, u) ops))) uid
                              = ledger_sum (current c) uid)
              /\ stored_points (current (fst (perform_all (c, u) ops))) (s_id u)
                 = option_map (fun before => before + stored_credits ops)
                     (stored_points (current c) (s_id u))
              /\ (forall other, other <> s_id u ->
                    stored_points (current (fst (perform_all (c, u) ops))) other
                    = stored_points (current c) other));
    [|destruct H as (Hrw & Hled & Hme & Hother);
      repeat (split; [assumption|]);
      intros before Hb Heq; rewrite Hme, Hb, Hled, <- Heq; cbn [option_map];
      split; [intros [= E]; lia | intros ->; f_equal; lia]].
  revert c u.
  induction ops as [|op ops IH]; intros c u.
  - cbn. split; [reflexivity|]. split; [reflexivity|].
    split; [|reflexivity].
    symmetry. apply option_map_id_ext. intros b. unfold stored_credits. cbn. lia.
  - rewrite perform_all_cons.
    destruct (perform_effect c u op) as (Hid & Hrw & Hpts).
    destruct (perform (c, u) op) as [c1 u1] eqn:Hst. cbn [fst snd] in *.
    destruct (IH c1 u1) as (IHrw & _ & IHme & IHother).
    assert (Hr : rewards (current (fst (perform_all (c1, u1) ops)))
                 = rewards (current c)) by now rewrite IHrw.
    split; [exact Hr|].
    split; [intros uid; now apply ledger_sum_rewards|].
    split.
    + rewrite <- Hid, IHme, Hid, Hpts, Z.eqb_refl.
      destruct (stored_points (current c) (s_id u)) as [b|];
        cbn [option_map]; [|reflexivity].
      f_equal.
      change (stored_credits (op :: ops))
        with (stored_credit op + stored_credits ops).
      lia.
    + intros other Hne. rewrite IHother by now rewrite Hid.
      rewrite Hpts. apply Z.eqb_neq in Hne. rewrite Hne.
      apply option_map_id_ext. reflexivity.
Qed.

(** C1 as stated fails: from tables where the balance and the ledger agree
    (no points, no ledger rows), one segregated scheduling leaves a stored
    balance of 10 against a ledger sum of 0. *)
Lemma scheduling_breaks_ledger_balance :
  let st := perform_all (Sample.conn0, user_dict Sample.alice)
              [ScheduleCollection Sample.wet_collection] in
  balance_matches_ledger (current Sample.conn0) = true
  /\ stored_points (current (fst st)) 1 = Some 10
  /\ ledger_sum (current (fst st)) 1 = 0
  /\ balance_matches_ledger (current (fst st)) = false.
Proof. cbv zeta. repeat split; vm_compute; reflexivity. Qed.

(** ** Registration and login *)

Lemma violates_unique_false (db : database) (r o : user_row) :
  violates_unique db r = false -> In o (users db) ->
  u_username o <> u_username r
  /\ u_email o <> u_email r
  /\ u_unique_waste_id o <> u_unique_waste_id r.
Proof.
  unfold violates_unique. intros Hv Hin.
  assert (H : String.eqb (u_username o) (u_username r)
              || String.eqb (u_email o) (u_email r)
              || String.eqb (u_unique_waste_id o) (u_unique_waste_id r) = false).
  { destruct (_ || _ || _) eqn:E; [|reflexivity].
    rewrite <- Hv. symmetry. apply existsb_exists. now exists o. }
  apply orb_false_iff in H. destruct H as [H H3].
  apply orb_false_iff in H. destruct H as [H1 H2].
  repeat split; now apply String.eqb_neq.
Qed.

Lemma violates_unique_taken (db : database) (r o : user_row) :
  In o (users db) ->
  u_username o = u_username r \/ u_email o = u_email r ->
  violates_unique db r = true.
Proof.
  intros Hin Hdup. unfold violates_unique. apply existsb_exists.
  exists o. split; [exact Hin|].
  destruct Hdup as [H|H]; rewrite H, String.eqb_refl;
    [reflexivity | apply orb_true_iff; left; apply orb_true_r].
Qed.

Lemma find_last {A} (p : A -> bool) (l : list A) (a : A) :
  (forall x, In x l -> p x = false) -> p a = true ->
  find p (l ++ [a]) = Some a.
Proof.
  intros Hl Ha. induction l as [|x l IH]; simpl.
  - now rewrite Ha.
  - rewrite (Hl x) by now left. apply IH. intros y Hy. apply Hl. now right.
Qed.

Lemma find_first {A} (p : A -> bool) (l l' : list A) (a : A) :
  find p l = Some a -> find p (l ++ l') = Some a.
Proof.
  induction l as [|x l IH]; cbn [find app]; [discriminate|].
  destruct (p x); [trivial | exact IH].
Qed.

Lemma upper_append (s t : string) : upper (s ++ t) = upper s ++ upper t.
Proof. induction s as [|ch s IH]; simpl; [reflexivity | now rewrite IH]. Qed.

Lemma length_append (s t : string) :
  String.length (s ++ t) = (String.length s + String.length t)%nat.
Proof. induction s as [|ch s IH]; simpl; [reflexivity | now rewrite IH]. Qed.

Lemma string_forallb_append (p : ascii -> bool) (s t : string) :
  string_forallb p (s ++ t) = string_forallb p s && string_forallb p t.
Proof.
  induction s as [|ch s IH]; simpl; [reflexivity|].
  now rewrite IH, andb_assoc.
Qed.

(** The two digits of a byte, once in upper case. *)
Lemma upper_byte_hex (b : byte) :
  String.length (upper (byte_hex b)) = 2%nat
  /\ string_forallb is_upper_hex (upper (byte_hex b)) = true.
Proof. destruct b; split; vm_compute; reflexivity. Qed.

Lemma upper_bytes_hex (bs : list byte) :
  String.length (upper (bytes_hex bs)) = (2 * List.length bs)%nat
  /\ string_forallb is_upper_hex (upper (bytes_hex bs)) = true.
Proof.
  induction bs as [|b bs [IHl IHf]]; [split; reflexivity|].
  destruct (upper_byte_hex b) as [Hl Hf].
  cbn [bytes_hex]. rewrite upper_append, length_append, string_forallb_append.
  rewrite Hl, Hf, IHl, IHf. split; [cbn [List.length]; lia | reflexivity].
Qed.

Lemma token_bytes_length (n : nat) (urandom : nat -> byte) :
  List.length (token_bytes n urandom) = n.
Proof. unfold token_bytes. now rewrite length_map, length_seq. Qed.

(** The digits of a byte read back. *)
Lemma byte_of_upper_hex (b : byte) (rest : string) :
  bytes_of_upper_hex (upper (byte_hex b) ++ rest)
  = b :: bytes_of_upper_hex rest.
Proof. destruct b; reflexivity. Qed.

Lemma bytes_of_upper_hex_bytes_hex (bs : list byte) :
  bytes_of_upper_hex (upper (bytes_hex bs)) = bs.
Proof.
  induction bs as [|b bs IH]; [reflexivity|].
  cbn [bytes_hex]. rewrite upper_append, byte_of_upper_hex. now rewrite IH.
Qed.

(** The digits of a number read back. *)
Lemma decimal_reads_back (n : N) :
  NilZero.uint_of_string (decimal n) = Some (N.to_uint n)
  /\ decimal_value (decimal n) = Some n.
Proof.
  assert (NilZero.uint_of_string (decimal n) = Some (N.to_uint n)) as H.
  { unfold decimal. apply NilZero.usu.
    destruct n as [|p]; [discriminate|].
    apply DecimalPos.Unsigned.to_uint_nonnil. }
  split; [exact H|]. unfold decimal_value. rewrite H. cbn [option_map].
  now rewrite DecimalN.Unsigned.of_to.
Qed.

Lemma add_points_zero (r : user_row) : add_points 0 r = r.
Proof. destruct r. unfold add_points. cbn. f_equal. lia. Qed.

Lemma add_points_add (n m : Z) (r : user_row) :
  add_points m (add_points n r) = add_points (n + m) r.
Proof. unfold add_points. cbn. f_equal. lia. Qed.

Lemma citizen_keeps_tracking_codes (c : connection) (u : session_user)
  (op : operation) :
  map u_unique_waste_id (users (current (fst (perform (c, u) op))))
  = map u_unique_waste_id (users (current c)).
Proof.
  assert (H : forall db n uid,
             map u_unique_waste_id (users (update_points db n uid))
             = map u_unique_waste_id (users db)).
  { intros db n uid. unfold update_points. cbn [users]. rewrite map_map.
    apply map_ext. intros r. destruct (Z.eqb (u_id r) uid); reflexivity. }
  destruct op; cbn [perform fst]; try reflexivity; cbn; apply H.
Qed.

Section CredentialProperties.

Variable sha256_hexdigest : string -> string.
Variable sqlite_date : string -> option string.


(** C3: when the submitted username or the submitted email is that of a
    row of the users table, the registration shows the duplicate error and
    returns the connection it was given: no row is added and every existing
    row stays as it was. *)
Theorem duplicate_registration_rejected
  (c : connection) (f : register_form) (year : N) (urandom : nat -> byte)
  (now : string) (existing : user_row) :
  In existing (users (current c)) ->
  u_username existing = rf_username f \/ u_email existing = rf_email f ->
  show_register sha256_hexdigest c f year urandom now
  = (c, Error "Username or email already exists.").
Proof.
  intros Hin Hdup. unfold show_register, insert_user.
  rewrite (@violates_unique_taken _ _ existing Hin); [reflexivity|exact Hdup].
Qed.

(** A username that the table holds once selects its row. *)
Lemma select_user_by_unique_username (db : database) (row : user_row) :
  NoDup (map u_username (users db)) ->
  In row (users db) ->
  select_user_by_username db (u_username row) = Some row.
Proof.
  unfold select_user_by_username.
  induction (users db) as [|x rows IH]; cbn [map In find]; [intros _ []|].
  intros Hnd Hin. inversion Hnd as [|? ? Hfresh Hnd']; subst.
  destruct (String.eqb_spec (u_username x) (u_username row)) as [E|E].
  - destruct Hin as [->|Hin]; [reflexivity|].
    exfalso. apply Hfresh. rewrite E. now apply in_map.
  - destruct Hin as [->|Hin]; [contradiction|]. now apply IH.
Qed.

Lemma select_user_by_unknown_username (db : database) (username : string) :
  (forall row, In row (users db) -> u_username row <> username) ->
  select_user_by_username db username = None.
Proof.
  unfold select_user_by_username. intros H.
  destruct (find _ (users db)) as [row|] eqn:E; [|reflexivity].
  apply find_some in E. destruct E as [Hin Heq].
  apply String.eqb_eq in Heq. now destruct (H row Hin).
Qed.

(** C8: the login check on a table whose usernames are distinct, as the
    [UNIQUE] constraint keeps them.  For a stored row under the given
    username: when the hash of the given password is the stored hash, the
    result is the record of that row, its id, username, e-mail, full name,
    phone, address, role, ward, tracking code and points; when the hashes
    differ the result is [None].  When no stored row has the username the
    result is the same [None].  A record is returned in no other case. *)
Theorem authenticate_user_correct
  (c : connection) (username password : string) :
  NoDup (map u_username (users (current c))) ->
  (forall row,
      In row (users (current c)) -> u_username row = username ->
      (sha256_hexdigest password = u_password_hash row ->
       authenticate_user sha256_hexdigest c username password
       = Some {| s_id := u_id row; s_username := u_username row;
                 s_email := u_email row; s_full_name := u_full_name row;
                 s_phone := u_phone row; s_address := u_address row;
                 s_user_type := u_user_type row;
                 s_ward_number := u_ward_number row;
                 s_unique_waste_id := u_unique_waste_id row;
                 s_points := u_points row |})
      /\ (sha256_hexdigest password <> u_password_hash row ->
          authenticate_user sha256_hexdigest c username password = None))
  /\ ((forall row, In row (users (current c)) -> u_username row <> username) ->
      authenticate_user sha256_hexdigest c username password = None)
  /\ (forall d,
        authenticate_user sha256_hexdigest c username password = Some d ->
        exists row,
          In row (users (current c))
          /\ u_username row = username
          /\ sha256_hexdigest password = u_password_hash row
          /\ d = {| s_id := u_id row; s_username := u_username row;
                    s_email := u_email row; s_full_name := u_full_name row;
                    s_phone := u_phone row; s_address := u_address row;
                    s_user_type := u_user_type row;
                    s_ward_number := u_ward_number row;
                    s_unique_waste_id := u_unique_waste_id row;
                    s_points := u_points row |}).
Proof.
  intros Hnd. unfold authenticate_user, verify_password.
  split; [|split].
  - intros row Hin <-.
    rewrite (@select_user_by_unique_username _ _ Hnd Hin).
    split; intros H.
    + rewrite H, String.eqb_refl. reflexivity.
    + apply String.eqb_neq in H. now rewrite H.
  - intros H. now rewrite (@select_user_by_unknown_username _ _ H).
  - intros d.
    destruct (select_user_by_username (current c) username) as [row|] eqn:E;
      [|discriminate].
    unfold select_user_by_username in E. apply find_some in E.
    destruct E as [Hin Heq]. apply String.eqb_eq in Heq.
    destruct (String.eqb_spec (sha256_hexdigest password) (u_password_hash row))
      as [Hh|Hh]; [|discriminate].
    intros [= <-]. exists row. now repeat split.
Qed.

Lemma show_register_cases
  (c : connection) (f : register_form) (year : N) (urandom : nat -> byte)
  (now : string) :
  let row := new_user_row sha256_hexdigest (current c) f year urandom now in
  (violates_unique (current c) row = true
   /\ show_register sha256_hexdigest c f year urandom now
      = (c, Error "Username or email already exists."))
  \/ (violates_unique (current c) row = false
      /\ exists c',
          show_register sha256_hexdigest c f year urandom now
          = (c', Success "Registration successful! You can now log in.")
          /\ durable c' = current c'
          /\ users (current c') = (users (current c) ++ [row])%list
          /\ waste_collections (current c') = waste_collections (current c)
          /\ complaints (current c') = complaints (current c)
          /\ rewards (current c') = rewards (current c)).
Proof.
  cbv zeta. unfold show_register, insert_user.
  destruct (violates_unique _ _) eqn:Hv; [left; now split|].
  right. split; [reflexivity|]. eexists. split; [reflexivity|].
  repeat split.
Qed.

Lemma attempt_keeps_users (c : connection) (a : update_attempt) :
  users (current (attempt sqlite_date c a)) = users (current c).
Proof.
  unfold attempt, show_worker_collections.
  destruct (existsb _ _); reflexivity.
Qed.

(** No request rewrites the tracking code of an existing row: the codes of
    the table after a request are the old ones, in place, followed by the
    code of a newly registered user if there is one. *)
Lemma handle_keeps_tracking_codes (c : connection) (e : event) :
  exists added,
    map u_unique_waste_id (users (current (handle sha256_hexdigest sqlite_date c e)))
    = (map u_unique_waste_id (users (current c)) ++ added)%list.
Proof.
  destruct e as [f year urandom now|u op|a]; cbn [handle].
  - destruct (show_register_cases c f year urandom now)
      as [[_ ->]|[_ (c' & -> & _ & Hu & _)]]; cbn [fst].
    + exists []. now rewrite app_nil_r.
    + rewrite Hu, map_app. eexists. reflexivity.
  - exists []. rewrite app_nil_r. apply citizen_keeps_tracking_codes.
  - exists []. rewrite app_nil_r. now rewrite attempt_keeps_users.
Qed.

Lemma handle_all_keeps_tracking_codes (evs : list event) (c : connection) :
  exists added,
    map u_unique_waste_id
        (users (current (handle_all sha256_hexdigest sqlite_date c evs)))
    = (map u_unique_waste_id (users (current c)) ++ added)%list.
Proof.
  revert c. induction evs as [|e evs IH]; intros c.
  - exists []. now rewrite app_nil_r.
  - cbn [handle_all fold_left].
    destruct (IH (handle sha256_hexdigest sqlite_date c e)) as [later Hl].
    destruct (handle_keeps_tracking_codes c e) as [added Ha].
    exists (added ++ later)%list.
    unfold handle_all in Hl. rewrite Hl, Ha. now rewrite app_assoc.
Qed.

(** C9: a successful registration appends one row.  Its tracking code is
    WG, then the digits of the year, then eight upper-case hexadecimal
    digits: the digits of the year read as a decimal number give the year,
    and the hexadecimal digits read as bytes give the four bytes that
    [secrets.token_hex] drew from the system's random source, the first
    four of the stream.  The role, points and training flag of the row are
    the column defaults citizen, 0 and 0.  The code differs from the code
    of every row already in the table, so distinct codes stay distinct, and
    no later request changes it: after any further requests the codes of
    the table are the same ones in the same places, followed by those of
    users registered later. *)
Theorem registration_assigns_tracking_code
  (c c' : connection) (f : register_form) (year : N) (urandom : nat -> byte)
  (now text : string) :
  show_register sha256_hexdigest c f year urandom now = (c', Success text) ->
  exists row digits hex,
    users (current c') = (users (current c) ++ [row])%list
    /\ durable c' = current c'
    /\ u_username row = rf_username f
    /\ u_email row = rf_email f
    /\ u_unique_waste_id row = "WG" ++ digits ++ hex
    /\ NilZero.uint_of_string digits = Some (N.to_uint year)
    /\ decimal_value digits = Some year
    /\ String.length hex = 8%nat
    /\ string_forallb is_upper_hex hex = true
    /\ bytes_of_upper_hex hex
       = [urandom 0%nat; urandom 1%nat; urandom 2%nat; urandom 3%nat]
    /\ u_user_type row = "citizen"
    /\ u_points row = 0
    /\ u_training_completed row = 0
    /\ (forall other, In other (users (current c)) ->
          u_unique_waste_id other <> u_unique_waste_id row)
    /\ (NoDup (map u_unique_waste_id (users (current c))) ->
        NoDup (map u_unique_waste_id (users (current c'))))
    /\ (forall evs, exists later,
          map u_unique_waste_id
              (users (current (handle_all sha256_hexdigest sqlite_date c' evs)))
          = (map u_unique_waste_id (users (current c'))
             ++ later)%list).
Proof.
  intros Hreg.
  destruct (show_register_cases c f year urandom now)
    as [[_ Herr]|[Hv (c1 & Hok & Hdur & Hu & _)]].
  { rewrite Herr in Hreg. discriminate. }
  rewrite Hok in Hreg. injection Hreg as <- _.
  set (row := new_user_row sha256_hexdigest (current c) f year urandom now) in *.
  exists row, (decimal year), (upper (token_hex 4 urandom)).
  destruct (upper_bytes_hex (token_bytes 4 urandom)) as [Hlen Hhex].
  rewrite token_bytes_length in Hlen.
  destruct (decimal_reads_back year) as [Hdigits Hvalue].
  assert (Hfresh : forall other, In other (users (current c)) ->
                     u_unique_waste_id other <> u_unique_waste_id row).
  { intros other Hin. now apply (@violates_unique_false _ _ _ Hv Hin). }
  repeat match goal with |- _ /\ _ => split end;
    try reflexivity; try assumption.
  - unfold token_hex. apply bytes_of_upper_hex_bytes_hex.
  - intros Hnd. rewrite Hu, map_app. cbn [map].
    apply NoDup_app; [exact Hnd | repeat constructor; intros [] |].
    intros code Hin [Heq|[]]. apply in_map_iff in Hin.
    destruct Hin as (other & Hcode & Hin).
    apply (Hfresh other Hin). congruence.
  - intros evs. apply handle_all_keeps_tracking_codes.
Qed.

(** A request leaves the row found under a username in place and changes
    nothing in it but the points, which it can only raise. *)
Lemma handle_keeps_login_row (c : connection) (e : event) (username : string)
  (r : user_row) :
  select_user_by_username (current c) username = Some r ->
  exists n,
    0 <= n
    /\ select_user_by_username
         (current (handle sha256_hexdigest sqlite_date c e)) username
       = Some (add_points n r).
Proof.
  intros Hsel.
  assert (Hsame : forall db,
             select_user_by_username db username = Some r ->
             exists n, 0 <= n
                       /\ select_user_by_username db username
                          = Some (add_points n r)).
  { intros db H. exists 0. split; [lia|]. now rewrite add_points_zero. }
  assert (Hupd : forall db n uid,
             0 <= n ->
             select_user_by_username db username = Some r ->
             exists m, 0 <= m
                       /\ select_user_by_username (update_points db n uid)
                            username
                          = Some (add_points m r)).
  { intros db n uid Hn H. rewrite select_username_update_points, H.
    cbn [option_map]. destruct (Z.eqb (u_id r) uid).
    - exists n. now split.
    - exists 0. split; [lia|]. now rewrite add_points_zero. }
  destruct e as [f year urandom now|u op|a]; cbn [handle].
  - destruct (show_register_cases c f year urandom now)
      as [[_ ->]|[_ (c' & -> & _ & Hu & _)]]; cbn [fst].
    + now apply Hsame.
    + apply Hsame.
      unfold select_user_by_username in *. rewrite Hu. now apply find_first.
  - destruct op as [f|f now|i|p quantity]; cbn [perform fst].
    + cbn. apply Hupd; [destruct (cf_segregated f); cbn; lia | exact Hsel].
    + cbn. apply Hupd; [lia | exact Hsel].
    + now apply Hsame.
    + now apply Hsame.
  - apply Hsame.
    unfold select_user_by_username in *. now rewrite attempt_keeps_users.
Qed.

Lemma handle_all_keeps_login_row (evs : list event) (c : connection)
  (username : string) (r : user_row) :
  select_user_by_username (current c) username = Some r ->
  exists n,
    0 <= n
    /\ select_user_by_username
         (current (handle_all sha256_hexdigest sqlite_date c evs)) username
       = Some (add_points n r).
Proof.
  revert c r. induction evs as [|e evs IH]; intros c r Hsel.
  - exists 0. split; [lia|]. now rewrite add_points_zero.
  - cbn [handle_all fold_left].
    destruct (handle_keeps_login_row c e username Hsel) as (n1 & Hn1 & H1).
    destruct (IH _ _ H1) as (n2 & Hn2 & H2).
    exists (n1 + n2). split; [lia|].
    unfold handle_all in H2. now rewrite H2, add_points_add.
Qed.

(** C10: after a successful registration with password [p], logging in
    under the registered username with [p] returns the record of the new
    user: the key of the appended row, which no earlier row has, the
    username, e-mail, full name, phone, address and ward of the form, the
    role citizen, the tracking code of the row and no points.  Logging in
    with any password whose hash differs from that of [p] returns [None].
    The same holds after any further requests, with the points the user
    has earned since in place of 0. *)
Theorem register_then_authenticate
  (c c' : connection) (f : register_form) (year : N) (urandom : nat -> byte)
  (now text : string) :
  show_register sha256_hexdigest c f year urandom now = (c', Success text) ->
  exists row,
    users (current c') = (users (current c) ++ [row])%list
    /\ ~ In (u_id row) (map u_id (users (current c)))
    /\ u_password_hash row = sha256_hexdigest (rf_password f)
    /\ let registered points :=
         {| s_id := u_id row; s_username := rf_username f;
            s_email := rf_email f; s_full_name := rf_full_name f;
            s_phone := rf_phone f; s_address := rf_address f;
            s_user_type := "citizen"; s_ward_number := rf_ward_number f;
            s_unique_waste_id := u_unique_waste_id row;
            s_points := points |} in
       authenticate_user sha256_hexdigest c' (rf_username f) (rf_password f)
       = Some (registered 0)
       /\ (forall other_password,
             sha256_hexdigest other_password
             <> sha256_hexdigest (rf_password f) ->
             authenticate_user sha256_hexdigest c' (rf_username f)
               other_password = None)
       /\ (forall evs,
             let later := handle_all sha256_hexdigest sqlite_date c' evs in
             (exists points,
                 0 <= points
                 /\ authenticate_user sha256_hexdigest later (rf_username f)
                      (rf_password f) = Some (registered points))
             /\ (forall other_password,
                   sha256_hexdigest other_password
                   <> sha256_hexdigest (rf_password f) ->
                   authenticate_user sha256_hexdigest later (rf_username f)
                     other_password = None)).
Proof.
  intros Hreg.
  destruct (show_register_cases c f year urandom now)
    as [[_ Herr]|[Hv (c1 & Hok & _ & Hu & _)]].
  { rewrite Herr in Hreg. discriminate. }
  rewrite Hok in Hreg. injection Hreg as <- _.
  set (row := new_user_row sha256_hexdigest (current c) f year urandom now) in *.
  assert (Hsel : select_user_by_username (current c1) (rf_username f) = Some row).
  { unfold select_user_by_username. rewrite Hu. apply find_last.
    - intros o Hin. apply String.eqb_neq.
      now apply (@violates_unique_false _ _ _ Hv Hin).
    - apply String.eqb_refl. }
  exists row. split; [exact Hu|]. split.
  { intros Hin. apply in_map_iff in Hin. destruct Hin as (o & Hid & Hin).
    pose proof (next_id_fresh u_id (users (current c)) o Hin) as Hlt.
    cbn [row new_user_row u_id] in Hid. lia. }
  split; [reflexivity|]. cbv zeta.
  unfold authenticate_user, verify_password. rewrite Hsel.
  split; [|split].
  - cbn [u_password_hash row new_user_row]. now rewrite String.eqb_refl.
  - intros other Hne. cbn [u_password_hash row new_user_row].
    apply String.eqb_neq in Hne. now rewrite Hne.
  - intros evs.
    destruct (handle_all_keeps_login_row evs c1 (rf_username f) Hsel)
      as (n & Hn & Hsel').
    rewrite Hsel'. cbn [u_password_hash add_points row new_user_row]. split.
    + exists n. split; [exact Hn|]. now rewrite String.eqb_refl.
    + intros other Hne. apply String.eqb_neq in Hne. now rewrite Hne.
Qed.

End CredentialProperties.

(** ** Shop purchases *)

Lemma products_cost_points (p : product) : In p products -> 0 < p_points p.
Proof.
  unfold products. cbn [In].
  intros H. repeat (destruct H as [<-|H]; [cbn; lia|]). destruct H.
Qed.

(** C4: pressing Buy for [quantity] units of a product of the shop, with
    [cost] the product's points times the quantity.  The purchase is
    settled on the points held in the session dictionary alone.  When the
    cost exceeds them, the session is unchanged and the page reports
    insufficient points (the error of the handler, or the warning under the
    disabled button when not even one unit is affordable); when they cover
    the cost, they go down by exactly the cost and the purchase is
    acknowledged.  The store is not read and not written: the connection
    is the one given and every stored balance is what it was. *)
Theorem shop_purchase_settles_on_session_points
  (c : connection) (u : session_user) (p : product) (quantity : Z) :
  In p products -> 1 <= quantity ->
  let cost := p_points p * quantity in
  let after := perform (c, u) (ShopPurchase p quantity) in
  let shown := snd (show_shop u p quantity true) in
  fst after = c
  /\ (forall uid,
        stored_points (current (fst after)) uid = stored_points (current c) uid)
  /\ (s_points u < cost ->
        snd after = u
        /\ shown = [if s_points u >=? p_points p
                    then Error "Insufficient points!"
                    else Warning "Insufficient points"])
  /\ (cost <= s_points u ->
        snd after = add_session_points (- cost) u
        /\ s_points (snd after) = s_points u - cost
        /\ shown = [Success ("Purchased " ++ format_int quantity ++ "x "
                             ++ p_name p ++ "!")]).
Proof.
  intros Hp Hq. cbv zeta. apply products_cost_points in Hp.
  cbn [perform fst snd]. split; [reflexivity|]. split; [reflexivity|].
  unfold show_shop. cbn [andb].
  destruct (Z.geb_spec (s_points u) (p_points p)) as [Hunit|Hunit];
    destruct (Z.geb_spec (s_points u) (p_points p * quantity)) as [Hall|Hall];
    cbn [fst snd]; split; intros H; try lia; try nia; repeat split.
Qed.

(** C4 as stated fails on the stored balance.  After two training modules
    Alice holds 125 points in her session and none in the users table: two
    pairs of gloves cost 120, more than her stored balance, and the purchase
    goes through.  After twelve segregated pickups her stored balance is
    120: the same purchase leaves it at 120. *)
Lemma purchase_ignores_stored_balance :
  let trained := perform_all (Sample.conn0, user_dict Sample.alice)
                   [CompleteTraining 0; CompleteTraining 1] in
  let bought := perform trained (ShopPurchase Sample.gloves 2) in
  let saved := perform_all (Sample.conn0, user_dict Sample.alice)
                 (repeat (ScheduleCollection Sample.wet_collection) 12) in
  let spent := perform saved (ShopPurchase Sample.gloves 2) in
  stored_points (current (fst trained)) 1 = Some 0
  /\ p_points Sample.gloves * 2 = 120
  /\ snd (show_shop (snd trained) Sample.gloves 2 true)
     = [Success "Purchased 2x Safety Gloves!"]
  /\ s_points (snd trained) = 125
  /\ s_points (snd bought) = 5
  /\ stored_points (current (fst bought)) 1 = Some 0
  /\ stored_points (current (fst saved)) 1 = Some 120
  /\ snd (show_shop (snd saved) Sample.gloves 2 true)
     = [Success "Purchased 2x Safety Gloves!"]
  /\ stored_points (current (fst spent)) 1 = Some 120.
Proof. cbv zeta. repeat split; vm_compute; reflexivity. Qed.

(** ** Segregation rate *)

Lemma percentage_bounds (s n : Z) :
  0 <= s <= n -> 0 < n ->
  (0 <= percentage s n /\ percentage s n <= 100)%Q.
Proof.
  intros Hs Hn. unfold percentage.
  assert (Hn' : (0 < inject_Z n)%Q).
  { change 0%Q with (inject_Z 0). rewrite <- Zlt_Qlt. exact Hn. }
  split.
  - apply Qmult_le_0_compat; [|discriminate].
    apply Qle_shift_div_l; [exact Hn'|]. rewrite Qmult_0_l.
    change 0%Q with (inject_Z 0). rewrite <- Zle_Qle. lia.
  - setoid_replace 100%Q with (1 * 100)%Q at 2 by reflexivity.
    apply Qmult_le_compat_r; [|discriminate].
    apply Qle_shift_div_r; [exact Hn'|]. rewrite Qmult_1_l.
    rewrite <- Zle_Qle. lia.
Qed.

(** On a column of flags the sum of the decoded cells counts the set
    flags. *)
Lemma sum_of_flags (col : list sql_cell) :
  forallb is_flag col = true ->
  sum_Z (map cell_to_int col) = segregated_count col
  /\ 0 <= segregated_count col <= Z.of_nat (List.length col).
Proof.
  unfold segregated_count.
  induction col as [|x col IH]; intros Hf; [cbn; lia|].
  cbn [forallb] in Hf. apply andb_true_iff in Hf. destruct Hf as [Hx Hf].
  destruct (IH Hf) as [IHs IHb]. unfold is_flag in Hx.
  cbn [map sum_Z fold_right filter List.length].
  fold (sum_Z (map cell_to_int col)). rewrite IHs.
  apply orb_true_iff in Hx. destruct Hx as [Hx|Hx]; apply Z.eqb_eq in Hx;
    rewrite Hx; cbn [Z.eqb Pos.eqb List.length]; lia.
Qed.

Lemma series_sum_of_ints (col : list sql_cell) :
  forallb stored_as_int col = true ->
  series_sum col = Returns (PyInt (sum_Z (map cell_to_int col))).
Proof.
  destruct col as [|x col]; [reflexivity|].
  cbn [forallb series_sum]. intros H. apply andb_true_iff in H.
  destruct H as [Hx Hcol]. destruct x as [z|b]; [|discriminate].
  cbn [cell_value map cell_to_int sum_Z fold_right].
  fold (sum_Z (map cell_to_int col)).
  clear Hx. revert z. induction col as [|y col IH]; intros z.
  - cbn. f_equal. f_equal. lia.
  - cbn [forallb] in Hcol. apply andb_true_iff in Hcol.
    destruct Hcol as [Hy Hcol]. destruct y as [w|b]; [|discriminate].
    cbn [fold_left cell_value py_add map cell_to_int sum_Z fold_right].
    fold (sum_Z (map cell_to_int col)).
    rewrite (IH Hcol). f_equal. f_equal. lia.
Qed.

(** The rate of the efficiency dashboard is 0 on a frame without rows. *)
Lemma efficiency_rate_without_rows :
  efficiency_segregation_rate [] = Returns (Num 0).
Proof. reflexivity. Qed.

(** On rows whose flags are stored as the integers 0 and 1, the rate of
    the efficiency dashboard is the percentage of set flags, between 0 and
    100. *)
Lemma efficiency_rate_is_percentage
  (waste_data : list (collection_row * user_row)) :
  let col := segregated_column waste_data in
  waste_data <> [] ->
  forallb stored_as_int col = true -> forallb is_flag col = true ->
  efficiency_segregation_rate waste_data
  = Returns (Num (percentage (segregated_count col)
                             (Z.of_nat (List.length waste_data))))
  /\ (0 <= percentage (segregated_count col)
                      (Z.of_nat (List.length waste_data)) <= 100)%Q.
Proof.
  intros col Hne Hint Hflag.
  destruct (sum_of_flags col Hflag) as [Hsum Hb].
  assert (Hlen : List.length col = List.length waste_data)
    by apply length_map.
  assert (Hpos : 0 < Z.of_nat (List.length waste_data))
    by (destruct waste_data; [contradiction | cbn [List.length]; lia]).
  split.
  - unfold efficiency_segregation_rate. fold col.
    rewrite (series_sum_of_ints col Hint), Hsum.
    destruct (Z.gtb_spec (Z.of_nat (List.length waste_data)) 0); [reflexivity|lia].
  - apply percentage_bounds; [rewrite <- Hlen; exact Hb | exact Hpos].
Qed.

(** On a frame with rows whose flags decode to 0 or 1, the rate of the
    register page is the same percentage. *)
Lemma register_rate_is_percentage
  (waste_data : list (collection_row * user_row)) :
  let col := segregated_column waste_data in
  waste_data <> [] -> forallb is_flag col = true ->
  register_segregation_rate waste_data
  = Some (Num (percentage (segregated_count col)
                          (Z.of_nat (List.length waste_data))))
  /\ (0 <= percentage (segregated_count col)
                      (Z.of_nat (List.length waste_data)) <= 100)%Q.
Proof.
  intros col Hne Hflag.
  destruct (sum_of_flags col Hflag) as [Hsum Hb].
  assert (Hlen : List.length col = List.length waste_data)
    by apply length_map.
  assert (Hpos : 0 < Z.of_nat (List.length waste_data))
    by (destruct waste_data; [contradiction | cbn [List.length]; lia]).
  split.
  - assert (Hrate : register_segregation_rate waste_data
                    = Some (float_mul (series_mean (map cell_to_int col)) 100))
      by (destruct waste_data; [contradiction | reflexivity]).
    rewrite Hrate. unfold series_mean.
    destruct (map cell_to_int col) as [|z zs] eqn:Hm.
    + apply (f_equal (@List.length Z)) in Hm. rewrite length_map in Hm.
      cbn in Hm. lia.
    + assert (Hl : List.length (z :: zs) = List.length waste_data)
        by (rewrite <- Hm, length_map; exact Hlen).
      rewrite Hsum, Hl. reflexivity.
  - apply percentage_bounds; [rewrite <- Hlen; exact Hb | exact Hpos].
Qed.

(** A row written by the seeding code holds its flag as bytes: the
    register page decodes it, the sum of the efficiency dashboard cannot be
    divided. *)
Example rates_on_seeded_row :
  register_segregation_rate (get_waste_data Sample.seeded_conn)
  = Some (Num (percentage 1 1))
  /\ efficiency_segregation_rate (get_waste_data Sample.seeded_conn)
     = TypeError.
Proof. split; reflexivity. Qed.

(** ** Collection status workflow *)

Lemma unique_key {A} (key : A -> Z) (rows : list A) (a b : A) :
  NoDup (map key rows) -> In a rows -> In b rows -> key a = key b -> a = b.
Proof.
  induction rows as [|x rows IH]; cbn [map In]; [intros _ []|].
  intros Hnd Ha Hb Hk. inversion Hnd as [|? ? Hnotin Hnd']; subst.
  destruct Ha as [->|Ha], Hb as [->|Hb].
  - reflexivity.
  - exfalso. apply Hnotin. rewrite Hk. now apply in_map.
  - exfalso. apply Hnotin. rewrite <- Hk. now apply in_map.
  - now apply IH.
Qed.

Lemma join_users_rows (db : database) (rows : list collection_row)
  (row : collection_row * user_row) :
  In row (join_users db rows) -> In (fst row) rows.
Proof.
  unfold join_users. intros H. apply in_flat_map in H.
  destruct H as (wc & Hwc & Hrow). apply in_map_iff in Hrow.
  destruct Hrow as (u & <- & _). exact Hwc.
Qed.

Lemma select_collection_update (db : database) (st : collection_status)
  (by_ vehicle : string) (cid x : Z) :
  select_collection (update_collection db st by_ vehicle cid) x =
  option_map (fun r => if Z.eqb (wc_id r) cid
                       then set_collection st by_ vehicle r else r)
             (select_collection db x).
Proof.
  unfold select_collection, update_collection. cbn [waste_collections].
  apply find_map_same_key. intros r.
  destruct (Z.eqb (wc_id r) cid); reflexivity.
Qed.

Lemma update_collection_ids (db : database) (st : collection_status)
  (by_ vehicle : string) (cid : Z) :
  map wc_id (waste_collections (update_collection db st by_ vehicle cid))
  = map wc_id (waste_collections db).
Proof.
  unfold update_collection. cbn [waste_collections]. rewrite map_map.
  apply map_ext. intros r. destruct (Z.eqb (wc_id r) cid); reflexivity.
Qed.

Lemma moved_forward_trans (a b c : collection_row) :
  moved_forward a b -> moved_forward b c -> moved_forward a c.
Proof.
  unfold moved_forward. intros [Hab|Ha] [Hbc|Hb]; auto.
  - left. congruence.
  - right. congruence.
Qed.

Section WorkflowProperties.

Variable sha256_hexdigest : string -> string.
Variable sqlite_date : string -> option string.

Lemma today_collections_rows (db : database) (today : string)
  (row : collection_row * user_row) :
  In row (today_collections sqlite_date db today) ->
  In (fst row) (waste_collections db).
Proof.
  unfold today_collections. intros H. apply join_users_rows in H.
  apply filter_In in H. tauto.
Qed.

(** One press of Update on a table with distinct keys. *)
Lemma attempt_moves_forward (c : connection) (a : update_attempt) (cid : Z)
  (r : collection_row) :
  NoDup (map wc_id (waste_collections (current c))) ->
  select_collection (current c) cid = Some r ->
  map wc_id (waste_collections (current (attempt sqlite_date c a)))
  = map wc_id (waste_collections (current c))
  /\ exists r',
      select_collection (current (attempt sqlite_date c a)) cid = Some r'
      /\ moved_forward r r'.
Proof.
  intros Hnd Hsel. unfold attempt, show_worker_collections.
  destruct (existsb _ _) eqn:Hgate; cbn [fst commit execute current].
  - split; [apply update_collection_ids|].
    rewrite select_collection_update, Hsel. cbn [option_map].
    eexists. split; [reflexivity|].
    destruct (Z.eqb (wc_id r) (a_collection a)) eqn:Hid; [|now left].
    right. apply existsb_exists in Hgate.
    destruct Hgate as (row & Hrow & Hcond).
    apply andb_true_iff in Hcond. destruct Hcond as [Hrid Hst].
    apply today_collections_rows in Hrow.
    unfold select_collection in Hsel. apply find_some in Hsel.
    destruct Hsel as [Hin _].
    apply Z.eqb_eq in Hid, Hrid.
    assert (Heq : fst row = r)
      by (apply (unique_key wc_id _ _ _ Hnd Hrow Hin); congruence).
    rewrite <- Heq. destruct (wc_status (fst row)); [reflexivity|discriminate..].
  - split; [reflexivity|]. exists r. split; [exact Hsel | now left].
Qed.

Lemma schedule_keeps_rows (c : connection) (u : session_user)
  (f : collection_form) (cid : Z) (r : collection_row) :
  NoDup (map wc_id (waste_collections (current c))) ->
  select_collection (current c) cid = Some r ->
  NoDup (map wc_id (waste_collections
                      (current (fst (fst (show_schedule_collection c u f))))))
  /\ select_collection (current (fst (fst (show_schedule_collection c u f)))) cid
     = Some r.
Proof.
  intros Hnd Hsel. cbn. split.
  - rewrite map_app. apply NoDup_app; [exact Hnd | repeat constructor; intros [] |].
    intros k Hin [<-|[]]. apply in_map_iff in Hin.
    destruct Hin as (x & Hk & Hin). cbn [wc_id new_collection_row] in Hk.
    apply (next_id_fresh wc_id) in Hin. lia.
  - unfold select_collection in *. cbn [waste_collections update_points
      insert_collection]. now apply find_first.
Qed.

(** One request of any kind. *)
Lemma handle_moves_forward (c : connection) (e : event) (cid : Z)
  (r : collection_row) :
  NoDup (map wc_id (waste_collections (current c))) ->
  select_collection (current c) cid = Some r ->
  NoDup (map wc_id (waste_collections
                      (current (handle sha256_hexdigest sqlite_date c e))))
  /\ exists r',
      select_collection (current (handle sha256_hexdigest sqlite_date c e)) cid
      = Some r'
      /\ moved_forward r r'.
Proof.
  intros Hnd Hsel.
  destruct e as [f year urandom now|u op|a]; cbn [handle].
  - destruct (show_register_cases sha256_hexdigest c f year urandom now)
      as [[_ ->]|[_ (c' & -> & _ & _ & Hwc & _)]]; cbn [fst].
    + split; [exact Hnd|]. exists r. split; [exact Hsel | now left].
    + unfold select_collection. rewrite Hwc.
      split; [exact Hnd|]. exists r. split; [exact Hsel | now left].
  - destruct op as [f|f now|i|p quantity].
    + destruct (schedule_keeps_rows c u f cid Hnd Hsel) as [Hn Hs].
      split; [exact Hn|]. exists r. split; [exact Hs | now left].
    + cbn. split; [exact Hnd|]. exists r. split; [exact Hsel | now left].
    + cbn [perform fst]. split; [exact Hnd|].
      exists r. split; [exact Hsel | now left].
    + cbn [perform fst]. split; [exact Hnd|].
      exists r. split; [exact Hsel | now left].
  - destruct (attempt_moves_forward c a cid Hnd Hsel) as [Hids Hex].
    split; [now rewrite Hids | exact Hex].
Qed.

(** C7: on a table with distinct keys, whatever requests are handled
    (status updates by workers, mixed with registrations and citizens'
    operations), a collection row keeps its place under its key and its
    status never moves back on the path scheduled, collected, processed; a
    row that has left the scheduled state keeps the status it has, so an
    update aimed at a collected or processed row is not applied. *)
Theorem collection_status_only_moves_forward
  (c : connection) (evs : list event) (cid : Z) (r : collection_row) :
  NoDup (map wc_id (waste_collections (current c))) ->
  select_collection (current c) cid = Some r ->
  exists r',
    select_collection
      (current (handle_all sha256_hexdigest sqlite_date c evs)) cid = Some r'
    /\ (status_rank (wc_status r) <= status_rank (wc_status r'))%nat
    /\ (wc_status r <> Scheduled -> wc_status r' = wc_status r).
Proof.
  intros Hnd Hsel.
  assert (H : exists r',
             select_collection
               (current (handle_all sha256_hexdigest sqlite_date c evs)) cid
             = Some r' /\ moved_forward r r').
  { revert c r Hnd Hsel. induction evs as [|e evs IH]; intros c r Hnd Hsel.
    - exists r. split; [exact Hsel | now left].
    - cbn [handle_all fold_left].
      destruct (handle_moves_forward c e cid Hnd Hsel) as (Hnd1 & r1 & Hsel1 & Hm1).
      destruct (IH _ _ Hnd1 Hsel1) as (r' & Hsel' & Hm').
      exists r'. split; [exact Hsel'|].
      exact (moved_forward_trans Hm1 Hm'). }
  destruct H as (r' & Hsel' & [Hsame|Hsched]).
  - exists r'. split; [exact Hsel'|]. rewrite Hsame. split; [lia | reflexivity].
  - exists r'. split; [exact Hsel'|]. rewrite Hsched.
    split; [cbn; lia | intros Hne; contradiction].
Qed.

End WorkflowProperties.

(** ** The theorems at work on the sample data *)

(** C3 on the sample store.  Alice's username is taken: a second
    registration under it is refused and the store is the one it was. *)
Lemma duplicate_registration_rejected_witness :
  In Sample.alice (users (current Sample.conn0))
  /\ (u_username Sample.alice = rf_username Sample.alice_again
      \/ u_email Sample.alice = rf_email Sample.alice_again)
  /\ show_register Sample.toy_digest Sample.conn0 Sample.alice_again 2025
       Sample.zeros "2025-01-01 00:00:00"
     = (Sample.conn0, Error "Username or email already exists.").
Proof.
  assert (Hin : In Sample.alice (users (current Sample.conn0)))
    by (left; reflexivity).
  assert (Hdup : u_username Sample.alice = rf_username Sample.alice_again
                 \/ u_email Sample.alice = rf_email Sample.alice_again)
    by (left; reflexivity).
  split; [exact Hin|]. split; [exact Hdup|].
  exact (@duplicate_registration_rejected Sample.toy_digest Sample.conn0
           Sample.alice_again 2025%N Sample.zeros "2025-01-01 00:00:00"
           Sample.alice Hin Hdup).
Defined.

(** C8 on the sample store.  Alice logs in with her password and gets her
    record; a wrong password and an unknown username both get [None]. *)
Lemma authenticate_user_correct_witness :
  NoDup (map u_username (users (current Sample.conn0)))
  /\ authenticate_user Sample.toy_digest Sample.conn0 "alice" "wonderland"
     = Some {| s_id := 1; s_username := "alice";
               s_email := "alice@example.com"; s_full_name := "Alice";
               s_phone := "9876500001"; s_address := "Address 1";
               s_user_type := "citizen"; s_ward_number := "Ward 2";
               s_unique_waste_id := "WG20240001"; s_points := 0 |}
  /\ authenticate_user Sample.toy_digest Sample.conn0 "alice" "looking-glass"
     = None
  /\ authenticate_user Sample.toy_digest Sample.conn0 "nobody" "wonderland"
     = None.
Proof.
  assert (Hnd : NoDup (map u_username (users (current Sample.conn0))))
    by (repeat constructor; intros []).
  assert (Hin : In Sample.alice (users (current Sample.conn0)))
    by (left; reflexivity).
  split; [exact Hnd|]. split; [|split].
  - exact (proj1 (proj1 (@authenticate_user_correct Sample.toy_digest
                           Sample.conn0 "alice" "wonderland" Hnd)
                    Sample.alice Hin eq_refl) eq_refl).
  - apply (proj2 (proj1 (@authenticate_user_correct Sample.toy_digest
                           Sample.conn0 "alice" "looking-glass" Hnd)
                    Sample.alice Hin eq_refl)).
    intros H. discriminate H.
  - apply (proj1 (proj2 (@authenticate_user_correct Sample.toy_digest
                           Sample.conn0 "nobody" "wonderland" Hnd))).
    intros row [<-|[]] H. discriminate H.
Defined.

(** C9 on the sample store.  Carol registers in 2025 while the random
    source gives the bytes DE AD BE EF: her code is WG2025DEADBEEF. *)
Lemma registration_assigns_tracking_code_witness :
  show_register Sample.toy_digest Sample.conn0 Sample.carol_form 2025
    Sample.dice "2025-03-01 00:00:00"
  = (Sample.conn_carol, Success "Registration successful! You can now log in.")
  /\ map u_unique_waste_id (users (current Sample.conn_carol))
     = ["WG20240001"; "WG2025DEADBEEF"]
  /\ exists row digits hex,
       users (current Sample.conn_carol)
       = (users (current Sample.conn0) ++ [row])%list
       /\ durable Sample.conn_carol = current Sample.conn_carol
       /\ u_username row = "carol"
       /\ u_email row = "carol@example.com"
       /\ u_unique_waste_id row = "WG" ++ digits ++ hex
       /\ NilZero.uint_of_string digits = Some (N.to_uint 2025)
       /\ decimal_value digits = Some 2025%N
       /\ String.length hex = 8%nat
       /\ string_forallb is_upper_hex hex = true
       /\ bytes_of_upper_hex hex = [xde; xad; xbe; xef]
       /\ u_user_type row = "citizen"
       /\ u_points row = 0
       /\ u_training_completed row = 0
       /\ (forall other, In other (users (current Sample.conn0)) ->
             u_unique_waste_id other <> u_unique_waste_id row)
       /\ (NoDup (map u_unique_waste_id (users (current Sample.conn0))) ->
           NoDup (map u_unique_waste_id (users (current Sample.conn_carol))))
       /\ (forall evs, exists later,
             map u_unique_waste_id
                 (users (current (handle_all Sample.toy_digest Sample.first_ten
                                    Sample.conn_carol evs)))
             = (map u_unique_waste_id (users (current Sample.conn_carol))
                ++ later)%list).
Proof.
  assert (H : show_register Sample.toy_digest Sample.conn0 Sample.carol_form
                2025 Sample.dice "2025-03-01 00:00:00"
              = (Sample.conn_carol,
                 Success "Registration successful! You can now log in."))
    by reflexivity.
  split; [exact H|]. split; [reflexivity|].
  exact (@registration_assigns_tracking_code Sample.toy_digest Sample.first_ten
           Sample.conn0 Sample.conn_carol Sample.carol_form 2025%N Sample.dice
           "2025-03-01 00:00:00"
           "Registration successful! You can now log in." H).
Defined.

(** C10 on the sample store.  Bob, the second user, can log in with his
    password and with no other, and gets the record of his registration. *)
Lemma register_then_authenticate_witness :
  show_register Sample.toy_digest Sample.conn0 Sample.bob_form 2025
    Sample.zeros "2025-01-01 00:00:00"
  = (Sample.conn_bob, Success "Registration successful! You can now log in.")
  /\ authenticate_user Sample.toy_digest Sample.conn_bob "bob" "builder"
     = Some {| s_id := 2; s_username := "bob"; s_email := "bob@example.com";
               s_full_name := "Bob"; s_phone := "9876500002";
               s_address := "Address 2"; s_user_type := "citizen";
               s_ward_number := "Ward 3";
               s_unique_waste_id := "WG202500000000"; s_points := 0 |}
  /\ exists row,
       users (current Sample.conn_bob)
       = (users (current Sample.conn0) ++ [row])%list
       /\ ~ In (u_id row) (map u_id (users (current Sample.conn0)))
       /\ u_password_hash row = Sample.toy_digest "builder"
       /\ let registered points :=
            {| s_id := u_id row; s_username := "bob";
               s_email := "bob@example.com"; s_full_name := "Bob";
               s_phone := "9876500002"; s_address := "Address 2";
               s_user_type := "citizen"; s_ward_number := "Ward 3";
               s_unique_waste_id := u_unique_waste_id row;
               s_points := points |} in
          authenticate_user Sample.toy_digest Sample.conn_bob "bob" "builder"
          = Some (registered 0)
          /\ (forall other_password,
                Sample.toy_digest other_password
                <> Sample.toy_digest "builder" ->
                authenticate_user Sample.toy_digest Sample.conn_bob "bob"
                  other_password = None)
          /\ (forall evs,
                let later := handle_all Sample.toy_digest Sample.first_ten
                               Sample.conn_bob evs in
                (exists points,
                    0 <= points
                    /\ authenticate_user Sample.toy_digest later "bob"
                         "builder" = Some (registered points))
                /\ (forall other_password,
                      Sample.toy_digest other_password
                      <> Sample.toy_digest "builder" ->
                      authenticate_user Sample.toy_digest later "bob"
                        other_password = None)).
Proof.
  assert (H : show_register Sample.toy_digest Sample.conn0 Sample.bob_form 2025
                Sample.zeros "2025-01-01 00:00:00"
              = (Sample.conn_bob,
                 Success "Registration successful! You can now log in."))
    by reflexivity.
  split; [exact H|]. split; [reflexivity|].
  exact (@register_then_authenticate Sample.toy_digest Sample.first_ten
           Sample.conn0 Sample.conn_bob Sample.bob_form 2025%N Sample.zeros
           "2025-01-01 00:00:00"
           "Registration successful! You can now log in." H).
Defined.

(** C4 on the sample session.  With 150 points in her session Alice buys
    two pairs of gloves for 120 points and is refused three pairs for 180;
    her stored balance is not touched. *)
Lemma shop_purchase_settles_on_session_points_witness :
  In Sample.gloves products
  /\ 1 <= 2
  /\ 60 * 2 <= s_points Sample.alice_150
  /\ s_points (snd (perform (Sample.conn0, Sample.alice_150)
                      (ShopPurchase Sample.gloves 2)))
     = s_points Sample.alice_150 - 60 * 2
  /\ snd (show_shop Sample.alice_150 Sample.gloves 2 true)
     = [Success ("Purchased " ++ format_int 2 ++ "x " ++ "Safety Gloves"
                 ++ "!")]
  /\ 1 <= 3
  /\ s_points Sample.alice_150 < 60 * 3
  /\ snd (perform (Sample.conn0, Sample.alice_150)
            (ShopPurchase Sample.gloves 3))
     = Sample.alice_150
  /\ snd (show_shop Sample.alice_150 Sample.gloves 3 true)
     = [Error "Insufficient points!"]
  /\ (forall uid,
        stored_points
          (current (fst (perform (Sample.conn0, Sample.alice_150)
                           (ShopPurchase Sample.gloves 2)))) uid
        = stored_points (current Sample.conn0) uid).
Proof.
  assert (Hin : In Sample.gloves products)
    by (do 5 right; left; reflexivity).
  assert (Hq2 : 1 <= 2) by (intro Hc; discriminate Hc).
  assert (Hq3 : 1 <= 3) by (intro Hc; discriminate Hc).
  assert (Hcovers : 60 * 2 <= s_points Sample.alice_150)
    by (intro Hc; discriminate Hc).
  assert (Hshort : s_points Sample.alice_150 < 60 * 3) by reflexivity.
  destruct (@shop_purchase_settles_on_session_points Sample.conn0
              Sample.alice_150 Sample.gloves 2 Hin Hq2)
    as (_ & Hstore & _ & Hbuy).
  destruct (Hbuy Hcovers) as (_ & Hpoints & Hshown).
  destruct (@shop_purchase_settles_on_session_points Sample.conn0
              Sample.alice_150 Sample.gloves 3 Hin Hq3)
    as (_ & _ & Hrefuse & _).
  destruct (Hrefuse Hshort) as (Hsame & Herror).
  exact (conj Hin (conj Hq2 (conj Hcovers (conj Hpoints (conj Hshown
          (conj Hq3 (conj Hshort (conj Hsame (conj Herror Hstore))))))))).
Defined.

(** C7 on the sample day.  The pickup is marked collected and stays so
    when the worker later selects scheduled for it. *)
Lemma collection_status_only_moves_forward_witness :
  NoDup (map wc_id (waste_collections (current Sample.pickup_conn)))
  /\ select_collection (current Sample.pickup_conn) 7 = Some Sample.pickup
  /\ exists r',
       select_collection
         (current (handle_all Sample.toy_digest Sample.first_ten
                     Sample.pickup_conn Sample.day)) 7 = Some r'
       /\ (status_rank (wc_status Sample.pickup) <= status_rank (wc_status r'))%nat
       /\ (wc_status Sample.pickup <> Scheduled ->
           wc_status r' = wc_status Sample.pickup).
Proof.
  assert (Hnd : NoDup (map wc_id (waste_collections (current Sample.pickup_conn))))
    by (repeat constructor; intros []).
  assert (Hsel : select_collection (current Sample.pickup_conn) 7
                 = Some Sample.pickup) by reflexivity.
  split; [exact Hnd|]. split; [exact Hsel|].
  exact (@collection_status_only_moves_forward Sample.toy_digest
           Sample.first_ten Sample.pickup_conn Sample.day 7 Sample.pickup
           Hnd Hsel).
Defined.

(** The sample day leaves the pickup collected, stamped by the worker. *)
Example sample_day_outcome :
  option_map (fun r => (wc_status r, wc_collected_by r))
    (select_collection
       (current (handle_all Sample.toy_digest Sample.first_ten
                   Sample.pickup_conn Sample.day)) 7)
  = Some (Collected, Some "Worker One").
Proof. reflexivity. Qed.

(** The scenario of the specification: Alice starts with no points,
    schedules a segregated pickup (10), files a complaint (15), and cannot
    afford a 60-point item. *)
Example alice_scenario :
  let st := perform_all (Sample.conn0, user_dict Sample.alice)
              [ScheduleCollection Sample.wet_collection;
               FileComplaint Sample.missed "2024-05-02 09:00:00";
               ShopPurchase Sample.gloves 1] in
  stored_points (current (fst st)) 1 = Some 15
  /\ s_points (snd st) = 15
  /\ ledger_sum (current (fst st)) 1 = 0.
Proof. cbv zeta. repeat split. Qed.

(** Logging in on the sample store: the right password, a wrong one, and
    an unknown username. *)
Example login_examples :
  authenticate_user Sample.toy_digest Sample.conn0 "alice" "wonderland"
  = Some (user_dict Sample.alice)
  /\ authenticate_user Sample.toy_digest Sample.conn0 "alice" "looking-glass"
     = None
  /\ authenticate_user Sample.toy_digest Sample.conn0 "nobody" "wonderland"
     = None.
Proof. repeat split. Qed.

(** * Properties of the rest of the portal *)

(** ** Lists of rows *)

Unset Implicit Arguments.

Lemma Forall2_map_right {A} (R : A -> A -> Prop) (f : A -> A) (l : list A) :
  (forall x, R x (f x)) -> Forall2 R l (map f l).
Proof. intros H. induction l; cbn [map]; constructor; auto. Qed.

Lemma Forall2_same {A} (R : A -> A -> Prop) (l : list A) :
  (forall x, R x x) -> Forall2 R l l.
Proof. intros H. induction l; constructor; auto. Qed.

Lemma Forall2_trans {A} {R : A -> A -> Prop} {l1 l2 l3 : list A} :
  (forall x y z, R x y -> R y z -> R x z) ->
  Forall2 R l1 l2 -> Forall2 R l2 l3 -> Forall2 R l1 l3.
Proof.
  intros Ht H12. revert l3. induction H12; intros l3 H23; inversion H23; subst;
    constructor; eauto.
Qed.

Lemma Forall2_image {A} {R : A -> A -> Prop} {l l' : list A} {x : A} :
  Forall2 R l l' -> In x l -> exists y, In y l' /\ R x y.
Proof.
  induction 1 as [|a b l l' Hab _ IH]; cbn [In]; [intros []|].
  intros [<-|Hin].
  - exists b. split; [now left | exact Hab].
  - destruct (IH Hin) as (y & Hy & Hxy). exists y. split; [now right | exact Hxy].
Qed.

Lemma Forall2_preimage {A} {R : A -> A -> Prop} {l l' : list A} {y : A} :
  Forall2 R l l' -> In y l' -> exists x, In x l /\ R x y.
Proof.
  induction 1 as [|a b l l' Hab _ IH]; cbn [In]; [intros []|].
  intros [<-|Hin].
  - exists a. split; [now left | exact Hab].
  - destruct (IH Hin) as (x & Hx & Hxy). exists x. split; [now right | exact Hxy].
Qed.

Lemma Forall2_map_eq {A B} {R : A -> A -> Prop} (f : A -> B) {l l' : list A} :
  (forall x y, R x y -> f y = f x) -> Forall2 R l l' -> map f l' = map f l.
Proof.
  intros Hf. induction 1; cbn [map]; [reflexivity|]. f_equal; auto.
Qed.

Lemma extends_same {A} (kept : A -> A -> Prop) (fresh : A -> Prop) (l : list A) :
  (forall x, kept x x) -> extends kept fresh l l.
Proof.
  intros H. exists l, []. rewrite app_nil_r.
  split; [reflexivity|]. split; [now apply Forall2_same | constructor].
Qed.

Lemma extends_kept {A} {kept : A -> A -> Prop} (fresh : A -> Prop)
  {l l' : list A} :
  Forall2 kept l l' -> extends kept fresh l l'.
Proof.
  intros H. exists l', []. rewrite app_nil_r.
  split; [reflexivity|]. split; [exact H | constructor].
Qed.

Lemma extends_append {A} (kept : A -> A -> Prop) (fresh : A -> Prop)
  (l : list A) (x : A) :
  (forall y, kept y y) -> fresh x -> extends kept fresh l (l ++ [x]).
Proof.
  intros Hk Hx. exists l, [x].
  split; [reflexivity|]. split; [now apply Forall2_same | now constructor].
Qed.

Lemma extends_trans {A} {kept : A -> A -> Prop} {fresh : A -> Prop}
  {l1 l2 l3 : list A} :
  (forall x y z, kept x y -> kept y z -> kept x z) ->
  (forall x y, fresh x -> kept x y -> fresh y) ->
  extends kept fresh l1 l2 -> extends kept fresh l2 l3 ->
  extends kept fresh l1 l3.
Proof.
  intros Ht Hf (old1 & new1 & -> & H1 & F1) (old2 & new2 & -> & H2 & F2).
  apply Forall2_app_inv_l in H2.
  destruct H2 as (o1 & o2 & Ho1 & Ho2 & ->).
  exists o1, (o2 ++ new2)%list.
  split; [now rewrite app_assoc|].
  split; [exact (Forall2_trans Ht H1 Ho1)|].
  apply Forall_app. split; [|exact F2].
  apply Forall_forall. intros y Hy.
  destruct (Forall2_preimage Ho2 Hy) as (x & Hx & Hxy).
  apply (Hf x y); [|exact Hxy].
  now apply (proj1 (Forall_forall _ _) F1).
Qed.

Lemma extends_image {A} {kept : A -> A -> Prop} {fresh : A -> Prop}
  {l l' : list A} {x : A} :
  extends kept fresh l l' -> In x l -> exists y, In y l' /\ kept x y.
Proof.
  intros (old & new & -> & H & _) Hin.
  destruct (Forall2_image H Hin) as (y & Hy & Hxy).
  exists y. split; [apply in_or_app; now left | exact Hxy].
Qed.

Lemma extends_map {A B} {kept : A -> A -> Prop} {fresh : A -> Prop}
  (f : A -> B) {l l' : list A} :
  (forall x y, kept x y -> f y = f x) ->
  extends kept fresh l l' ->
  exists new, map f l' = (map f l ++ map f new)%list /\ Forall fresh new.
Proof.
  intros Hf (old & new & -> & H & F). exists new.
  split; [|exact F]. rewrite map_app. f_equal. exact (Forall2_map_eq f Hf H).
Qed.

(** ** Kept rows *)

Lemma add_session_points_zero (u : session_user) : add_session_points 0 u = u.
Proof. destruct u. unfold add_session_points. cbn. f_equal. lia. Qed.

Lemma add_session_points_add (n m : Z) (u : session_user) :
  add_session_points n (add_session_points m u) = add_session_points (m + n) u.
Proof. unfold add_session_points. cbn. f_equal. lia. Qed.

Lemma user_kept_same (r : user_row) : user_kept r r.
Proof. exists 0. split; [lia | now rewrite add_points_zero]. Qed.

Lemma user_kept_trans (x y z : user_row) :
  user_kept x y -> user_kept y z -> user_kept x z.
Proof.
  intros (n & Hn & ->) (m & Hm & ->). exists (n + m).
  split; [lia | apply add_points_add].
Qed.

(** Everything but the points is the same in a kept row. *)
Lemma user_kept_columns (r r' : user_row) :
  user_kept r r' ->
  u_id r' = u_id r /\ u_username r' = u_username r /\ u_email r' = u_email r
  /\ u_password_hash r' = u_password_hash r
  /\ u_user_type r' = u_user_type r
  /\ u_unique_waste_id r' = u_unique_waste_id r
  /\ u_points r <= u_points r'.
Proof. intros (n & Hn & ->). cbn. repeat split; lia. Qed.

Lemma user_kept_update (n uid : Z) (r : user_row) :
  0 <= n -> user_kept r (if Z.eqb (u_id r) uid then add_points n r else r).
Proof.
  intros Hn. destruct (Z.eqb (u_id r) uid);
    [exists n; now split | apply user_kept_same].
Qed.

Lemma set_collection_twice (st st' : collection_status)
  (by_ by' vehicle vehicle' : string) (r : collection_row) :
  set_collection st' by' vehicle' (set_collection st by_ vehicle r)
  = set_collection st' by' vehicle' r.
Proof. reflexivity. Qed.

Lemma collection_kept_same (r : collection_row) : collection_kept r r.
Proof. now left. Qed.

Lemma collection_kept_trans (x y z : collection_row) :
  collection_kept x y -> collection_kept y z -> collection_kept x z.
Proof.
  intros [->|(Hx & st & b & v & ->)] Hyz; [exact Hyz|].
  destruct Hyz as [->|(_ & st' & b' & v' & ->)].
  - right. split; [exact Hx|]. now exists st, b, v.
  - right. split; [exact Hx|]. exists st', b', v'. apply set_collection_twice.
Qed.

(** A kept collection row has its key, its owner and its other columns,
    and its status has not moved back. *)
Lemma collection_kept_columns (r r' : collection_row) :
  collection_kept r r' ->
  wc_id r' = wc_id r /\ wc_user_id r' = wc_user_id r
  /\ wc_segregated r' = wc_segregated r
  /\ wc_weight_kg r' = wc_weight_kg r
  /\ moved_forward r r'.
Proof.
  intros [->|(Hs & st & b & v & ->)].
  - repeat split. now left.
  - repeat split. now right.
Qed.

Lemma vehicle_kept_same (r : vehicle_row) : vehicle_kept r r.
Proof. now left. Qed.

Lemma vehicle_kept_trans (x y z : vehicle_row) :
  vehicle_kept x y -> vehicle_kept y z -> vehicle_kept x z.
Proof.
  intros [->|(lat & lon & st & now & Hst & ->)] Hyz; [exact Hyz|].
  destruct Hyz as [->|(lat' & lon' & st' & now' & Hst' & ->)].
  - right. now exists lat, lon, st, now.
  - right. now exists lat', lon', st', now'.
Qed.

Lemma vehicle_kept_columns (r r' : vehicle_row) :
  vehicle_kept r r' ->
  ve_id r' = ve_id r /\ ve_vehicle_number r' = ve_vehicle_number r
  /\ ve_vehicle_type r' = ve_vehicle_type r
  /\ ve_driver_name r' = ve_driver_name r
  /\ (In (ve_status r) vehicle_status_options ->
      In (ve_status r') vehicle_status_options).
Proof.
  intros [->|(lat & lon & st & now & Hst & ->)]; repeat split; auto.
Qed.

Lemma grows_same (db : database) : grows db db.
Proof.
  constructor.
  - apply extends_same, user_kept_same.
  - apply extends_same, collection_kept_same.
  - now apply extends_same.
  - reflexivity.
Qed.

Lemma grows_trans (a b c : database) : grows a b -> grows b c -> grows a c.
Proof.
  intros [Hu1 Hc1 Hp1 Hr1] [Hu2 Hc2 Hp2 Hr2]. constructor.
  - refine (extends_trans user_kept_trans _ Hu1 Hu2).
    intros x y Hx Hk. destruct (user_kept_columns _ _ Hk) as (_ & _ & _ & _ & Ht & _).
    now rewrite Ht.
  - refine (extends_trans collection_kept_trans _ Hc1 Hc2). trivial.
  - refine (extends_trans _ _ Hp1 Hp2).
    + intros x y z -> ->. reflexivity.
    + intros x y Hx <-. exact Hx.
  - now rewrite Hr2.
Qed.

Lemma infra_grows_same (infra : infrastructure) : infra_grows infra infra.
Proof.
  constructor; [now apply extends_same | apply Forall2_same, vehicle_kept_same].
Qed.

Lemma infra_grows_trans (a b c : infrastructure) :
  infra_grows a b -> infra_grows b c -> infra_grows a c.
Proof.
  intros [Hf1 Hv1] [Hf2 Hv2]. constructor.
  - refine (extends_trans _ _ Hf1 Hf2); [intros x y z -> ->; reflexivity | trivial].
  - exact (Forall2_trans vehicle_kept_trans Hv1 Hv2).
Qed.

(** ** Sessions and rows *)

Lemma dict_of_row_columns (u : session_user) (row : user_row) :
  dict_of_row u row ->
  s_id u = u_id row /\ s_username u = u_username row
  /\ s_email u = u_email row /\ s_user_type u = u_user_type row
  /\ s_full_name u = u_full_name row
  /\ s_unique_waste_id u = u_unique_waste_id row.
Proof.
  unfold dict_of_row. intros H.
  repeat split;
    [ apply (f_equal s_id) in H | apply (f_equal s_username) in H
    | apply (f_equal s_email) in H | apply (f_equal s_user_type) in H
    | apply (f_equal s_full_name) in H
    | apply (f_equal s_unique_waste_id) in H ]; exact H.
Qed.

Lemma dict_of_row_login (row : user_row) : dict_of_row (user_dict row) row.
Proof.
  unfold dict_of_row. cbn [s_points user_dict].
  rewrite Z.sub_diag. apply add_session_points_zero.
Qed.

Lemma dict_of_row_session_points (k : Z) (u : session_user) (row : user_row) :
  dict_of_row u row -> dict_of_row (add_session_points k u) row.
Proof.
  unfold dict_of_row. intros H. rewrite add_session_points_add.
  cbn [s_points add_session_points].
  replace (k + (u_points row - (s_points u + k))) with (u_points row - s_points u)
    by lia.
  exact H.
Qed.

Lemma dict_of_row_kept (u : session_user) (row row' : user_row) :
  dict_of_row u row -> user_kept row row' -> dict_of_row u row'.
Proof.
  unfold dict_of_row. intros H (n & _ & ->).
  cbn [u_points add_points].
  replace (u_points row + n - s_points u) with (u_points row - s_points u + n)
    by lia.
  rewrite <- add_session_points_add, H. reflexivity.
Qed.

(** What other requests do to the store leaves a session sound. *)
Lemma session_sound_grows (db db' : database) (ss : session_state) :
  grows db db' -> session_sound db ss -> session_sound db' ss.
Proof.
  intros Hg. unfold session_sound. destruct (logged_in ss); [|trivial].
  intros (u & row & Hu & Hin & Hd).
  destruct (extends_image (grows_users Hg) Hin) as (row' & Hin' & Hk).
  exists u, row'. split; [exact Hu|]. split; [exact Hin'|].
  exact (dict_of_row_kept u row row' Hd Hk).
Qed.

Lemma show_training_session (u : session_user) (i : nat) :
  exists k, fst (show_training u i) = add_session_points k u.
Proof.
  unfold show_training. destruct (nth_error modules i) as [m|].
  - now exists (m_points m).
  - exists 0. now rewrite add_session_points_zero.
Qed.

Lemma show_shop_session (u : session_user) (p : product) (quantity : Z)
  (clicked : bool) :
  exists k, fst (show_shop u p quantity clicked) = add_session_points k u.
Proof.
  unfold show_shop.
  destruct (clicked && (s_points u >=? p_points p));
    [destruct (s_points u >=? p_points p * quantity)|].
  - now exists (- (p_points p * quantity)).
  - exists 0. now rewrite add_session_points_zero.
  - exists 0. now rewrite add_session_points_zero.
Qed.

(** ** Statements, one table at a time *)

Lemma update_points_columns (db : database) (n uid : Z) :
  map u_id (users (update_points db n uid)) = map u_id (users db)
  /\ map u_username (users (update_points db n uid)) = map u_username (users db)
  /\ map u_email (users (update_points db n uid)) = map u_email (users db)
  /\ map u_unique_waste_id (users (update_points db n uid))
     = map u_unique_waste_id (users db).
Proof.
  unfold update_points. cbn [users]. rewrite !map_map.
  repeat split; apply map_ext; intros r; destruct (Z.eqb (u_id r) uid);
    reflexivity.
Qed.

Lemma update_points_grows (db : database) (n uid : Z) :
  0 <= n -> grows db (update_points db n uid).
Proof.
  intros Hn. constructor; cbn.
  - apply extends_kept, Forall2_map_right. intros r. now apply user_kept_update.
  - apply extends_same, collection_kept_same.
  - now apply extends_same.
  - reflexivity.
Qed.

Lemma NoDup_next_id {A} (key : A -> Z) (rows : list A) (r : A) :
  key r = next_id key rows ->
  NoDup (map key rows) -> NoDup (map key (rows ++ [r])).
Proof.
  intros Hk Hnd. rewrite map_app. cbn [map].
  apply NoDup_app; [exact Hnd | repeat constructor; intros [] |].
  intros k Hin [<-|[]]. apply in_map_iff in Hin.
  destruct Hin as (x & Hx & Hin). apply (next_id_fresh key) in Hin. lia.
Qed.

Lemma NoDup_fresh {A B} (f : A -> B) (rows : list A) (r : A) :
  (forall o, In o rows -> f o <> f r) ->
  NoDup (map f rows) -> NoDup (map f (rows ++ [r])).
Proof.
  intros Hf Hnd. rewrite map_app. cbn [map].
  apply NoDup_app; [exact Hnd | repeat constructor; intros [] |].
  intros k Hin [<-|[]]. apply in_map_iff in Hin.
  destruct Hin as (o & Ho & Hin). exact (Hf o Hin Ho).
Qed.

(** The statements of the scheduling handler. *)
Lemma schedule_statements_store (db : database) (u : session_user)
  (f : collection_form) :
  let db' := update_points (insert_collection db (new_collection_row db u f))
               (points_earned (cf_segregated f)) (s_id u) in
  grows db db'
  /\ (keys_distinct db -> keys_distinct db')
  /\ (In (s_id u) (map u_id (users db)) ->
      references_valid db -> references_valid db').
Proof.
  cbv zeta.
  set (row := new_collection_row db u f).
  set (n := points_earned (cf_segregated f)).
  assert (Hn : 0 <= n) by (subst n; unfold points_earned; destruct (cf_segregated f); lia).
  destruct (update_points_columns (insert_collection db row) n (s_id u))
    as (Hid & Hname & Hmail & Hcode).
  split; [|split].
  - apply grows_trans with (insert_collection db row);
      [|now apply update_points_grows].
    constructor; cbn.
    + apply extends_same, user_kept_same.
    + now apply extends_append; [apply collection_kept_same|].
    + now apply extends_same.
    + reflexivity.
  - intros [K1 K2 K3 K4 K5 K6]. constructor.
    + now rewrite Hid. + now rewrite Hname. + now rewrite Hmail.
    + now rewrite Hcode.
    + cbn. now apply NoDup_next_id.
    + exact K6.
  - intros Hu [R1 R2]. constructor.
    + rewrite Hid. cbn. apply Forall_app. split; [exact R1|].
      constructor; [exact Hu | constructor].
    + rewrite Hid. exact R2.
Qed.

(** The statements of the complaint handler. *)
Lemma complaint_statements_store (db : database) (u : session_user)
  (f : complaint_form) (now : string) :
  let db' := update_points (insert_complaint db (new_complaint_row db u f now))
               5 (s_id u) in
  grows db db'
  /\ (keys_distinct db -> keys_distinct db')
  /\ (In (s_id u) (map u_id (users db)) ->
      references_valid db -> references_valid db').
Proof.
  cbv zeta.
  set (row := new_complaint_row db u f now).
  destruct (update_points_columns (insert_complaint db row) 5 (s_id u))
    as (Hid & Hname & Hmail & Hcode).
  split; [|split].
  - apply grows_trans with (insert_complaint db row);
      [|apply update_points_grows; lia].
    constructor; cbn.
    + apply extends_same, user_kept_same.
    + apply extends_same, collection_kept_same.
    + now apply extends_append.
    + reflexivity.
  - intros [K1 K2 K3 K4 K5 K6]. constructor.
    + now rewrite Hid. + now rewrite Hname. + now rewrite Hmail.
    + now rewrite Hcode.
    + exact K5.
    + cbn. now apply NoDup_next_id.
  - intros Hu [R1 R2]. constructor.
    + rewrite Hid. exact R1.
    + rewrite Hid. cbn. apply Forall_app. split; [exact R2|].
      constructor; [exact Hu | constructor].
Qed.

Lemma In_map_app {A B} (f : A -> B) (l : list A) (x : A) (b : B) :
  In b (map f l) -> In b (map f (l ++ [x])).
Proof. intros H. rewrite map_app. apply in_or_app. now left. Qed.

(** A registration, accepted or refused. *)
Lemma show_register_store (sha256_hexdigest : string -> string)
  (c : connection) (f : register_form) (year : N) (urandom : nat -> byte)
  (now : string) :
  let c' := fst (show_register sha256_hexdigest c f year urandom now) in
  grows (current c) (current c')
  /\ (durable c = current c -> durable c' = current c')
  /\ (keys_distinct (current c) -> keys_distinct (current c'))
  /\ (references_valid (current c) -> references_valid (current c')).
Proof.
  cbv zeta.
  destruct (show_register_cases sha256_hexdigest c f year urandom now)
    as [[_ ->]|[Hv (c' & -> & Hdur & Hu & Hwc & Hcp & Hrw)]]; cbn [fst].
  - split; [apply grows_same|]. split; [trivial|]. split; trivial.
  - set (row := new_user_row sha256_hexdigest (current c) f year urandom now) in *.
    split; [|split; [|split]].
    + constructor.
      * rewrite Hu. now apply extends_append; [apply user_kept_same|].
      * rewrite Hwc. apply extends_same, collection_kept_same.
      * rewrite Hcp. now apply extends_same.
      * exact Hrw.
    + intros _. exact Hdur.
    + intros [K1 K2 K3 K4 K5 K6]. constructor; rewrite ?Hu, ?Hwc, ?Hcp; trivial.
      * now apply NoDup_next_id.
      * apply NoDup_fresh; [|exact K2]. intros o Ho.
        now apply (violates_unique_false _ _ _ Hv Ho).
      * apply NoDup_fresh; [|exact K3]. intros o Ho.
        now apply (violates_unique_false _ _ _ Hv Ho).
      * apply NoDup_fresh; [|exact K4]. intros o Ho.
        now apply (violates_unique_false _ _ _ Hv Ho).
    + intros [R1 R2]. constructor; rewrite ?Hu, ?Hwc, ?Hcp.
      * eapply Forall_impl; [|exact R1]. intros r. apply In_map_app.
      * eapply Forall_impl; [|exact R2]. intros r. apply In_map_app.
Qed.

Lemma Forall2_map_right_in {A} (R : A -> A -> Prop) (f : A -> A) (l : list A) :
  (forall x, In x l -> R x (f x)) -> Forall2 R l (map f l).
Proof.
  induction l as [|a l IH]; intros H; cbn [map]; constructor.
  - apply H. now left.
  - apply IH. intros x Hx. apply H. now right.
Qed.

Lemma today_collections_stored (sqlite_date : string -> option string)
  (db : database) (today : string) (row : collection_row * user_row) :
  In row (today_collections sqlite_date db today) ->
  In (fst row) (waste_collections db).
Proof.
  unfold today_collections. intros H. apply join_users_rows in H.
  apply filter_In in H. tauto.
Qed.

(** A press of Update on the worker's page. *)
Lemma show_worker_collections_store (sqlite_date : string -> option string)
  (c : connection) (worker : session_user) (today : string) (cid : Z)
  (new_status : collection_status) (vehicle_number : string) :
  let c' := fst (show_worker_collections sqlite_date c worker today cid
                   new_status vehicle_number) in
  keys_distinct (current c) ->
  grows (current c) (current c')
  /\ (durable c = current c -> durable c' = current c')
  /\ keys_distinct (current c')
  /\ (references_valid (current c) -> references_valid (current c')).
Proof.
  cbv zeta. intros K. unfold show_worker_collections.
  destruct (existsb _ _) eqn:Hgate; cbn [fst commit execute current durable].
  2:{ split; [apply grows_same|]. split; [trivial|]. split; trivial. }
  apply existsb_exists in Hgate. destruct Hgate as (shown & Hshown & Hcond).
  apply andb_true_iff in Hcond. destruct Hcond as [Hid Hst].
  apply Z.eqb_eq in Hid.
  apply today_collections_stored in Hshown.
  assert (Hsched : wc_status (fst shown) = Scheduled)
    by (destruct (wc_status (fst shown)); [reflexivity|discriminate..]).
  split; [|split; [|split]].
  - constructor; cbn [users waste_collections complaints rewards update_collection].
    + apply extends_same, user_kept_same.
    + apply extends_kept, Forall2_map_right_in. intros r Hr.
      destruct (Z.eqb (wc_id r) cid) eqn:Hrid; [|now left].
      apply Z.eqb_eq in Hrid. right.
      assert (Heq : fst shown = r).
      { apply (unique_key wc_id (waste_collections (current c)));
          [apply (distinct_collection_ids K) | exact Hshown | exact Hr | congruence]. }
      rewrite <- Heq. split; [exact Hsched|]. now eexists _, _, _.
    + now apply extends_same.
    + reflexivity.
  - reflexivity.
  - destruct K as [K1 K2 K3 K4 K5 K6]. constructor; trivial.
    now rewrite update_collection_ids.
  - intros [R1 R2]. constructor; [|exact R2].
    cbn [users waste_collections update_collection].
    apply Forall_map. eapply Forall_impl; [|exact R1].
    intros r Hr. now destruct (Z.eqb (wc_id r) cid).
Qed.

Lemma in_options_In (x : string) (options : list string) :
  in_options x options = true <-> In x options.
Proof.
  unfold in_options. rewrite existsb_exists. split.
  - intros (y & Hy & Heq). apply String.eqb_eq in Heq. now subst.
  - intros H. exists x. split; [exact H | apply String.eqb_refl].
Qed.

(** The Update Location form on a table of vehicles with listed statuses. *)
Lemma show_vehicle_tracking_store (c : connection) (infra : infrastructure)
  (selected_vehicle : string) (new_lat new_lon : Q) (new_status now : string) :
  Forall (fun v => In (ve_status v) vehicle_status_options) (vehicles infra) ->
  exists c' infra' shown,
    show_vehicle_tracking c infra selected_vehicle new_lat new_lon new_status now
    = Done (c', infra', shown)
    /\ current c' = current c
    /\ (durable c = current c -> durable c' = current c')
    /\ infra_grows infra infra'
    /\ Forall (fun v => In (ve_status v) vehicle_status_options) (vehicles infra').
Proof.
  intros Hlisted. unfold show_vehicle_tracking.
  destruct (find _ (vehicles infra)) as [vehicle_info|] eqn:Hfind.
  2:{ exists c, infra, []. repeat split; trivial; apply infra_grows_same. }
  destruct (String.eqb selected_vehicle "").
  { exists c, infra, []. repeat split; trivial; apply infra_grows_same. }
  apply find_some in Hfind. destruct Hfind as [Hin _].
  assert (Hs : in_options (ve_status vehicle_info) vehicle_status_options = true)
    by (apply in_options_In; exact (proj1 (Forall_forall _ _) Hlisted _ Hin)).
  rewrite Hs.
  destruct (in_options new_status vehicle_status_options) eqn:Hnew.
  2:{ exists c, infra, []. repeat split; trivial; apply infra_grows_same. }
  apply in_options_In in Hnew.
  eexists _, _, _. split; [reflexivity|]. split; [reflexivity|].
  split; [reflexivity|]. split.
  - constructor; cbn [facilities vehicles update_vehicle].
    + now apply extends_same.
    + apply Forall2_map_right. intros r.
      destruct (String.eqb (ve_vehicle_number r) selected_vehicle); [|now left].
      right. now exists new_lat, new_lon, new_status, now.
  - cbn [vehicles update_vehicle]. apply Forall_map.
    eapply Forall_impl; [|exact Hlisted]. intros r Hr.
    now destruct (String.eqb (ve_vehicle_number r) selected_vehicle).
Qed.

(** ** One run of [main] *)

Lemma session_sound_points (db : database) (u : session_user) (k : Z) :
  session_sound db (logged_in_as u) ->
  session_sound db (logged_in_as (add_session_points k u)).
Proof.
  unfold session_sound. cbn [logged_in user logged_in_as].
  intros (u0 & row & [= <-] & Hin & Hd).
  exists (add_session_points k u), row. split; [reflexivity|].
  split; [exact Hin | now apply dict_of_row_session_points].
Qed.

Lemma session_sound_owner (db : database) (u : session_user) :
  session_sound db (logged_in_as u) -> In (s_id u) (map u_id (users db)).
Proof.
  unfold session_sound. cbn [logged_in user logged_in_as].
  intros (u0 & row & [= <-] & Hin & Hd).
  destruct (dict_of_row_columns u row Hd) as (-> & _). now apply in_map.
Qed.

Lemma session_sound_login (sha256_hexdigest : string -> string) (c : connection)
  (username password : string) (u : session_user) :
  authenticate_user sha256_hexdigest c username password = Some u ->
  session_sound (current c) (logged_in_as u).
Proof.
  unfold authenticate_user, select_user_by_username.
  destruct (find _ (users (current c))) as [row|] eqn:Hfind; [|discriminate].
  destruct (verify_password _ _ _); [|discriminate]. intros [= <-].
  apply find_some in Hfind. destruct Hfind as [Hin _].
  unfold session_sound. cbn [logged_in user logged_in_as].
  exists (user_dict row), row. split; [reflexivity|].
  split; [exact Hin | apply dict_of_row_login].
Qed.

Section MainProperties.

Variable sha256_hexdigest : string -> string.
Variable sqlite_date : string -> option string.

(** What one run of [main] keeps: on a store in order and a sound session
    it ends in [Done], the store stays in order and only grows, and the
    session stays sound. *)
Lemma main_sound (p : portal) (r : request) :
  store_sound (p_conn p) (p_infra p) ->
  session_sound (current (p_conn p)) (p_session p) ->
  exists p' shown,
    main sha256_hexdigest sqlite_date p r = Done (p', shown)
    /\ store_sound (p_conn p') (p_infra p')
    /\ session_sound (current (p_conn p')) (p_session p')
    /\ grows (current (p_conn p)) (current (p_conn p'))
    /\ infra_grows (p_infra p) (p_infra p').
Proof.
  destruct p as [c infra [li us]]. cbn [p_conn p_infra p_session].
  intros Hstore Hsess.
  assert (Hsame : forall shown : list message,
             exists p' shown',
               Done ({| p_conn := c; p_infra := infra;
                        p_session := {| logged_in := li; user := us |} |}, shown)
               = Done (p', shown')
               /\ store_sound (p_conn p') (p_infra p')
               /\ session_sound (current (p_conn p')) (p_session p')
               /\ grows (current c) (current (p_conn p'))
               /\ infra_grows infra (p_infra p')).
  { intros shown. cbv beta iota. eexists _, _. split; [reflexivity|].
    cbn [p_conn p_infra p_session].
    split; [exact Hstore|]. split; [exact Hsess|].
    split; [apply grows_same | apply infra_grows_same]. }
  destruct Hstore as [Hcommitted Hkeys Hrefs Hvehicles].
  unfold main. cbn [p_session p_conn p_infra logged_in user].
  destruct li.
  - (* logged in *)
    assert (Hu := Hsess). unfold session_sound in Hu. cbn [logged_in user] in Hu.
    destruct Hu as (u & row & -> & Hin & Hd).
    change {| logged_in := true; user := Some u |} with (logged_in_as u) in *.
    destruct r as [username password|f year urandom now| |selected w];
      try apply Hsame.
    + (* Logout *)
      cbv beta iota. eexists _, _. split; [reflexivity|]. cbn [p_conn p_infra p_session with_session].
      split; [now constructor|]. split; [reflexivity|].
      split; [apply grows_same | apply infra_grows_same].
    + destruct (dispatch selected) as [pg|]; [|apply Hsame].
      unfold page_event. cbn [p_conn p_infra p_session].
      destruct w as [f|f now|i|i quantity|today cid new_status vehicle_number
                    |f|selected_vehicle new_lat new_lon new_status now];
        destruct pg; try apply Hsame.
      * (* Schedule Collection *)
        cbn [show_schedule_collection].
        destruct (schedule_statements_store (current c) u f) as (Hg & Hk & Hr).
        cbv beta iota. eexists _, _. split; [reflexivity|].
        cbn [p_conn p_infra p_session].
        split; [constructor; [reflexivity | apply Hk, Hkeys
                             | apply Hr; [now apply session_sound_owner | exact Hrefs]
                             | exact Hvehicles]|].
        split; [|split; [exact Hg | apply infra_grows_same]].
        apply session_sound_points. exact (session_sound_grows _ _ _ Hg Hsess).
      * (* Complaints *)
        cbn [show_complaints].
        destruct (complaint_statements_store (current c) u f now) as (Hg & Hk & Hr).
        cbv beta iota. eexists _, _. split; [reflexivity|].
        cbn [p_conn p_infra p_session].
        split; [constructor; [reflexivity | apply Hk, Hkeys
                             | apply Hr; [now apply session_sound_owner | exact Hrefs]
                             | exact Hvehicles]|].
        split; [|split; [exact Hg | apply infra_grows_same]].
        apply session_sound_points. exact (session_sound_grows _ _ _ Hg Hsess).
      * (* Training *)
        destruct (show_training_session u i) as (k & Hk).
        destruct (show_training u i) as [u' shown]. cbn [fst] in Hk. subst u'.
        cbv beta iota. eexists _, _. split; [reflexivity|].
        cbn [p_conn p_infra p_session with_session].
        split; [now constructor|].
        split; [now apply session_sound_points|].
        split; [apply grows_same | apply infra_grows_same].
      * (* Shop *)
        destruct (nth_error products i) as [pr|]; [|apply Hsame].
        destruct (show_shop_session u pr quantity true) as (k & Hk).
        destruct (show_shop u pr quantity true) as [u' shown]. cbn [fst] in Hk.
        subst u'.
        cbv beta iota. eexists _, _. split; [reflexivity|].
        cbn [p_conn p_infra p_session with_session].
        split; [now constructor|].
        split; [now apply session_sound_points|].
        split; [apply grows_same | apply infra_grows_same].
      * (* Collections *)
        pose proof (show_worker_collections_store sqlite_date c u today cid
                      new_status vehicle_number Hkeys) as H.
        destruct (show_worker_collections sqlite_date c u today cid new_status
                    vehicle_number) as [c' shown]. cbn [fst] in H.
        destruct H as (Hg & Hc & Hk & Hr).
        cbv beta iota. eexists _, _. split; [reflexivity|].
        cbn [p_conn p_infra p_session].
        split; [constructor; auto|].
        split; [exact (session_sound_grows _ _ _ Hg Hsess)|].
        split; [exact Hg | apply infra_grows_same].
      * (* Facilities *)
        cbn [show_facilities].
        cbv beta iota. eexists _, _. split; [reflexivity|].
        cbn [p_conn p_infra p_session commit current durable].
        split; [now constructor|]. split; [exact Hsess|].
        split; [apply grows_same|].
        constructor; cbn [facilities vehicles insert_facility].
        -- now apply extends_append.
        -- apply Forall2_same, vehicle_kept_same.
      * (* Vehicle Tracking *)
        destruct (show_vehicle_tracking_store c infra selected_vehicle new_lat
                    new_lon new_status now Hvehicles)
          as (c' & infra' & shown & -> & Hcur & Hdur & Hg & Hl).
        cbv beta iota. eexists _, _. split; [reflexivity|].
        cbn [p_conn p_infra p_session].
        split; [constructor; [auto | rewrite Hcur .. | ]; trivial|].
        rewrite Hcur.
        split; [exact Hsess|]. split; [apply grows_same | exact Hg].
  - (* logged out *)
    destruct r as [username password|f year urandom now| |selected w];
      try apply Hsame.
    + (* Login *)
      unfold show_login.
      destruct (authenticate_user sha256_hexdigest c username password) as [u|] eqn:Ha.
      * cbv beta iota. eexists _, _. split; [reflexivity|].
        cbn [p_conn p_infra p_session with_session].
        split; [now constructor|].
        split; [exact (session_sound_login _ _ _ _ _ Ha)|].
        split; [apply grows_same | apply infra_grows_same].
      * apply Hsame.
    + (* Register *)
      pose proof (show_register_store sha256_hexdigest c f year urandom now) as H.
      destruct (show_register sha256_hexdigest c f year urandom now) as [c' shown].
      cbn [fst] in H. destruct H as (Hg & Hc & Hk & Hr).
      cbv beta iota. eexists _, _. split; [reflexivity|].
      cbn [p_conn p_infra p_session].
      split; [constructor; auto|].
      split; [exact (session_sound_grows _ _ _ Hg Hsess)|].
      split; [exact Hg | apply infra_grows_same].
Qed.

End MainProperties.

(** ** The server *)

Lemma Forall_set_nth {A} (P : A -> Prop) (i : nat) (x : A) (l : list A) :
  P x -> Forall P l -> Forall P (set_nth i x l).
Proof.
  intros Hx Hl. unfold set_nth. rewrite Forall_forall in Hl.
  apply Forall_forall. intros y Hy. apply in_app_or in Hy.
  destruct Hy as [Hy|[<-|Hy]].
  - apply Hl. rewrite <- (firstn_skipn i l). apply in_or_app. now left.
  - exact Hx.
  - apply Hl. rewrite <- (firstn_skipn (S i) l). apply in_or_app. now right.
Qed.

Section ServerProperties.

Variable sha256_hexdigest : string -> string.
Variable sqlite_date : string -> option string.

(** One arrival at a sound server. *)
Lemma arrive_sound (s : site) (a : arrival) :
  sound s ->
  exists s' shown,
    arrive sha256_hexdigest sqlite_date s a = Done (s', shown)
    /\ sound s'
    /\ grows (current (site_conn s)) (current (site_conn s'))
    /\ infra_grows (site_infra s) (site_infra s').
Proof.
  intros [Hstore Hsessions]. destruct a as [|i r]; cbn [arrive].
  - eexists _, _. split; [reflexivity|]. cbn [site_conn site_infra site_sessions].
    split; [|split; [apply grows_same | apply infra_grows_same]].
    split; [exact Hstore|]. cbn [site_conn site_sessions].
    apply Forall_app. split; [exact Hsessions|].
    constructor; [reflexivity | constructor].
  - destruct (nth_error (site_sessions s) i) as [ss|] eqn:Hnth.
    2:{ exists s, []. split; [reflexivity|].
        split; [now split|]. split; [apply grows_same | apply infra_grows_same]. }
    assert (Hss : session_sound (current (site_conn s)) ss)
      by (apply (proj1 (Forall_forall _ _) Hsessions), (nth_error_In _ _ Hnth)).
    destruct (main_sound sha256_hexdigest sqlite_date
                {| p_conn := site_conn s; p_infra := site_infra s;
                   p_session := ss |} r Hstore Hss)
      as (p' & shown & -> & Hstore' & Hss' & Hg & Hi).
    cbn [p_conn p_infra p_session] in *.
    eexists _, _. split; [reflexivity|].
    cbn [site_conn site_infra site_sessions].
    split; [|split; [exact Hg | exact Hi]].
    split; [exact Hstore'|]. cbn [site_conn site_sessions].
    apply Forall_set_nth; [exact Hss'|].
    eapply Forall_impl; [|exact Hsessions].
    intros other. now apply session_sound_grows.
Qed.

(** Any sequence of arrivals at a sound server. *)
Lemma serve_sound_grows (arrivals : list arrival) (s : site) :
  sound s ->
  exists s',
    serve sha256_hexdigest sqlite_date s arrivals = Done s'
    /\ sound s'
    /\ grows (current (site_conn s)) (current (site_conn s'))
    /\ infra_grows (site_infra s) (site_infra s').
Proof.
  revert s. induction arrivals as [|a rest IH]; intros s Hs; cbn [serve].
  - exists s. split; [reflexivity|]. split; [exact Hs|].
    split; [apply grows_same | apply infra_grows_same].
  - destruct (arrive_sound s a Hs) as (s1 & shown & -> & Hs1 & Hg1 & Hi1).
    destruct (IH s1 Hs1) as (s' & Hserve & Hs' & Hg & Hi).
    exists s'. split; [exact Hserve|]. split; [exact Hs'|].
    split; [exact (grows_trans _ _ _ Hg1 Hg) | exact (infra_grows_trans _ _ _ Hi1 Hi)].
Qed.

End ServerProperties.

(** ** What any sequence of requests keeps *)

Lemma find_kept {A} (kept : A -> A -> Prop) (key : A -> Z) (l l' : list A)
  (k : Z) (r : A) :
  (forall x y, kept x y -> key y = key x) ->
  Forall2 kept l l' ->
  find (fun x => Z.eqb (key x) k) l = Some r ->
  exists r', find (fun x => Z.eqb (key x) k) l' = Some r' /\ kept r r'.
Proof.
  intros Hkey. induction 1 as [|a b l l' Hab _ IH]; cbn [find]; [discriminate|].
  rewrite (Hkey a b Hab). destruct (Z.eqb (key a) k).
  - intros [= <-]. now exists b.
  - exact IH.
Qed.

Section Invariants.

Variable sha256_hexdigest : string -> string.
Variable sqlite_date : string -> option string.

(** X1: at a sound server, whatever requests arrive, every session that is
    logged in holds the dictionary of a row of the users table, every
    session that is logged out holds none, and the status of every vehicle
    is one of the four of the select box.  So the two exceptions that would
    take the place of a request never occur: the sidebar of [main] never
    subscripts a missing session dictionary, and the vehicle page never
    looks up a status that its select box does not list.  Exceptions of the
    code that draws the pages are not followed by the model and are not
    excluded. *)
Theorem sessions_and_statuses_stay_sound (s : site) (arrivals : list arrival) :
  sound s ->
  exists s',
    serve sha256_hexdigest sqlite_date s arrivals = Done s'
    /\ Forall (fun ss =>
                 if logged_in ss
                 then exists u row,
                        user ss = Some u
                        /\ In row (users (current (site_conn s')))
                        /\ s_id u = u_id row
                        /\ s_username u = u_username row
                        /\ s_user_type u = u_user_type row
                 else user ss = None)
              (site_sessions s')
    /\ Forall (fun v => In (ve_status v) vehicle_status_options)
              (vehicles (site_infra s')).
Proof.
  intros Hs.
  destruct (serve_sound_grows sha256_hexdigest sqlite_date arrivals s Hs)
    as (s' & Hserve & [[_ _ _ Hvehicles] Hsessions] & _).
  exists s'. split; [exact Hserve|]. split; [|exact Hvehicles].
  eapply Forall_impl; [|exact Hsessions].
  intros ss. unfold session_sound. destruct (logged_in ss); [|trivial].
  intros (u & row & Hu & Hin & Hd).
  destruct (dict_of_row_columns u row Hd) as (Hid & Hname & _ & Htype & _).
  now exists u, row.
Qed.

(** X2: at a sound server every sequence of arrivals leaves the primary
    keys and the unique columns of users, collections and complaints
    distinct, and every collection and complaint owned by a user of the
    table. *)
Theorem serve_keeps_keys_and_references (s : site) (arrivals : list arrival) :
  sound s ->
  exists s',
    serve sha256_hexdigest sqlite_date s arrivals = Done s'
    /\ keys_distinct (current (site_conn s'))
    /\ references_valid (current (site_conn s')).
Proof.
  intros Hs.
  destruct (serve_sound_grows sha256_hexdigest sqlite_date arrivals s Hs)
    as (s' & Hserve & [[_ Hk Hr _] _] & _).
  now exists s'.
Qed.

(** X3: at a sound server every sequence of arrivals ends with nothing
    uncommitted: the committed tables are the tables the connection
    sees. *)
Theorem serve_commits_everything (s : site) (arrivals : list arrival) :
  sound s ->
  exists s',
    serve sha256_hexdigest sqlite_date s arrivals = Done s'
    /\ durable (site_conn s') = current (site_conn s').
Proof.
  intros Hs.
  destruct (serve_sound_grows sha256_hexdigest sqlite_date arrivals s Hs)
    as (s' & Hserve & [[Hc _ _ _] _] & _).
  now exists s'.
Qed.

(** X4: at a sound server every sequence of arrivals only adds to the
    store.  The rows of users stay in place with nothing changed but points
    added; the rows of collections stay in place, unchanged or stamped by a
    worker while they were scheduled; the rows of complaints and of
    facilities stay as they are; new rows come after the old ones; the
    rewards table is the same; the vehicles are the same ones, unchanged or
    moved to a listed status. *)
Theorem serve_only_adds (s : site) (arrivals : list arrival) :
  sound s ->
  exists s',
    serve sha256_hexdigest sqlite_date s arrivals = Done s'
    /\ grows (current (site_conn s)) (current (site_conn s'))
    /\ infra_grows (site_infra s) (site_infra s').
Proof.
  intros Hs.
  destruct (serve_sound_grows sha256_hexdigest sqlite_date arrivals s Hs)
    as (s' & Hserve & _ & Hg & Hi).
  now exists s'.
Qed.

(** X5: at a sound server no sequence of arrivals changes the role of a
    user, and every user it adds is a citizen. *)
Theorem serve_never_changes_roles (s : site) (arrivals : list arrival) :
  sound s ->
  exists s' added,
    serve sha256_hexdigest sqlite_date s arrivals = Done s'
    /\ map u_user_type (users (current (site_conn s')))
       = (map u_user_type (users (current (site_conn s)))
          ++ repeat "citizen" added)%list.
Proof.
  intros Hs.
  destruct (serve_sound_grows sha256_hexdigest sqlite_date arrivals s Hs)
    as (s' & Hserve & _ & Hg & _).
  destruct (extends_map u_user_type
              (fun x y Hk => proj1 (proj2 (proj2 (proj2 (proj2
                               (user_kept_columns x y Hk))))))
              (grows_users Hg)) as (new & Hmap & Hnew).
  exists s', (List.length new). split; [exact Hserve|].
  rewrite Hmap. f_equal.
  clear Hmap. induction Hnew as [|r new Hr _ IH]; [reflexivity|].
  cbn [map List.length repeat]. now rewrite Hr, IH.
Qed.

(** X6: at a sound server no sequence of arrivals removes a user or lowers
    a stored balance: a user that had a points value keeps one, at least as
    large. *)
Theorem serve_never_lowers_stored_points (s : site) (arrivals : list arrival)
  (uid before : Z) :
  sound s ->
  stored_points (current (site_conn s)) uid = Some before ->
  exists s' after,
    serve sha256_hexdigest sqlite_date s arrivals = Done s'
    /\ stored_points (current (site_conn s')) uid = Some after
    /\ before <= after.
Proof.
  intros Hs Hb.
  destruct (serve_sound_grows sha256_hexdigest sqlite_date arrivals s Hs)
    as (s' & Hserve & _ & Hg & _).
  destruct (grows_users Hg) as (old & new & Hu & Hkept & _).
  unfold stored_points, select_user_by_id in *.
  destruct (find _ (users (current (site_conn s)))) as [r|] eqn:Hfind;
    [|discriminate].
  cbn [option_map] in Hb. injection Hb as <-.
  destruct (find_kept user_kept u_id _ _ uid r
              (fun x y Hk => proj1 (user_kept_columns x y Hk)) Hkept Hfind)
    as (r' & Hfind' & Hk).
  exists s', (u_points r'). split; [exact Hserve|].
  rewrite Hu, (find_first _ _ new Hfind'). split; [reflexivity|].
  now apply user_kept_columns.
Qed.

End Invariants.

(** ** Roles *)

(** The pages behind the menu of a role: every entry of a menu has a page
    function, and it is one of these. *)
Lemma menu_dispatch (user_type selected : string) :
  in_options selected (menu_options user_type) = true ->
  exists pg,
    dispatch selected = Some pg
    /\ In pg (if String.eqb user_type "admin" then
                [ShowDashboard; ShowAnalytics; ShowUserManagement;
                 ShowFacilities; ShowVehicles; ShowReports;
                 Show3DVisualizations]
              else if String.eqb user_type "worker" then
                [ShowDashboard; ShowWorkerCollections; ShowVehicleTracking;
                 ShowReports]
              else
                [ShowDashboard; ShowScheduleCollection; ShowTrackWaste;
                 ShowComplaints; ShowShop; ShowTraining; Show3DViews]).
Proof.
  unfold menu_options. intros H.
  destruct (String.eqb user_type "admin");
    [|destruct (String.eqb user_type "worker")];
    apply in_options_In in H; cbn [In] in H;
    repeat (destruct H as [<-|H];
            [eexists; split; [reflexivity|]; cbn [In]; tauto|]);
    destruct H.
Qed.

(** What the event of a page can touch. *)
Lemma page_event_effect (sqlite_date : string -> option string) (pg : page)
  (p : portal) (u : session_user) (w : widget) (p' : portal)
  (shown : list message) :
  page_event sqlite_date pg p u w = Done (p', shown) ->
  (pg <> ShowWorkerCollections ->
   extends eq (fun _ => True) (waste_collections (current (p_conn p)))
     (waste_collections (current (p_conn p'))))
  /\ (pg <> ShowVehicleTracking -> vehicles (p_infra p') = vehicles (p_infra p))
  /\ (pg <> ShowFacilities -> facilities (p_infra p') = facilities (p_infra p))
  /\ (pg <> ShowScheduleCollection -> pg <> ShowComplaints ->
      users (current (p_conn p')) = users (current (p_conn p))
      /\ complaints (current (p_conn p')) = complaints (current (p_conn p))
      /\ List.length (waste_collections (current (p_conn p')))
         = List.length (waste_collections (current (p_conn p))))
  /\ (pg <> ShowScheduleCollection -> pg <> ShowComplaints ->
      pg <> ShowTraining -> pg <> ShowShop ->
      p_session p' = p_session p).
Proof.
  assert (Hsame : forall l : list collection_row,
             extends eq (fun _ => True) l l).
  { intros l. now apply extends_same. }
  destruct pg, w; cbn [page_event];
    try (intros [= <- <-];
         split; [intros _; apply Hsame|];
         split; [intros _; reflexivity|];
         split; [intros _; reflexivity|];
         split; [intros _ _; split; [reflexivity|split; reflexivity]|];
         intros _ _ _ _; reflexivity).
  - (* Facilities *)
    cbn [show_facilities]. intros [= <- <-].
    cbn [p_conn p_infra p_session commit current insert_facility vehicles].
    split; [intros _; apply Hsame|].
    split; [intros _; reflexivity|].
    split; [intros H; exfalso; now apply H|].
    split; [intros _ _; split; [reflexivity|split; reflexivity]|].
    intros _ _ _ _; reflexivity.
  - (* Schedule Collection *)
    cbn [show_schedule_collection]. intros [= <- <-].
    cbn [p_conn p_infra p_session commit current schedule_statements execute
         update_points insert_collection waste_collections].
    split; [intros _; now apply extends_append|].
    split; [intros _; reflexivity|].
    split; [intros _; reflexivity|].
    split; [intros H; exfalso; now apply H|].
    intros H; exfalso; now apply H.
  - (* Complaints *)
    cbn [show_complaints]. intros [= <- <-].
    cbn [p_conn p_infra p_session commit current complaint_statements execute
         update_points insert_complaint waste_collections].
    split; [intros _; apply Hsame|].
    split; [intros _; reflexivity|].
    split; [intros _; reflexivity|].
    split; [intros _ H; exfalso; now apply H|].
    intros _ H; exfalso; now apply H.
  - (* Shop *)
    assert (E : exists u' sh,
               match nth_error products i with
               | Some pr =>
                   let '(u', shown) := show_shop u pr quantity true in
                   Done (with_session p (logged_in_as u'), shown)
               | None => Done (p, [])
               end = Done (with_session p u', sh)).
    { destruct (nth_error products i) as [pr|].
      - destruct (show_shop u pr quantity true) as [u' sh]. now eexists _, _.
      - exists (p_session p), []. now destruct p. }
    destruct E as (u' & sh & ->). intros [= <- <-].
    cbn [p_conn p_infra p_session with_session].
    split; [intros _; apply Hsame|].
    split; [intros _; reflexivity|].
    split; [intros _; reflexivity|].
    split; [intros _ _; split; [reflexivity|split; reflexivity]|].
    intros _ _ _ H; exfalso; now apply H.
  - (* Training *)
    destruct (show_training u i) as [u' sh]. intros [= <- <-].
    cbn [p_conn p_infra p_session with_session].
    split; [intros _; apply Hsame|].
    split; [intros _; reflexivity|].
    split; [intros _; reflexivity|].
    split; [intros _ _; split; [reflexivity|split; reflexivity]|].
    intros _ _ H; exfalso; now apply H.
  - (* Collections *)
    unfold show_worker_collections.
    destruct (existsb _ _); intros [= <- <-];
      cbn [p_conn p_infra p_session commit current execute update_collection
           users complaints waste_collections];
      (split; [intros H; exfalso; now apply H|]);
      (split; [intros _; reflexivity|]);
      (split; [intros _; reflexivity|]);
      (split; [intros _ _; split; [reflexivity|split; [reflexivity|]]|
               intros _ _ _ _; reflexivity]).
    + now rewrite length_map.
    + reflexivity.
  - (* Vehicle Tracking *)
    unfold show_vehicle_tracking.
    destruct (find _ (vehicles (p_infra p))) as [vehicle_info|];
      [destruct (String.eqb selected_vehicle "");
       [|destruct (in_options (ve_status vehicle_info) vehicle_status_options);
         [destruct (in_options new_status vehicle_status_options)|]]|];
      try discriminate; intros [= <- <-];
      cbn [p_conn p_infra p_session commit current update_vehicle facilities];
      (split; [intros _; apply Hsame|]);
      (split; [intros H; exfalso; now apply H|]);
      (split; [intros _; reflexivity|]);
      (split; [intros _ _; split; [reflexivity|split; reflexivity]|]);
      intros _ _ _ _; reflexivity.
Qed.

Section RoleProperties.

Variable sha256_hexdigest : string -> string.
Variable sqlite_date : string -> option string.

(** What a run of [main] may change, by the role held in the session. *)
Lemma main_role_effect (p : portal) (r : request) (u : session_user)
  (p' : portal) (shown : list message) :
  logged_in (p_session p) = true ->
  user (p_session p) = Some u ->
  offered (s_user_type u) r = true ->
  main sha256_hexdigest sqlite_date p r = Done (p', shown) ->
  (s_user_type u <> "worker" ->
   extends eq (fun _ => True) (waste_collections (current (p_conn p)))
     (waste_collections (current (p_conn p')))
   /\ vehicles (p_infra p') = vehicles (p_infra p))
  /\ (s_user_type u <> "admin" ->
      facilities (p_infra p') = facilities (p_infra p))
  /\ (s_user_type u = "admin" \/ s_user_type u = "worker" ->
      users (current (p_conn p')) = users (current (p_conn p))
      /\ complaints (current (p_conn p')) = complaints (current (p_conn p))
      /\ List.length (waste_collections (current (p_conn p')))
         = List.length (waste_collections (current (p_conn p)))).
Proof.
  intros Hli Hu Hmenu. unfold main. rewrite Hli, Hu.
  assert (Hsame : forall q : portal,
             p_conn q = p_conn p -> p_infra q = p_infra p ->
             (s_user_type u <> "worker" ->
              extends eq (fun _ => True) (waste_collections (current (p_conn p)))
                (waste_collections (current (p_conn q)))
              /\ vehicles (p_infra q) = vehicles (p_infra p))
             /\ (s_user_type u <> "admin" ->
                 facilities (p_infra q) = facilities (p_infra p))
             /\ (s_user_type u = "admin" \/ s_user_type u = "worker" ->
                 users (current (p_conn q)) = users (current (p_conn p))
                 /\ complaints (current (p_conn q)) = complaints (current (p_conn p))
                 /\ List.length (waste_collections (current (p_conn q)))
                    = List.length (waste_collections (current (p_conn p))))).
  { intros q -> ->. split; [|split]; intros _; repeat split.
    now apply extends_same. }
  destruct r as [username password|f year urandom now| |selected w];
    try (intros [= <- <-]; now apply Hsame).
  cbn [offered] in Hmenu.
  destruct (menu_dispatch _ _ Hmenu) as (pg & -> & Hpg).
  intros Hev. apply page_event_effect in Hev.
  destruct Hev as (Hwc & Hve & Hfa & Hus & _).
  split; [|split].
  - intros Hnw. apply String.eqb_neq in Hnw. rewrite Hnw in Hpg.
    destruct (String.eqb (s_user_type u) "admin"); cbn [In] in Hpg;
      repeat (destruct Hpg as [<-|Hpg];
              [split; [apply Hwc | apply Hve]; discriminate|]);
      destruct Hpg.
  - intros Hna. apply String.eqb_neq in Hna. rewrite Hna in Hpg.
    destruct (String.eqb (s_user_type u) "worker"); cbn [In] in Hpg;
      repeat (destruct Hpg as [<-|Hpg]; [apply Hfa; discriminate|]);
      destruct Hpg.
  - intros [Hrole|Hrole]; rewrite Hrole in Hpg; cbn [String.eqb In] in Hpg;
      repeat (destruct Hpg as [<-|Hpg]; [apply Hus; discriminate|]);
      destruct Hpg.
Qed.

(** X7: the menu is what separates the roles.  For a request whose
    selection is an entry of the menu drawn for the role held in the
    session, only a session of a worker can change an existing collection
    row or a vehicle; only a session of an admin can add a facility; and a
    session of an admin or of a worker changes no user, files no complaint
    and schedules no collection.  Neither [main] nor a page tests the role
    again: see [collections_page_tests_no_role] for a selection outside
    the menu. *)
Theorem menu_separates_roles (p : portal) (r : request) (u : session_user)
  (p' : portal) (shown : list message) :
  logged_in (p_session p) = true ->
  user (p_session p) = Some u ->
  offered (s_user_type u) r = true ->
  main sha256_hexdigest sqlite_date p r = Done (p', shown) ->
  (s_user_type u <> "worker" ->
   extends eq (fun _ => True) (waste_collections (current (p_conn p)))
     (waste_collections (current (p_conn p')))
   /\ vehicles (p_infra p') = vehicles (p_infra p))
  /\ (s_user_type u <> "admin" ->
      facilities (p_infra p') = facilities (p_infra p))
  /\ (s_user_type u = "admin" \/ s_user_type u = "worker" ->
      users (current (p_conn p')) = users (current (p_conn p))
      /\ complaints (current (p_conn p')) = complaints (current (p_conn p))
      /\ List.length (waste_collections (current (p_conn p')))
         = List.length (waste_collections (current (p_conn p)))).
Proof. exact (main_role_effect p r u p' shown). Qed.

(** The hypothesis on the selection is needed: the dispatch compares
    [selected] with the page names only, so a run of [main] that receives
    "Collections" in the session of a citizen marks the pickup processed,
    under the citizen's name. *)
Example collections_page_tests_no_role :
  let p := {| p_conn := Sample.pickup_conn;
              p_infra := empty_infrastructure;
              p_session := logged_in_as (user_dict Sample.alice) |} in
  let r := OnPage "Collections"
             (UpdateCollection "2024-05-02" 7 Processed "DL01AB1234") in
  offered (s_user_type (user_dict Sample.alice)) r = false
  /\ match main Sample.toy_digest Sample.first_ten p r with
     | Done (p', _) =>
         option_map (fun row => (wc_status row, wc_collected_by row))
           (select_collection (current (p_conn p')) 7)
         = Some (Processed, Some "Alice")
     | Fails _ => False
     end.
Proof. split; reflexivity. Qed.

Lemma extends_eq_app {A} {fresh : A -> Prop} {l l' : list A} :
  extends eq fresh l l' -> exists new, l' = (l ++ new)%list /\ Forall fresh new.
Proof.
  intros (old & new & -> & H & F). exists new. split; [|exact F].
  f_equal. symmetry. clear F. induction H; [reflexivity|]. now f_equal.
Qed.

Lemma no_user_of_type_grows (t : string) (db db' : database) :
  t <> "citizen" -> grows db db' ->
  no_user_of_type t db -> no_user_of_type t db'.
Proof.
  intros Ht Hg Hno. unfold no_user_of_type in *.
  destruct (grows_users Hg) as (old & new & -> & Hkept & Hnew).
  apply Forall_app. split.
  - apply Forall_forall. intros y Hy.
    destruct (Forall2_preimage Hkept Hy) as (x & Hx & Hk).
    destruct (user_kept_columns x y Hk) as (_ & _ & _ & _ & -> & _).
    exact (proj1 (Forall_forall _ _) Hno x Hx).
  - eapply Forall_impl; [|exact Hnew]. cbn. intros r ->. congruence.
Qed.

(** One arrival at a sound server without workers. *)
Lemma arrive_without_worker (s : site) (a : arrival) (s' : site)
  (shown : list message) :
  sound s ->
  no_user_of_type "worker" (current (site_conn s)) ->
  arrival_offered s a = true ->
  arrive sha256_hexdigest sqlite_date s a = Done (s', shown) ->
  extends eq (fun _ => True) (waste_collections (current (site_conn s)))
    (waste_collections (current (site_conn s')))
  /\ vehicles (site_infra s') = vehicles (site_infra s).
Proof.
  intros [Hstore Hsessions] Hno Hoff.
  destruct a as [|i r]; cbn [arrive arrival_offered] in *.
  { intros [= <- <-]. split; [now apply extends_same | reflexivity]. }
  destruct (nth_error (site_sessions s) i) as [ss|] eqn:Hnth.
  2:{ intros [= <- <-]. split; [now apply extends_same | reflexivity]. }
  assert (Hss : session_sound (current (site_conn s)) ss)
    by (apply (proj1 (Forall_forall _ _) Hsessions), (nth_error_In _ _ Hnth)).
  destruct (main sha256_hexdigest sqlite_date _ r) as [[p' sh]|e] eqn:Hmain;
    [|discriminate].
  intros [= <- <-]. cbn [site_conn site_infra].
  unfold session_sound in Hss. destruct (logged_in ss) eqn:Hli.
  - destruct Hss as (u & row & Hu & Hin & Hd).
    assert (Hmenu : offered (s_user_type u) r = true)
      by (destruct ss as [li [u0|]]; cbn [user] in Hu; [|discriminate];
          injection Hu as ->; exact Hoff).
    apply (main_role_effect
             {| p_conn := site_conn s; p_infra := site_infra s;
                p_session := ss |} r u p' sh Hli Hu Hmenu) in Hmain.
    apply (proj1 Hmain).
    destruct (dict_of_row_columns u row Hd) as (_ & _ & _ & -> & _).
    exact (proj1 (Forall_forall _ _) Hno row Hin).
  - unfold main in Hmain. cbn [p_session p_conn p_infra] in Hmain.
    rewrite Hli in Hmain.
    destruct r as [username password|f year urandom now| |selected w].
    + destruct (show_login _ _ _ _ _) as [ss' sh']. injection Hmain as <- _.
      split; [now apply extends_same | reflexivity].
    + destruct (show_register_cases sha256_hexdigest (site_conn s) f year
                  urandom now) as [[_ E]|[_ (c' & E & _ & _ & Hwc & _)]];
        rewrite E in Hmain; injection Hmain as <- _;
        cbn [p_conn p_infra]; [|rewrite Hwc];
        (split; [now apply extends_same | reflexivity]).
    + injection Hmain as <- _. split; [now apply extends_same | reflexivity].
    + injection Hmain as <- _. split; [now apply extends_same | reflexivity].
Qed.

(** Any arrivals at a sound server without workers. *)
Lemma serve_without_worker (arrivals : list arrival) (s : site) :
  sound s ->
  no_user_of_type "worker" (current (site_conn s)) ->
  all_offered sha256_hexdigest sqlite_date s arrivals = true ->
  exists s' added,
    serve sha256_hexdigest sqlite_date s arrivals = Done s'
    /\ waste_collections (current (site_conn s'))
       = (waste_collections (current (site_conn s)) ++ added)%list
    /\ vehicles (site_infra s') = vehicles (site_infra s)
    /\ no_user_of_type "worker" (current (site_conn s')).
Proof.
  revert s. induction arrivals as [|a rest IH]; intros s Hs Hno Hoff;
    cbn [serve all_offered] in *.
  - exists s, []. rewrite app_nil_r. now repeat split.
  - destruct (arrive_sound sha256_hexdigest sqlite_date s a Hs)
      as (s1 & shown & Harrive & Hs1 & Hg1 & _).
    rewrite Harrive in Hoff. apply andb_true_iff in Hoff.
    destruct Hoff as [Hoff Hrest].
    destruct (arrive_without_worker s a s1 shown Hs Hno Hoff Harrive)
      as [Hwc Hve].
    rewrite Harrive.
    assert (Hno1 : no_user_of_type "worker" (current (site_conn s1)))
      by (apply (no_user_of_type_grows "worker" _ _ ltac:(discriminate) Hg1 Hno)).
    destruct (IH s1 Hs1 Hno1 Hrest)
      as (s' & added & Hserve & Hwc' & Hve' & Hno').
    destruct (extends_eq_app Hwc) as (new & Hnew & _).
    exists s', (new ++ added)%list. split; [exact Hserve|].
    split; [now rewrite Hwc', Hnew, app_assoc|].
    split; [now rewrite Hve', Hve | exact Hno'].
Qed.

(** X8: at a sound server whose users table holds no worker, requests
    made through the menus never change a collection row or a vehicle.
    When every selection that arrives is an entry of the menu drawn for its
    session, the collections are the old rows, as they were, followed by
    newly scheduled ones, and the vehicles table is the same.  No request
    can create a worker, so this stays so for good. *)
Theorem no_worker_no_status_change (s : site) (arrivals : list arrival) :
  sound s ->
  no_user_of_type "worker" (current (site_conn s)) ->
  all_offered sha256_hexdigest sqlite_date s arrivals = true ->
  exists s' added,
    serve sha256_hexdigest sqlite_date s arrivals = Done s'
    /\ waste_collections (current (site_conn s'))
       = (waste_collections (current (site_conn s)) ++ added)%list
    /\ vehicles (site_infra s') = vehicles (site_infra s)
    /\ no_user_of_type "worker" (current (site_conn s')).
Proof. exact (serve_without_worker arrivals s). Qed.

End RoleProperties.

(** ** Complaints *)

Lemma count_pending_app (rows filed : list complaint_row) :
  Forall (fun r => cp_status r = Pending) filed ->
  count_pending (rows ++ filed)
  = count_pending rows + Z.of_nat (List.length filed).
Proof.
  intros H. unfold count_pending. rewrite filter_app, length_app.
  replace (filter _ filed) with filed; [lia|].
  induction H as [|r filed Hr _ IH]; [reflexivity|].
  cbn [filter]. rewrite Hr. now f_equal.
Qed.

Section ComplaintProperties.

Variable sha256_hexdigest : string -> string.
Variable sqlite_date : string -> option string.
Variable round2 : Q -> Q.

(** X9: at a sound server no sequence of arrivals changes or removes a
    complaint: the complaints are the old rows, as they were, followed by
    the newly filed ones, which are all pending.  No request resolves a
    complaint, so the active-complaints figure of the dashboard goes up by
    one per complaint filed and never down. *)
Theorem serve_never_resolves_complaints (s : site) (arrivals : list arrival) :
  sound s ->
  exists s' filed,
    serve sha256_hexdigest sqlite_date s arrivals = Done s'
    /\ complaints (current (site_conn s'))
       = (complaints (current (site_conn s)) ++ filed)%list
    /\ Forall (fun r => cp_status r = Pending) filed
    /\ active_complaints (get_dashboard_stats round2 (site_conn s') (site_infra s'))
       = active_complaints (get_dashboard_stats round2 (site_conn s) (site_infra s))
         + Z.of_nat (List.length filed).
Proof.
  intros Hs.
  destruct (serve_sound_grows sha256_hexdigest sqlite_date arrivals s Hs)
    as (s' & Hserve & _ & Hg & _).
  destruct (extends_eq_app (grows_complaints Hg)) as (filed & Hf & Hp).
  exists s', filed. split; [exact Hserve|]. split; [exact Hf|].
  split; [exact Hp|].
  cbn [active_complaints get_dashboard_stats]. rewrite Hf.
  now apply count_pending_app.
Qed.

End ComplaintProperties.

(** ** Points that live in the session only *)

Section SessionPoints.

Variable sha256_hexdigest : string -> string.
Variable sqlite_date : string -> option string.

Lemma session_only_event (p : portal) (r : request) :
  (exists selected i, r = OnPage selected (StartModule i))
  \/ (exists selected i quantity, r = OnPage selected (Buy i quantity)) ->
  match main sha256_hexdigest sqlite_date p r with
  | Done (p1, _) =>
      p_conn p1 = p_conn p /\ p_infra p1 = p_infra p
      /\ main sha256_hexdigest sqlite_date p1 Logout
         = main sha256_hexdigest sqlite_date p Logout
  | Fails e => main sha256_hexdigest sqlite_date p Logout = Fails e
  end.
Proof.
  intros Hr. destruct p as [c infra [li us]].
  unfold main at 1. cbn [p_session logged_in user].
  destruct li; [destruct us as [u|]|].
  - assert (Hout : forall ss shown,
               match @Done (portal * list message)
                       (with_session {| p_conn := c; p_infra := infra;
                                        p_session := logged_in_as u |}
                          (logged_in_as ss), shown) with
               | Done (p1, _) =>
                   p_conn p1 = c /\ p_infra p1 = infra
                   /\ main sha256_hexdigest sqlite_date p1 Logout
                      = main sha256_hexdigest sqlite_date
                          {| p_conn := c; p_infra := infra;
                             p_session := logged_in_as u |} Logout
               | Fails e => False
               end).
    { intros ss shown. repeat split. }
    destruct Hr as [(selected & i & ->)|(selected & i & quantity & ->)].
    + destruct (dispatch selected) as [pg|]; [|exact (Hout u [])].
      destruct pg; cbn [page_event]; try exact (Hout u []).
      destruct (show_training u i) as [u' shown]. exact (Hout u' shown).
    + destruct (dispatch selected) as [pg|]; [|exact (Hout u [])].
      destruct pg; cbn [page_event]; try exact (Hout u []).
      destruct (nth_error products i) as [pr|]; [|exact (Hout u [])].
      destruct (show_shop u pr quantity true) as [u' shown].
      exact (Hout u' shown).
  - reflexivity.
  - destruct Hr as [(selected & i & ->)|(selected & i & quantity & ->)];
      repeat split.
Qed.

(** X10: a training module or a purchase changes nothing but the session
    dictionary, so it is gone at logout: logging out right after it gives
    exactly the state that logging out without it gives, store and session
    alike. *)
Theorem session_points_vanish_at_logout (p : portal) (selected : string)
  (i : nat) (quantity : Z) :
  match main sha256_hexdigest sqlite_date p (OnPage selected (StartModule i)) with
  | Done (p1, _) =>
      p_conn p1 = p_conn p /\ p_infra p1 = p_infra p
      /\ main sha256_hexdigest sqlite_date p1 Logout
         = main sha256_hexdigest sqlite_date p Logout
  | Fails e => main sha256_hexdigest sqlite_date p Logout = Fails e
  end
  /\ match main sha256_hexdigest sqlite_date p
             (OnPage selected (Buy i quantity)) with
     | Done (p1, _) =>
         p_conn p1 = p_conn p /\ p_infra p1 = p_infra p
         /\ main sha256_hexdigest sqlite_date p1 Logout
            = main sha256_hexdigest sqlite_date p Logout
     | Fails e => main sha256_hexdigest sqlite_date p Logout = Fails e
     end.
Proof.
  split; apply session_only_event; [left | right]; eauto.
Qed.

End SessionPoints.
(** ** Seeding *)

Lemma distinctb_NoDup {A} (eqb : A -> A -> bool) (l : list A) :
  (forall x y, eqb x y = true <-> x = y) ->
  distinctb eqb l = true -> NoDup l.
Proof.
  intros Heq. induction l as [|x l IH]; cbn [distinctb]; [constructor|].
  intros H. apply andb_true_iff in H. destruct H as [Hx Hl].
  constructor; [|now apply IH].
  intros Hin. apply negb_true_iff in Hx.
  assert (existsb (eqb x) l = true); [|congruence].
  apply existsb_exists. exists x. split; [exact Hin | now apply Heq].
Qed.

Lemma insert_user_appends (db db' : database) (r : user_row) :
  insert_user db r = Some db' -> users db' = (users db ++ [r])%list.
Proof.
  unfold insert_user. destruct (violates_unique db r); [discriminate|].
  now intros [= <-].
Qed.

Section SeedingProperties.

Variable sha256_hexdigest : string -> string.

Lemma insert_users_not_empty (rows : list (database -> user_row))
  (db db' : database) :
  insert_users db rows = Some db' -> rows <> [] \/ users db <> [] ->
  users db' <> [].
Proof.
  revert db. induction rows as [|row rest IH]; intros db; cbn [insert_users].
  - intros [= <-] [H|H]; [now contradiction H | exact H].
  - destruct (insert_user db (row db)) as [db1|] eqn:E; [|discriminate].
    intros H _. apply (IH db1 H). right.
    rewrite (insert_user_appends _ _ _ E). now destruct (users db).
Qed.

Lemma seed_collections_users (draws : seed_draws) (now : string)
  (db : database) :
  users (seed_collections draws now db) = users db.
Proof.
  unfold seed_collections. generalize (seq 1 50). intros l. revert db.
  induction l as [|i l IH]; intros db; cbn [fold_left]; [reflexivity|].
  now rewrite IH.
Qed.

Lemma commit_twice (c : connection) : commit (commit c) = commit c.
Proof. reflexivity. Qed.

Lemma init_database_when_seeded (draws : seed_draws) (now : string)
  (c : connection) (infra : infrastructure) :
  users (current c) <> [] ->
  init_database sha256_hexdigest draws now c infra = Done (commit c, infra).
Proof.
  unfold init_database. intros H.
  destruct (users (current c)); [now contradiction H | reflexivity].
Qed.

(** X11: [init_database] seeds once.  Whatever a first call returned, a
    second call on its result, with any draws and at any time, returns the
    same store: it inserts nothing when the users table has a row. *)
Theorem init_database_seeds_once (draws draws' : seed_draws)
  (now now' : string) (c : connection) (infra : infrastructure) :
  match init_database sha256_hexdigest draws now c infra with
  | Done (c1, infra1) =>
      init_database sha256_hexdigest draws' now' c1 infra1 = Done (c1, infra1)
  | Fails _ => True
  end.
Proof.
  unfold init_database at 1.
  destruct (users (current c)) as [|r rows] eqn:Hu.
  - destruct (seed_users sha256_hexdigest draws now (current c)) as [db1|] eqn:Hs;
      [|exact I].
    destruct (insert_vehicles _ _) as [infra'|]; [|exact I].
    rewrite init_database_when_seeded; [now rewrite commit_twice|].
    cbn [current commit].
    rewrite (seed_collections_users draws now db1).
    apply (insert_users_not_empty _ _ _ Hs). left. intros [=].
  - rewrite init_database_when_seeded; [now rewrite commit_twice|].
    cbn [current commit]. rewrite Hu. discriminate.
Qed.

Lemma seed_owner_known (x : Z) :
  2 <= x <= 10 -> In x [1; 2; 3; 4; 5; 6; 7; 8; 9; 10; 11].
Proof.
  intros H.
  assert (x = 2 \/ x = 3 \/ x = 4 \/ x = 5 \/ x = 6 \/ x = 7 \/ x = 8
          \/ x = 9 \/ x = 10) as E by lia.
  cbn [In]. intuition auto.
Qed.

Lemma seeded_store (draws : seed_draws) (now : string) :
  (forall i, 2 <= d_user_id (draw_collection draws i) <= 10) ->
  exists c1 infra1,
    init_database sha256_hexdigest draws now empty_connection
      empty_infrastructure = Done (c1, infra1)
    /\ sound {| site_conn := c1; site_infra := infra1; site_sessions := [] |}
    /\ no_user_of_type "worker" (current c1)
    /\ List.length (users (current c1)) = 11%nat
    /\ List.length (waste_collections (current c1)) = 50%nat
    /\ List.length (facilities infra1) = 3%nat
    /\ List.length (vehicles infra1) = 3%nat
    /\ Forall (fun r => stored_as_int (wc_segregated r) = false
                         /\ is_flag (wc_segregated r) = true)
               (waste_collections (current c1)).
Proof.
  intros Hrange.
  destruct (init_database sha256_hexdigest draws now empty_connection
              empty_infrastructure) as [[c1 infra1]|e] eqn:E;
    vm_compute in E; [|discriminate].
  injection E as <- <-.
  eexists _, _. split; [reflexivity|].
  split; [split; [constructor|constructor]|].
  - reflexivity.
  - constructor; cbn [current users waste_collections complaints map].
    + apply (distinctb_NoDup Z.eqb); [apply Z.eqb_eq | vm_compute; reflexivity].
    + apply (distinctb_NoDup String.eqb); [apply String.eqb_eq | vm_compute; reflexivity].
    + apply (distinctb_NoDup String.eqb); [apply String.eqb_eq | vm_compute; reflexivity].
    + apply (distinctb_NoDup String.eqb); [apply String.eqb_eq | vm_compute; reflexivity].
    + apply (distinctb_NoDup Z.eqb); [apply Z.eqb_eq | vm_compute; reflexivity].
    + constructor.
  - constructor; cbn [current users waste_collections complaints];
      [|constructor].
    repeat (constructor; [apply seed_owner_known, Hrange|]). constructor.
  - cbn [vehicles]. repeat (constructor; [cbn; tauto|]). constructor.
  - split; [|repeat split].
    + cbn [current users]. unfold no_user_of_type. cbn [users].
      repeat (constructor; [discriminate|]). constructor.
    + cbn [current waste_collections].
      repeat (constructor;
              [split; [reflexivity
                      | match goal with
                        | |- context [if ?b then _ else _] => destruct b
                        end; reflexivity]|]).
      constructor.
Qed.

(** The sample collections keep their flag as bytes, whatever is drawn. *)
Lemma seeded_flags (draws : seed_draws) (now : string) :
  exists c1 infra1,
    init_database sha256_hexdigest draws now empty_connection
      empty_infrastructure = Done (c1, infra1)
    /\ Forall (fun r => stored_as_int (wc_segregated r) = false)
              (waste_collections (current c1)).
Proof.
  destruct (init_database sha256_hexdigest draws now empty_connection
              empty_infrastructure) as [[c1 infra1]|e] eqn:E;
    vm_compute in E; [|discriminate].
  injection E as <- <-.
  eexists _, _. split; [reflexivity|].
  cbn [current waste_collections].
  repeat (constructor; [reflexivity|]). constructor.
Qed.

(** X12: seeding an empty store succeeds and leaves a sound server: eleven
    users with distinct keys, usernames, e-mails and tracking codes, fifty
    collections with distinct keys, each owned by a seeded user when NumPy
    draws the owners in the range it is asked for, three facilities, three
    vehicles with listed statuses, everything committed; and no user is a
    worker. *)
Theorem init_database_fresh_store (draws : seed_draws) (now : string) :
  (forall i, 2 <= d_user_id (draw_collection draws i) <= 10) ->
  exists c1 infra1,
    init_database sha256_hexdigest draws now empty_connection
      empty_infrastructure = Done (c1, infra1)
    /\ sound {| site_conn := c1; site_infra := infra1; site_sessions := [] |}
    /\ no_user_of_type "worker" (current c1)
    /\ List.length (users (current c1)) = 11%nat
    /\ List.length (waste_collections (current c1)) = 50%nat
    /\ List.length (facilities infra1) = 3%nat
    /\ List.length (vehicles infra1) = 3%nat.
Proof.
  intros Hrange.
  destruct (seeded_store draws now Hrange)
    as (c1 & infra1 & E & Hs & Hw & Hu & Hc & Hf & Hv & _).
  exists c1, infra1.
  exact (conj E (conj Hs (conj Hw (conj Hu (conj Hc (conj Hf Hv)))))).
Qed.

Lemma authenticate_stored_row (c : connection) (r : user_row)
  (username password : string) :
  select_user_by_username (current c) username = Some r ->
  u_password_hash r = sha256_hexdigest password ->
  authenticate_user sha256_hexdigest c username password
  = Some (user_dict r).
Proof.
  unfold authenticate_user, verify_password. intros -> ->.
  now rewrite String.eqb_refl.
Qed.

(** X13: the demo credentials printed on the login page are the ones
    [init_database] seeds.  On a freshly seeded store [admin / admin123]
    logs in as the administrator with 1000 points, and [user<i> /
    user<i>123] logs in as a citizen holding the points drawn for it, for
    every [i] from 1 to 10. *)
Theorem seeded_accounts_log_in (draws : seed_draws) (now : string) :
  match init_database sha256_hexdigest draws now empty_connection
          empty_infrastructure with
  | Done (c1, _) =>
      option_map (fun u => (s_user_type u, s_points u))
        (authenticate_user sha256_hexdigest c1 "admin" "admin123")
      = Some ("admin", 1000)
      /\ Forall
           (fun i =>
              let n := decimal (N.of_nat i) in
              option_map (fun u => (s_user_type u, s_points u))
                (authenticate_user sha256_hexdigest c1
                   ("user" ++ n) ("user" ++ n ++ "123"))
              = Some ("citizen", draw_points draws i))
           (seq 1 10)
  | Fails _ => False
  end.
Proof.
  destruct (init_database sha256_hexdigest draws now empty_connection
              empty_infrastructure) as [[c1 infra1]|e] eqn:E;
    vm_compute in E; [|discriminate].
  injection E as <- <-.
  split.
  - erewrite authenticate_stored_row;
      [| lazy; reflexivity | reflexivity]; reflexivity.
  - cbn [seq].
    repeat (constructor;
            [cbv zeta;
             erewrite authenticate_stored_row;
             [| lazy; reflexivity | reflexivity]; reflexivity|]).
    constructor.
Qed.

End SeedingProperties.

(** ** Figures *)

Lemma sum_after_TypeError (rest : list sql_cell) :
  fold_left (fun acc y => match acc with
                          | Returns a => py_add a (cell_value y)
                          | TypeError => TypeError
                          end) rest TypeError = TypeError.
Proof. induction rest as [|y rest IH]; [reflexivity | exact IH]. Qed.

Lemma sum_after_bytes (rest : list sql_cell) (b : list byte) :
  match fold_left (fun acc y => match acc with
                                | Returns a => py_add a (cell_value y)
                                | TypeError => TypeError
                                end) rest (Returns (PyBytes b)) with
  | Returns (PyInt _) => False
  | _ => True
  end.
Proof.
  revert b. induction rest as [|y rest IH]; intros b; [exact I|].
  cbn [fold_left]. destruct y as [z|b']; cbn [cell_value py_add].
  - now rewrite sum_after_TypeError.
  - apply IH.
Qed.

Lemma sum_after_int (rest : list sql_cell) (z : Z) :
  has_blob rest = true ->
  fold_left (fun acc y => match acc with
                          | Returns a => py_add a (cell_value y)
                          | TypeError => TypeError
                          end) rest (Returns (PyInt z)) = TypeError.
Proof.
  revert z. induction rest as [|y rest IH]; intros z; [discriminate|].
  cbn [fold_left has_blob existsb]. destruct y as [w|b];
    cbn [cell_value py_add stored_as_int negb orb].
  - apply IH.
  - intros _. apply sum_after_TypeError.
Qed.

Lemma series_sum_of_blob (col : list sql_cell) :
  has_blob col = true ->
  match series_sum col with
  | Returns (PyInt _) => False
  | _ => True
  end.
Proof.
  destruct col as [|x col]; [discriminate|].
  cbn [series_sum has_blob existsb]. destruct x as [z|b];
    cbn [cell_value stored_as_int negb orb].
  - intros H. now rewrite (sum_after_int col z H).
  - intros _. apply sum_after_bytes.
Qed.

Lemma has_blob_false (col : list sql_cell) :
  has_blob col = false <-> forallb stored_as_int col = true.
Proof.
  induction col as [|x col IH]; [now split|].
  cbn [has_blob existsb forallb]. destruct x; cbn [stored_as_int negb];
    cbn [orb andb]; [exact IH | now split].
Qed.

Lemma has_blob_in (col : list sql_cell) (x : sql_cell) :
  In x col -> stored_as_int x = false -> has_blob col = true.
Proof.
  intros Hin Hx. apply existsb_exists. exists x. now rewrite Hx.
Qed.

Lemma has_blob_not_empty (col : list sql_cell) :
  has_blob col = true -> col <> [].
Proof. now destruct col. Qed.

Lemma efficiency_rate_of_blob (waste_data : list (collection_row * user_row)) :
  has_blob (segregated_column waste_data) = true ->
  efficiency_segregation_rate waste_data = TypeError.
Proof.
  intros H. unfold efficiency_segregation_rate.
  pose proof (series_sum_of_blob _ H) as Hs.
  destruct (series_sum (segregated_column waste_data)) as [[z|b]|];
    [contradiction| |reflexivity].
  destruct waste_data as [|row rest]; [discriminate|].
  cbn [List.length]. now rewrite (proj2 (Z.gtb_lt _ 0)) by lia.
Qed.

Lemma efficiency_rate_of_ints (waste_data : list (collection_row * user_row)) :
  has_blob (segregated_column waste_data) = false ->
  exists q, efficiency_segregation_rate waste_data = Returns (Num q).
Proof.
  intros H. apply has_blob_false in H. unfold efficiency_segregation_rate.
  rewrite (series_sum_of_ints _ H).
  destruct (_ >? 0); eexists; reflexivity.
Qed.

(** X14: [create_efficiency_dashboard] raises [TypeError] exactly when
    some [segregated] value of the frame came back from SQLite as bytes; on
    a frame whose flags are all integers, the empty frame included, it
    returns its two rates. *)
Theorem efficiency_dashboard_raises_iff_blob
  (waste_data : list (collection_row * user_row)) :
  create_efficiency_dashboard waste_data = TypeError
  <-> has_blob (segregated_column waste_data) = true.
Proof.
  unfold create_efficiency_dashboard.
  destruct (has_blob (segregated_column waste_data)) eqn:H.
  - rewrite (efficiency_rate_of_blob _ H). now split.
  - destruct (efficiency_rate_of_ints _ H) as (q & ->). now split.
Qed.

Lemma processed_count_bounds (waste_data : list (collection_row * user_row)) :
  0 <= processed_count waste_data <= Z.of_nat (List.length waste_data).
Proof.
  unfold processed_count. split; [lia|].
  apply inj_le. apply filter_length_le.
Qed.

(** X15: when [create_efficiency_dashboard] returns, its processing rate is
    a number, never NaN: zero on a frame without rows, and otherwise the
    percentage of rows whose status is processed, between 0 and 100. *)
Theorem processing_rate_is_percentage
  (waste_data : list (collection_row * user_row)) :
  match create_efficiency_dashboard waste_data with
  | Returns (_, Num q) =>
      (0 <= q <= 100)%Q
      /\ q = match waste_data with
             | [] => 0%Q
             | _ => percentage (processed_count waste_data)
                               (Z.of_nat (List.length waste_data))
             end
  | Returns (_, NaN) => False
  | TypeError => has_blob (segregated_column waste_data) = true
  end.
Proof.
  unfold create_efficiency_dashboard.
  destruct (has_blob (segregated_column waste_data)) eqn:H.
  - now rewrite (efficiency_rate_of_blob _ H).
  - destruct (efficiency_rate_of_ints _ H) as (s & ->).
    destruct waste_data as [|row rest].
    + cbn. split; [split; discriminate | reflexivity].
    + rewrite (proj2 (Z.gtb_lt _ 0)) by (cbn [List.length]; lia).
      split; [|reflexivity].
      apply percentage_bounds; [apply processed_count_bounds|].
      cbn [List.length]. lia.
Qed.

Section ReportProperties.

Variable sqlite_date : string -> option string.

Lemma show_reports_effect (c : connection) (start_date end_date : string) :
  let waste_data := report_data sqlite_date (current c) start_date end_date in
  let col := segregated_column waste_data in
  match show_reports sqlite_date c start_date end_date with
  | Returns (None, shown) =>
      waste_data = []
      /\ shown = [Warning "No data available for the selected date range."]
  | Returns (Some m, shown) =>
      waste_data <> [] /\ has_blob col = false /\ shown = []
      /\ rm_total_collections m = Z.of_nat (List.length waste_data)
      /\ rm_segregation_rate m
         = Num (percentage (sum_Z (map cell_to_int col))
                           (Z.of_nat (List.length waste_data)))
  | TypeError => has_blob col = true
  end.
Proof.
  cbv zeta. unfold show_reports.
  generalize (report_data sqlite_date (current c) start_date end_date).
  intros waste_data.
  destruct (has_blob (segregated_column waste_data)) eqn:H.
  - pose proof (series_sum_of_blob _ H) as Hs.
    destruct waste_data as [|row rest]; [discriminate|].
    destruct (series_sum (segregated_column (row :: rest))) as [[z|b]|];
      [contradiction | reflexivity | reflexivity].
  - destruct waste_data as [|row rest]; [now split|].
    rewrite (series_sum_of_ints _ (proj1 (has_blob_false _) H)).
    cbn [rm_total_collections rm_segregation_rate].
    split; [discriminate|]. now repeat split.
Qed.

(** X16: the three ways [show_reports] ends.  It shows the no-data warning
    and no metric exactly when no collection falls in the range; it raises
    [TypeError] exactly when the range holds a row whose [segregated] value
    came back as bytes; and otherwise it shows the number of rows of the
    range and, as the rate, the percentage that the sum of their flags is of
    that number. *)
Theorem show_reports_cases (c : connection) (start_date end_date : string) :
  let waste_data := report_data sqlite_date (current c) start_date end_date in
  let col := segregated_column waste_data in
  match show_reports sqlite_date c start_date end_date with
  | Returns (None, shown) =>
      waste_data = []
      /\ shown = [Warning "No data available for the selected date range."]
  | Returns (Some m, shown) =>
      waste_data <> [] /\ has_blob col = false /\ shown = []
      /\ rm_total_collections m = Z.of_nat (List.length waste_data)
      /\ rm_segregation_rate m
         = Num (percentage (sum_Z (map cell_to_int col))
                           (Z.of_nat (List.length waste_data)))
  | TypeError => has_blob col = true
  end.
Proof. exact (show_reports_effect c start_date end_date). Qed.

End ReportProperties.

Lemma nth_error_first_rows {A} (l : list A) (k : nat) :
  map (nth_error l) (seq 0 (Nat.min k (List.length l)))
  = map Some (firstn k l).
Proof.
  revert k. induction l as [|a l IH]; intros k.
  - rewrite Nat.min_0_r. now rewrite firstn_nil.
  - destruct k as [|k]; [reflexivity|].
    cbn [List.length Nat.min seq map firstn nth_error]. f_equal.
    rewrite <- seq_shift, map_map. cbn [nth_error]. apply IH.
Qed.

Lemma map_Some_inj {A} (l l' : list A) :
  map Some l = map Some l' -> l = l'.
Proof.
  revert l'. induction l as [|a l IH]; intros [|a' l']; try discriminate.
  - reflexivity.
  - cbn [map]. intros [= -> H]. f_equal. now apply IH.
Qed.

Lemma flow_lines_from_done {A B} (indices : list nat) (waste_data : list A)
  (x : B) (facilities_data : list B) :
  Forall (fun i => (i < List.length waste_data)%nat) indices ->
  exists lines,
    flow_lines_from indices waste_data (x :: facilities_data) = Done lines
    /\ map (fun l => Some (fst l)) lines
       = map (nth_error waste_data) indices
    /\ map (fun l => Some (snd l)) lines
       = map (fun i => nth_error (x :: facilities_data)
                         (i mod List.length (x :: facilities_data)))
             indices.
Proof.
  induction 1 as [|i indices Hi _ IH].
  - exists []. now repeat split.
  - destruct IH as (lines & Hl & Hw & Hf).
    cbn [flow_lines_from]. cbn [List.length] in *.
    destruct (nth_error (x :: facilities_data)
                (i mod S (List.length facilities_data))) as [f|] eqn:Ef.
    + destruct (nth_error waste_data i) as [w|] eqn:Ew.
      * rewrite Hl. exists ((w, f) :: lines).
        cbn [map fst snd]. rewrite Hw, Hf, Ew, Ef. now repeat split.
      * apply nth_error_None in Ew. lia.
    + apply nth_error_None in Ef. cbn [List.length] in Ef.
      pose proof (Nat.mod_upper_bound i (S (List.length facilities_data))).
      lia.
Qed.

(** X17: the loop that draws the flow lines never divides by zero and
    never indexes outside either frame.  Reached with at least one
    collection and one facility, it draws one line for each of the first
    ten collections, in order, the [i]-th one to facility [i mod n], [n]
    the number of facilities. *)
Theorem flow_lines_stay_in_range {A B} (source : A) (more_sources : list A)
  (facility : B) (more_facilities : list B) :
  let waste_data := source :: more_sources in
  let facilities_data := facility :: more_facilities in
  exists lines,
    flow_lines source more_sources facility more_facilities = Done lines
    /\ map fst lines = firstn 10 waste_data
    /\ Forall (fun l => In (snd l) facilities_data) lines
    /\ forall i l, nth_error lines i = Some l ->
          nth_error facilities_data (i mod List.length facilities_data)
          = Some (snd l).
Proof.
  cbv zeta. unfold flow_lines.
  set (waste_data := source :: more_sources).
  set (n := Nat.min 10 (List.length waste_data)).
  destruct (flow_lines_from_done (seq 0 n) waste_data facility more_facilities)
    as (lines & Hl & Hw & Hf).
  { apply Forall_forall. intros i Hi. apply in_seq in Hi. subst n. lia. }
  exists lines. split; [exact Hl|].
  assert (Hfst : map fst lines = firstn 10 waste_data).
  { apply map_Some_inj. rewrite map_map. subst n.
    now rewrite Hw, nth_error_first_rows. }
  split; [exact Hfst|].
  assert (Hnth : forall i l, nth_error lines i = Some l ->
            nth_error (facility :: more_facilities)
              (i mod List.length (facility :: more_facilities))
            = Some (snd l)).
  { intros i l Hi.
    apply (f_equal (fun m => nth_error m i)) in Hf.
    rewrite !nth_error_map, Hi in Hf. cbn [option_map] in Hf.
    assert (i < n)%nat as Hlt.
    { apply (f_equal (@List.length _)) in Hw.
      rewrite !length_map, length_seq in Hw. rewrite <- Hw.
      apply nth_error_Some. now rewrite Hi. }
    rewrite nth_error_seq in Hf.
    destruct (Nat.ltb_spec i n) as [_|]; [|lia].
    cbn [option_map Nat.add] in Hf. symmetry. congruence. }
  split; [|exact Hnth].
  apply Forall_forall. intros l Hin.
  apply In_nth_error in Hin. destruct Hin as (i & Hi).
  apply (nth_error_In _ _ (Hnth i l Hi)).
Qed.

(** ** The joined frame *)

Lemma filter_key_absent {A} (key : A -> Z) (rows : list A) (k : Z) :
  ~ In k (map key rows) -> filter (fun r => Z.eqb (key r) k) rows = [].
Proof.
  induction rows as [|x rows IH]; cbn [map In filter]; [reflexivity|].
  intros H. destruct (Z.eqb_spec (key x) k) as [E|E].
  - exfalso. apply H. now left.
  - apply IH. intros Hin. apply H. now right.
Qed.

Lemma filter_key_present {A} (key : A -> Z) (rows : list A) (k : Z) :
  NoDup (map key rows) -> In k (map key rows) ->
  exists r, filter (fun r => Z.eqb (key r) k) rows = [r] /\ In r rows.
Proof.
  induction rows as [|x rows IH]; cbn [map In filter]; [intros _ []|].
  intros Hnd Hin. inversion Hnd as [|? ? Hnotin Hnd']; subst.
  destruct (Z.eqb_spec (key x) k) as [E|E].
  - exists x. split; [|now left]. f_equal.
    apply filter_key_absent. now rewrite <- E.
  - destruct Hin as [Hin|Hin]; [contradiction|].
    destruct (IH Hnd' Hin) as (r & Hr & Hrin). exists r.
    split; [exact Hr | now right].
Qed.

Lemma join_users_all (db : database) (rows : list collection_row) :
  NoDup (map u_id (users db)) ->
  Forall (fun r => In (wc_user_id r) (map u_id (users db))) rows ->
  map fst (join_users db rows) = rows.
Proof.
  intros Hnd. induction 1 as [|wc rows Hwc _ IH]; [reflexivity|].
  unfold join_users in *. cbn [flat_map]. rewrite map_app, IH.
  destruct (filter_key_present u_id (users db) (wc_user_id wc) Hnd Hwc)
    as (u & -> & _).
  reflexivity.
Qed.

(** X18: at a store whose user keys are distinct and whose collections
    are all owned by a user of the table, the frame of [get_waste_data] has
    exactly one row for each collection, in the order of the table: the
    join drops none and repeats none. *)
Theorem get_waste_data_has_every_collection (c : connection) :
  keys_distinct (current c) -> references_valid (current c) ->
  map fst (get_waste_data c) = waste_collections (current c).
Proof.
  intros Hk Hr. unfold get_waste_data.
  apply join_users_all; [apply (distinct_user_ids Hk)|].
  apply (collections_owned Hr).
Qed.

(** ** The rates on the sample rows *)

Section SeededRates.

Variable sha256_hexdigest : string -> string.

Lemma has_blob_rows (waste_data : list (collection_row * user_row)) :
  waste_data <> [] ->
  Forall (fun row => stored_as_int (wc_segregated (fst row)) = false)
         waste_data ->
  has_blob (segregated_column waste_data) = true.
Proof.
  destruct waste_data as [|row rest]; [contradiction|].
  intros _ H. inversion H as [|? ? Hrow _]; subst.
  cbn [segregated_column map has_blob existsb]. now rewrite Hrow.
Qed.

(** C6: the rate of [create_efficiency_dashboard] is not a percentage on
    the rows that [init_database] itself inserts.  On a freshly seeded store
    the frame has a row for each of the fifty sample collections, their
    flags are the bytes of a NumPy integer, and the sum and division of
    lines 1459-1460 raise [TypeError]; the rate of the register page, which
    decodes the bytes (line 619), is on the same frame the percentage of
    set flags, between 0 and 100. *)
Theorem seeded_flags_break_efficiency_rate (draws : seed_draws) (now : string) :
  (forall i, 2 <= d_user_id (draw_collection draws i) <= 10) ->
  exists c1 infra1,
    init_database sha256_hexdigest draws now empty_connection
      empty_infrastructure = Done (c1, infra1)
    /\ map fst (get_waste_data c1) = waste_collections (current c1)
    /\ List.length (get_waste_data c1) = 50%nat
    /\ efficiency_segregation_rate (get_waste_data c1) = TypeError
    /\ create_efficiency_dashboard (get_waste_data c1) = TypeError
    /\ register_segregation_rate (get_waste_data c1)
       = Some (Num (percentage
                      (segregated_count
                         (segregated_column (get_waste_data c1))) 50))
    /\ (0 <= percentage
               (segregated_count (segregated_column (get_waste_data c1))) 50
         <= 100)%Q.
Proof.
  intros Hrange.
  destruct (seeded_store sha256_hexdigest draws now Hrange)
    as (c1 & infra1 & E & [[_ Hk Hr _] _] & _ & _ & Hlen & _ & _ & Hflags).
  exists c1, infra1. split; [exact E|].
  cbn [site_conn] in Hk, Hr.
  pose proof (join_users_all (current c1) (waste_collections (current c1))
                (distinct_user_ids Hk) (collections_owned Hr)) as Hjoin.
  fold (get_waste_data c1) in Hjoin.
  assert (Hlen' : List.length (get_waste_data c1) = 50%nat)
    by (rewrite <- Hlen, <- Hjoin; symmetry; apply length_map).
  assert (Hne : get_waste_data c1 <> [])
    by (intros H0; rewrite H0 in Hlen'; discriminate).
  assert (Hrows : Forall (fun row =>
                            stored_as_int (wc_segregated (fst row)) = false
                            /\ is_flag (wc_segregated (fst row)) = true)
                         (get_waste_data c1)).
  { apply Forall_forall. intros row Hin.
    apply (proj1 (Forall_forall _ _) Hflags).
    rewrite <- Hjoin. now apply in_map. }
  assert (Hblob : has_blob (segregated_column (get_waste_data c1)) = true).
  { apply has_blob_rows; [exact Hne|].
    apply Forall_forall. intros row Hrow.
    apply (proj1 (Forall_forall _ _) Hrows row Hrow). }
  split; [exact Hjoin|]. split; [exact Hlen'|].
  split; [exact (efficiency_rate_of_blob _ Hblob)|].
  split.
  { unfold create_efficiency_dashboard.
    now rewrite (efficiency_rate_of_blob _ Hblob). }
  destruct (@register_rate_is_percentage (get_waste_data c1) Hne)
    as [Hrate Hbounds].
  { unfold segregated_column. rewrite forallb_forall. intros x Hx.
    apply in_map_iff in Hx. destruct Hx as (row & <- & Hrow).
    apply (proj1 (Forall_forall _ _) Hrows row Hrow). }
  rewrite Hlen' in Hrate, Hbounds.
  split; [exact Hrate | exact Hbounds].
Qed.

(** X19: on a freshly seeded store [show_reports] never brings its
    segregation rate out.  For every date range it either finds no
    collection and shows the no-data warning, or raises [TypeError] at the
    rate of line 1197, because the flags of the sample rows are bytes that
    it sums as they come. *)
Theorem show_reports_on_seeded_store (draws : seed_draws) (now : string) :
  exists c1 infra1,
    init_database sha256_hexdigest draws now empty_connection
      empty_infrastructure = Done (c1, infra1)
    /\ forall (sqlite_date : string -> option string)
              (start_date end_date : string),
         match show_reports sqlite_date c1 start_date end_date with
         | Returns (Some _, _) => False
         | Returns (None, shown) =>
             report_data sqlite_date (current c1) start_date end_date = []
             /\ shown
                = [Warning "No data available for the selected date range."]
         | TypeError =>
             report_data sqlite_date (current c1) start_date end_date <> []
         end.
Proof.
  destruct (seeded_flags sha256_hexdigest draws now)
    as (c1 & infra1 & E & Hflags).
  exists c1, infra1. split; [exact E|].
  intros sqlite_date start_date end_date.
  pose proof (show_reports_effect sqlite_date c1 start_date end_date) as H.
  cbv zeta in H.
  destruct (show_reports sqlite_date c1 start_date end_date)
    as [[[m|] shown]|].
  - destruct H as (Hdata & Hblob & _).
    rewrite has_blob_rows in Hblob; [discriminate|exact Hdata|].
    apply Forall_forall. intros row Hrow.
    unfold report_data in Hrow. apply join_users_rows in Hrow.
    apply filter_In in Hrow.
    apply (proj1 (Forall_forall _ _) Hflags (fst row) (proj1 Hrow)).
  - exact H.
  - apply has_blob_not_empty in H. intros H0. apply H.
    now rewrite H0.
Qed.

End SeededRates.

(** ** Reading a tracking code back *)

Lemma append_same_length_inj (s s' t t' : string) :
  String.length t = String.length t' ->
  s ++ t = s' ++ t' -> s = s' /\ t = t'.
Proof.
  revert s'. induction s as [|ch s IH]; intros [|ch' s'] Hlen H.
  - now split.
  - exfalso. cbn [append] in H. rewrite H in Hlen.
    cbn [String.length] in Hlen. rewrite length_append in Hlen. lia.
  - exfalso. cbn [append] in H. rewrite <- H in Hlen.
    cbn [String.length] in Hlen. rewrite length_append in Hlen. lia.
  - cbn [append] in H. injection H as -> H.
    destruct (IH s' Hlen H) as [-> ->]. now split.
Qed.

Lemma decimal_inj (n n' : N) : decimal n = decimal n' -> n = n'.
Proof.
  unfold decimal. intros H. apply DecimalN.Unsigned.to_uint_inj.
  assert (forall m, N.to_uint m <> Decimal.Nil) as Hnonnil.
  { intros [|p]; [discriminate | apply DecimalPos.Unsigned.to_uint_nonnil]. }
  apply (f_equal NilZero.uint_of_string) in H.
  rewrite !NilZero.usu in H by apply Hnonnil. now injection H.
Qed.

Lemma make_unique_waste_id_inj (year year' : N) (urandom urandom' : nat -> byte) :
  make_unique_waste_id year urandom = make_unique_waste_id year' urandom' ->
  year = year' /\ token_bytes 4 urandom = token_bytes 4 urandom'.
Proof.
  unfold make_unique_waste_id, token_hex. intros H.
  apply (append_same_length_inj ("WG" ++ decimal year) ("WG" ++ decimal year'))
    in H.
  - destruct H as [Hy Hh]. split.
    { apply decimal_inj. cbn [append] in Hy. now injection Hy. }
    apply (f_equal bytes_of_upper_hex) in Hh.
    now rewrite !bytes_of_upper_hex_bytes_hex in Hh.
  - rewrite !(proj1 (upper_bytes_hex _)). now rewrite !token_bytes_length.
Qed.

(** X20: a tracking code can be read back.  The bytes behind the
    hexadecimal digits of a code are the bytes that were drawn, so two codes
    are the same text exactly when they were made in the same year from the
    same four random bytes. *)
Theorem tracking_code_identifies_draw (year year' : N)
  (urandom urandom' : nat -> byte) :
  bytes_of_upper_hex (upper (token_hex 4 urandom)) = token_bytes 4 urandom
  /\ (make_unique_waste_id year urandom = make_unique_waste_id year' urandom'
      <-> year = year' /\ token_bytes 4 urandom = token_bytes 4 urandom').
Proof.
  split; [apply bytes_of_upper_hex_bytes_hex|].
  split; [apply make_unique_waste_id_inj|].
  intros [-> H]. unfold make_unique_waste_id, token_hex. now rewrite H.
Qed.

Section RegistrationProperties.

Variable sha256_hexdigest : string -> string.

(** X21: what makes [show_register] answer "Username or email already
    exists.".  It does so, leaving the store as it was, exactly when a stored
    user has the username, or the e-mail, or a tracking code made in the
    same year from the four bytes drawn for this registration; the message
    is the same in the three cases. *)
Theorem show_register_rejects_iff (c : connection) (f : register_form)
  (year : N) (urandom : nat -> byte) (now : string) :
  show_register sha256_hexdigest c f year urandom now
  = (c, Error "Username or email already exists.")
  <-> exists o,
        In o (users (current c))
        /\ (u_username o = rf_username f
            \/ u_email o = rf_email f
            \/ u_unique_waste_id o = make_unique_waste_id year urandom).
Proof.
  destruct (show_register_cases sha256_hexdigest c f year urandom now)
    as [[Hv ->]|[Hv (c' & -> & _)]].
  - split; [intros _|reflexivity].
    unfold violates_unique in Hv. apply existsb_exists in Hv.
    destruct Hv as (o & Hin & Ho). exists o. split; [exact Hin|].
    cbn [new_user_row u_username u_email u_unique_waste_id] in Ho.
    apply orb_true_iff in Ho. destruct Ho as [Ho|Ho].
    + apply orb_true_iff in Ho. destruct Ho as [Ho|Ho].
      * left. now apply String.eqb_eq.
      * right. left. now apply String.eqb_eq.
    + right. right. now apply String.eqb_eq.
  - split; [discriminate|]. intros (o & Hin & Ho). exfalso.
    destruct (violates_unique_false _ _ _ Hv Hin) as (Hu & He & Hw).
    cbn [new_user_row u_username u_email u_unique_waste_id] in Hu, He, Hw.
    destruct Ho as [Ho|[Ho|Ho]]; contradiction.
Qed.

End RegistrationProperties.

(** ** The users table is never empty behind a page *)

Section UserManagement.

Variable sha256_hexdigest : string -> string.

Lemma init_database_users (draws : seed_draws) (now : string)
  (c c1 : connection) (infra infra1 : infrastructure) :
  init_database sha256_hexdigest draws now c infra = Done (c1, infra1) ->
  users (current c1) <> [].
Proof.
  unfold init_database.
  destruct (users (current c)) as [|r rows] eqn:Hu.
  - destruct (seed_users sha256_hexdigest draws now (current c)) as [db1|] eqn:Hs;
      [|discriminate].
    destruct (insert_vehicles _ _) as [infra'|]; [|discriminate].
    intros [= <- _]. cbn [current commit].
    rewrite (seed_collections_users draws now db1).
    apply (insert_users_not_empty _ _ _ Hs). left. intros [=].
  - intros [= <- _]. cbn [current commit]. rewrite Hu. discriminate.
Qed.

(** X22: every page opens its connection through [init_database], and
    the connection it returns always has a user, committed.  So the
    average of the points column on the user management page is a number,
    never the NaN of an empty column. *)
Theorem user_management_average_is_number (draws : seed_draws) (now : string)
  (c : connection) (infra : infrastructure) :
  match init_database sha256_hexdigest draws now c infra with
  | Done (c1, _) =>
      users (current c1) <> []
      /\ durable c1 = current c1
      /\ exists q, snd (show_user_management c1) = Num q
  | Fails _ => True
  end.
Proof.
  destruct (init_database sha256_hexdigest draws now c infra)
    as [[c1 infra1]|e] eqn:E; [|exact I].
  pose proof (init_database_users _ _ _ _ _ _ E) as Hne.
  split; [exact Hne|]. split.
  - unfold init_database in E.
    destruct (users (current c));
      [|injection E as <- _; cbn [commit durable current]; reflexivity].
    destruct (seed_users _ _ _ _); [|discriminate].
    destruct (insert_vehicles _ _); [|discriminate].
    injection E as <- _. cbn [commit durable current]. reflexivity.
  - unfold show_user_management. cbn [snd]. unfold series_mean.
    destruct (users (current c1)); [contradiction|]. cbn [map].
    eexists. reflexivity.
Qed.

End UserManagement.

(** * The properties on the sample data *)

Ltac site0_is_sound :=
  split; [|constructor]; constructor; cbn;
  [ reflexivity
  | constructor; cbn; repeat constructor; intros []
  | constructor; constructor
  | constructor ].

(** X1 on the sample visit. *)
Lemma sessions_and_statuses_stay_sound_witness :
  sound Demo.site0
  /\ exists s',
       serve Sample.toy_digest Sample.first_ten Demo.site0 Demo.visit = Done s'
       /\ Forall (fun ss =>
                    if logged_in ss
                    then exists u row,
                           user ss = Some u
                           /\ In row (users (current (site_conn s')))
                           /\ s_id u = u_id row
                           /\ s_username u = u_username row
                           /\ s_user_type u = u_user_type row
                    else user ss = None)
                 (site_sessions s')
       /\ Forall (fun v => In (ve_status v) vehicle_status_options)
                 (vehicles (site_infra s')).
Proof.
  assert (Hs : sound Demo.site0) by site0_is_sound.
  split; [exact Hs|].
  exact (sessions_and_statuses_stay_sound Sample.toy_digest Sample.first_ten Demo.site0
           Demo.visit Hs).
Defined.

(** X2 on the sample visit. *)
Lemma serve_keeps_keys_and_references_witness :
  sound Demo.site0
  /\ exists s',
       serve Sample.toy_digest Sample.first_ten Demo.site0 Demo.visit = Done s'
       /\ keys_distinct (current (site_conn s'))
       /\ references_valid (current (site_conn s')).
Proof.
  assert (Hs : sound Demo.site0) by site0_is_sound.
  split; [exact Hs|].
  exact (serve_keeps_keys_and_references Sample.toy_digest Sample.first_ten
           Demo.site0 Demo.visit Hs).
Defined.

(** X3 on the sample visit. *)
Lemma serve_commits_everything_witness :
  sound Demo.site0
  /\ exists s',
       serve Sample.toy_digest Sample.first_ten Demo.site0 Demo.visit = Done s'
       /\ durable (site_conn s') = current (site_conn s').
Proof.
  assert (Hs : sound Demo.site0) by site0_is_sound.
  split; [exact Hs|].
  exact (serve_commits_everything Sample.toy_digest Sample.first_ten
           Demo.site0 Demo.visit Hs).
Defined.

(** X4 on the sample visit. *)
Lemma serve_only_adds_witness :
  sound Demo.site0
  /\ exists s',
       serve Sample.toy_digest Sample.first_ten Demo.site0 Demo.visit = Done s'
       /\ grows (current (site_conn Demo.site0)) (current (site_conn s'))
       /\ infra_grows (site_infra Demo.site0) (site_infra s').
Proof.
  assert (Hs : sound Demo.site0) by site0_is_sound.
  split; [exact Hs|].
  exact (serve_only_adds Sample.toy_digest Sample.first_ten Demo.site0
           Demo.visit Hs).
Defined.

(** X5 on the sample visit. *)
Lemma serve_never_changes_roles_witness :
  sound Demo.site0
  /\ exists s' added,
       serve Sample.toy_digest Sample.first_ten Demo.site0 Demo.visit = Done s'
       /\ map u_user_type (users (current (site_conn s')))
          = (map u_user_type (users (current (site_conn Demo.site0)))
             ++ repeat "citizen" added)%list.
Proof.
  assert (Hs : sound Demo.site0) by site0_is_sound.
  split; [exact Hs|].
  exact (serve_never_changes_roles Sample.toy_digest Sample.first_ten
           Demo.site0 Demo.visit Hs).
Defined.

(** X6 on the sample visit: Alice starts with no points. *)
Lemma serve_never_lowers_stored_points_witness :
  sound Demo.site0
  /\ stored_points (current (site_conn Demo.site0)) 1 = Some 0
  /\ exists s' after,
       serve Sample.toy_digest Sample.first_ten Demo.site0 Demo.visit = Done s'
       /\ stored_points (current (site_conn s')) 1 = Some after
       /\ 0 <= after.
Proof.
  assert (Hs : sound Demo.site0) by site0_is_sound.
  assert (Hb : stored_points (current (site_conn Demo.site0)) 1 = Some 0)
    by reflexivity.
  split; [exact Hs|]. split; [exact Hb|].
  exact (serve_never_lowers_stored_points Sample.toy_digest Sample.first_ten
           Demo.site0 Demo.visit 1 0 Hs Hb).
Defined.

(** X7 for Alice, a citizen, scheduling a pickup. *)
Lemma menu_separates_roles_witness :
  let p := Demo.alice_portal in
  let u := user_dict Sample.alice in
  exists p' shown,
    logged_in (p_session p) = true
    /\ user (p_session p) = Some u
    /\ offered (s_user_type u)
         (OnPage "Schedule Collection" (SubmitCollection Sample.wet_collection))
       = true
    /\ main Sample.toy_digest Sample.first_ten p
         (OnPage "Schedule Collection" (SubmitCollection Sample.wet_collection))
       = Done (p', shown)
    /\ (s_user_type u <> "worker" ->
        extends eq (fun _ => True) (waste_collections (current (p_conn p)))
          (waste_collections (current (p_conn p')))
        /\ vehicles (p_infra p') = vehicles (p_infra p))
    /\ (s_user_type u <> "admin" ->
        facilities (p_infra p') = facilities (p_infra p))
    /\ (s_user_type u = "admin" \/ s_user_type u = "worker" ->
        users (current (p_conn p')) = users (current (p_conn p))
        /\ complaints (current (p_conn p')) = complaints (current (p_conn p))
        /\ List.length (waste_collections (current (p_conn p')))
           = List.length (waste_collections (current (p_conn p)))).
Proof.
  intros p u.
  destruct (main Sample.toy_digest Sample.first_ten p
              (OnPage "Schedule Collection"
                 (SubmitCollection Sample.wet_collection)))
    as [[p' shown]|e] eqn:E; [|vm_compute in E; discriminate].
  exists p', shown.
  assert (Hl : logged_in (p_session p) = true) by reflexivity.
  assert (Hu : user (p_session p) = Some u) by reflexivity.
  assert (Ho : offered (s_user_type u)
                 (OnPage "Schedule Collection"
                    (SubmitCollection Sample.wet_collection)) = true)
    by reflexivity.
  split; [exact Hl|]. split; [exact Hu|]. split; [exact Ho|].
  split; [reflexivity|].
  exact (menu_separates_roles Sample.toy_digest Sample.first_ten p
           (OnPage "Schedule Collection"
              (SubmitCollection Sample.wet_collection))
           u p' shown Hl Hu Ho E).
Defined.

(** X8 on the sample visit: the sample store has no worker. *)
Lemma no_worker_no_status_change_witness :
  sound Demo.site0
  /\ no_user_of_type "worker" (current (site_conn Demo.site0))
  /\ all_offered Sample.toy_digest Sample.first_ten Demo.site0 Demo.visit
     = true
  /\ exists s' added,
       serve Sample.toy_digest Sample.first_ten Demo.site0 Demo.visit = Done s'
       /\ waste_collections (current (site_conn s'))
          = (waste_collections (current (site_conn Demo.site0)) ++ added)%list
       /\ vehicles (site_infra s') = vehicles (site_infra Demo.site0)
       /\ no_user_of_type "worker" (current (site_conn s')).
Proof.
  assert (Hs : sound Demo.site0) by site0_is_sound.
  assert (Hw : no_user_of_type "worker" (current (site_conn Demo.site0)))
    by (constructor; [discriminate | constructor]).
  assert (Ho : all_offered Sample.toy_digest Sample.first_ten Demo.site0
                 Demo.visit = true) by (vm_compute; reflexivity).
  split; [exact Hs|]. split; [exact Hw|]. split; [exact Ho|].
  exact (no_worker_no_status_change Sample.toy_digest Sample.first_ten
           Demo.site0 Demo.visit Hs Hw Ho).
Defined.

(** X9 on the sample visit. *)
Lemma serve_never_resolves_complaints_witness :
  sound Demo.site0
  /\ exists s' filed,
       serve Sample.toy_digest Sample.first_ten Demo.site0 Demo.visit = Done s'
       /\ complaints (current (site_conn s'))
          = (complaints (current (site_conn Demo.site0)) ++ filed)%list
       /\ Forall (fun r => cp_status r = Pending) filed
       /\ active_complaints
            (get_dashboard_stats (fun q => q) (site_conn s') (site_infra s'))
          = active_complaints
              (get_dashboard_stats (fun q => q) (site_conn Demo.site0)
                 (site_infra Demo.site0))
            + Z.of_nat (List.length filed).
Proof.
  assert (Hs : sound Demo.site0) by site0_is_sound.
  split; [exact Hs|].
  exact (serve_never_resolves_complaints Sample.toy_digest Sample.first_ten
           (fun q => q) Demo.site0 Demo.visit Hs).
Defined.

(** X12 on the sample draws. *)
Lemma init_database_fresh_store_witness :
  (forall i, 2 <= d_user_id (draw_collection Demo.draws i) <= 10)
  /\ exists c1 infra1,
       init_database Sample.toy_digest Demo.draws "2024-05-01 10:00:00"
         empty_connection empty_infrastructure = Done (c1, infra1)
       /\ sound {| site_conn := c1; site_infra := infra1;
                   site_sessions := [] |}
       /\ no_user_of_type "worker" (current c1)
       /\ List.length (users (current c1)) = 11%nat
       /\ List.length (waste_collections (current c1)) = 50%nat
       /\ List.length (facilities infra1) = 3%nat
       /\ List.length (vehicles infra1) = 3%nat.
Proof.
  assert (Hrange : forall i,
             2 <= d_user_id (draw_collection Demo.draws i) <= 10).
  { intros i. cbn [d_user_id draw_collection Demo.draws].
    pose proof (Nat.mod_upper_bound i 9). lia. }
  split; [exact Hrange|].
  exact (init_database_fresh_store Sample.toy_digest Demo.draws
           "2024-05-01 10:00:00" Hrange).
Defined.

(** X18 on the sample pickup. *)
Lemma get_waste_data_has_every_collection_witness :
  keys_distinct (current Sample.pickup_conn)
  /\ references_valid (current Sample.pickup_conn)
  /\ map fst (get_waste_data Sample.pickup_conn)
     = waste_collections (current Sample.pickup_conn).
Proof.
  assert (Hk : keys_distinct (current Sample.pickup_conn))
    by (constructor; simpl; repeat constructor; intros []).
  assert (Hr : references_valid (current Sample.pickup_conn))
    by (constructor; simpl; repeat constructor).
  split; [exact Hk|]. split; [exact Hr|].
  exact (get_waste_data_has_every_collection Sample.pickup_conn Hk Hr).
Defined.

(** C6 on the sample draws. *)
Lemma seeded_flags_break_efficiency_rate_witness :
  (forall i, 2 <= d_user_id (draw_collection Demo.draws i) <= 10)
  /\ exists c1 infra1,
       init_database Sample.toy_digest Demo.draws "2024-05-01 10:00:00"
         empty_connection empty_infrastructure = Done (c1, infra1)
       /\ map fst (get_waste_data c1) = waste_collections (current c1)
       /\ List.length (get_waste_data c1) = 50%nat
       /\ efficiency_segregation_rate (get_waste_data c1) = TypeError
       /\ create_efficiency_dashboard (get_waste_data c1) = TypeError
       /\ register_segregation_rate (get_waste_data c1)
          = Some (Num (percentage
                         (segregated_count
                            (segregated_column (get_waste_data c1))) 50))
       /\ (0 <= percentage
                  (segregated_count (segregated_column (get_waste_data c1)))
                  50
            <= 100)%Q.
Proof.
  assert (Hrange : forall i,
             2 <= d_user_id (draw_collection Demo.draws i) <= 10).
  { intros i. cbn [d_user_id draw_collection Demo.draws].
    pose proof (Nat.mod_upper_bound i 9). lia. }
  split; [exact Hrange|].
  exact (seeded_flags_break_efficiency_rate Sample.toy_digest Demo.draws
           "2024-05-01 10:00:00" Hrange).
Defined.
